(** * Terminal session manager: lifecycle, snapshots, guardrail, listeners

    A shallow embedding of [src/renderer/terminal/TerminalSessionManager.ts].

    The class is modelled as a record of its private fields together with
    the little runtime state its methods depend on (where the session's
    root element sits in the DOM, which capture promises are unsettled).
    Every method is a computation in a small state/exception/trace monad:
    calls into the outside world (the transport bridge [window.electronAPI],
    the xterm engine, the DOM, the logger, subscriber callbacks) are
    recorded, in order, as a list of [Effect]s; values read from the outside
    world (the clock, the serialized buffer, the terminal size, replies of
    the bridge) are passed in through an [Env] record or as event payloads.

    JavaScript strings are lists of UTF-16 code units. *)

From Stdlib Require Import List Bool Arith ZArith NArith Ascii String Lia.
Import ListNotations.

Local Open Scope Z_scope.

(** ** JavaScript strings *)

Definition code_unit := N.
Definition jsstring := list code_unit.

Definition js (s : string) : jsstring :=
  map (fun a => N_of_ascii a) (list_ascii_of_string s).

(** A string is truthy exactly when it is not empty. *)
Definition truthy_string (s : jsstring) : bool :=
  match s with
  | [] => false
  | _ :: _ => true
  end.

(** A number is truthy exactly when it is not zero (NaN never occurs in
    the integer-valued fields modelled here). *)
Definition truthy_number (n : Z) : bool := negb (n =? 0).

Definition truthy_opt_number (n : option Z) : bool :=
  match n with
  | Some v => truthy_number v
  | None => false
  end.

(** ** Focus-report filter: [data.replace(/\x1b\[I|\x1b\[O/g, '')] *)

Module FocusFilter.

Definition ESC : code_unit := 27%N.
Definition LBRACKET : code_unit := 91%N.
Definition LETTER_I : code_unit := 73%N.
Definition LETTER_O : code_unit := 79%N.

(** The alternation [\x1b\[I|\x1b\[O] tried on three consecutive units. *)
Definition focus_report (a b c : code_unit) : bool :=
  ((a =? ESC) && (b =? LBRACKET) && (c =? LETTER_I))%N
  || ((a =? ESC) && (b =? LBRACKET) && (c =? LETTER_O))%N.

(** Global replace by the empty string: scan left to right; where the
    pattern matches, drop the three units and resume after them;
    otherwise keep the unit and advance by one. *)
Fixpoint replace_focus_reports (data : jsstring) : jsstring :=
  match data with
  | [] => []
  | a :: tl =>
      match tl with
      | b :: c :: rest =>
          if focus_report a b c
          then replace_focus_reports rest
          else a :: replace_focus_reports tl
      | _ => a :: replace_focus_reports tl
      end
  end.

(** *** The claim's wording, as a second definition

    An occurrence of a focus report starts at index [i] of [s] when the
    three units from [i] on spell ESC [ I or ESC [ O. *)
Definition occurrence_at (s : jsstring) (i : nat) : bool :=
  match skipn i s with
  | a :: b :: c :: _ => focus_report a b c
  | _ => false
  end.

(** Index [i] lies inside some occurrence (one starting at [i], [i-1]
    or [i-2]). *)
Definition inside_occurrence (s : jsstring) (i : nat) : bool :=
  occurrence_at s i
  || match i with
     | O => false
     | S j =>
         occurrence_at s j
         || match j with
            | O => false
            | S k => occurrence_at s k
            end
     end.

(** Keep, in order, exactly the units of [rest] (the suffix of [full]
    from index [i]) whose index lies inside no occurrence. *)
Fixpoint keep_outside (full : jsstring) (i : nat) (rest : jsstring) : jsstring :=
  match rest with
  | [] => []
  | c :: tl =>
      if inside_occurrence full i
      then keep_outside full (S i) tl
      else c :: keep_outside full (S i) tl
  end.

Definition without_focus_reports (s : jsstring) : jsstring :=
  keep_outside s 0 s.

End FocusFilter.

(** ** Data model *)

(** An [HTMLElement] handed to [attach], compared by identity ([===]). *)
Definition container := nat.

(** Where the session's root element ([this.container]) currently sits:
    in the off-screen terminal host or inside an attached surface.
    [appendChild] moves a node, so it has one parent at a time. *)
Inductive DomParent :=
| TerminalHost
| Surface (c : container).

Inductive SnapshotReason :=
| interval
| detach_reason
| dispose_reason.

Definition is_detach (r : SnapshotReason) : bool :=
  match r with
  | detach_reason => true
  | _ => false
  end.

Definition opt_is_detach (r : option SnapshotReason) : bool :=
  match r with
  | Some r' => is_detach r'
  | None => false
  end.

Record ExitInfo := {
  exitCode : option Z;
  signal : option Z
}.

(** A thrown JavaScript value. *)
Inductive JsError :=
| JsErr (message : string).

(** A subscriber callback.  Two callbacks are the same function object
    exactly when their [lid] agree; [lthrows arg] tells whether a call
    with [arg] throws.  Callbacks do not call back into the manager. *)
Record Listener (A : Type) := {
  lid : nat;
  lthrows : A -> bool
}.
Arguments lid {A} _.
Arguments lthrows {A} _ _.

(** ** JavaScript [Set] of callbacks: insertion ordered, no duplicates *)
Module ListenerSet.

Definition t (A : Type) := list (Listener A).

Definition has {A} (l : Listener A) (s : t A) : bool :=
  existsb (fun x => Nat.eqb (lid x) (lid l)) s.

Definition add {A} (l : Listener A) (s : t A) : t A :=
  if has l s then s else s ++ [l].

Definition delete {A} (l : Listener A) (s : t A) : t A :=
  filter (fun x => negb (Nat.eqb (lid x) (lid l))) s.

Definition clear {A} (s : t A) : t A := [].

End ListenerSet.

(** The closures pushed on [this.disposables]. *)
Inductive CleanupTag :=
| inputDisposable
| resizeDisposable
| offData
| offExit
| offStarted.

Record CleanupFn := {
  cleanup_tag : CleanupTag;
  cleanup_throws : bool
}.

(** Content of a payload's [data] field as it comes back from the store:
    a string, or some other value of the given truthiness. *)
Inductive JsData :=
| DataString (s : jsstring)
| DataOther (truthy : bool).

Definition truthy_data (d : JsData) : bool :=
  match d with
  | DataString s => truthy_string s
  | DataOther b => b
  end.

(** [TerminalSnapshotPayload], with the fields the manager reads or
    writes.  Fields are optional because a stored payload is only cast to
    the type, never validated. *)
Record SnapshotPayload (Stats : Type) := {
  version : option Z;
  createdAt : string;
  cols : option Z;
  rows : option Z;
  data : option JsData;
  stats : option (Stats * SnapshotReason)
}.
Arguments version {Stats} _.
Arguments createdAt {Stats} _.
Arguments cols {Stats} _.
Arguments rows {Stats} _.
Arguments data {Stats} _.
Arguments stats {Stats} _.

(** Reply of [ptyGetSnapshot]: the promise rejects, or resolves with a
    possibly null response. *)
Record GetResponse (Stats : Type) := {
  get_ok : bool;
  get_snapshot : option (SnapshotPayload Stats)
}.
Arguments get_ok {Stats} _.
Arguments get_snapshot {Stats} _.

Inductive GetReply (Stats : Type) :=
| GetRejected (e : JsError)
| GetResolved (response : option (GetResponse Stats)).
Arguments GetRejected {Stats} _.
Arguments GetResolved {Stats} _.

(** Reply of [ptySaveSnapshot]: rejects, or resolves with [result?.ok]. *)
Inductive SaveReply :=
| SaveRejected (e : JsError)
| SaveResolved (ok : bool).

(** An unsettled promise created by [captureSnapshot]. *)
Inductive TaskStatus :=
| AwaitingSave   (* suspended at [await ptySaveSnapshot] *)
| BodyDone.      (* body returned or caught; [finally] callback queued *)

Record CaptureTask := {
  task_id : nat;
  task_reason : SnapshotReason;
  task_status : TaskStatus
}.

(** How a call ends: it returns a value or throws. *)
Inductive Res (A : Type) :=
| Returned (a : A)
| Thrown (e : JsError).
Arguments Returned {A} _.
Arguments Thrown {A} _.

(** Values read from the outside world during one entry into the manager. *)
Record Env := {
  has_ptySaveSnapshot : bool;       (* window.electronAPI.ptySaveSnapshot is defined *)
  date_now : Z;                     (* Date.now() *)
  date_iso : string;                (* new Date().toISOString() *)
  serialized : option jsstring;     (* serializeAddon.serialize(); None when it throws *)
  term_cols : Z;                    (* terminal.cols *)
  term_rows : Z;                    (* terminal.rows *)
  fitted_cols : Z;                  (* terminal.cols once fitAddon.fit() has run *)
  fitted_rows : Z;
  ptyKill_throws : bool;
  ptyResize_throws : bool
}.

Definition after_fit (env : Env) : Env :=
  {| has_ptySaveSnapshot := has_ptySaveSnapshot env;
     date_now := date_now env;
     date_iso := date_iso env;
     serialized := serialized env;
     term_cols := fitted_cols env;
     term_rows := fitted_rows env;
     fitted_cols := fitted_cols env;
     fitted_rows := fitted_rows env;
     ptyKill_throws := ptyKill_throws env;
     ptyResize_throws := ptyResize_throws env |}.

Definition SNAPSHOT_INTERVAL_MS : Z := 2 * 60 * 1000.
Definition MAX_DATA_WINDOW_BYTES : Z := 128 * 1024 * 1024.

(** ** What the manager imports from modules that are not at hand

    [#types/terminalSnapshot] (the constant [TERMINAL_SNAPSHOT_VERSION])
    and [./TerminalMetrics] (the guardrail object) are imported by the
    manager but are not part of the sources.  The manager is written
    against this interface: the constant, the guardrail's state and the
    five methods the manager calls on it. *)
Class Imports := {
  TERMINAL_SNAPSHOT_VERSION : Z;
  Metrics : Type;
  MetricsStats : Type;
  metrics_new : Z -> Metrics;                          (* new TerminalMetrics({ maxDataWindowBytes }) *)
  canAccept : jsstring -> Metrics -> bool * Metrics;
  recordExit : ExitInfo -> Metrics -> Metrics;
  metrics_snapshot : Metrics -> MetricsStats;
  markSnapshot : Metrics -> Metrics;
  metrics_dispose : Metrics -> Metrics
}.

(** ** A guardrail as section 4.4 of the specification describes it *)
Module SpecMetrics.

Record state := {
  ceiling : Z;             (* the fixed budget *)
  bytesTracked : Z;        (* bytes admitted since the last reset *)
  counting : bool;         (* cleared by [recordExit] *)
  exit_info : option ExitInfo
}.

Definition chunk_size (chunk : jsstring) : Z := Z.of_nat (List.length chunk).

(** Modelled from the spec: [TerminalMetrics.canAccept], whose class
    ([./TerminalMetrics]) is missing from the sources.  "Maintains a
    running total of bytes admitted since the last reset.
    canAccept(chunk): returns whether admitting chunk would keep the
    running total within a fixed ceiling; the caller is responsible for
    the corrective action."  A chunk that fits is admitted (added to the
    total, while counting); one that does not fit leaves the guardrail
    as it was. *)
Definition spec_canAccept (chunk : jsstring) (m : state) : bool * state :=
  let total := bytesTracked m + chunk_size chunk in
  if total <=? ceiling m
  then (true,
        if counting m
        then {| ceiling := ceiling m; bytesTracked := total;
                counting := true; exit_info := exit_info m |}
        else m)
  else (false, m).

(** Modelled from the spec: [TerminalMetrics.recordExit], missing from
    the sources.  "recordExit(info): stops counting (process is done);
    guardrail state persists for introspection." *)
Definition spec_recordExit (info : ExitInfo) (m : state) : state :=
  {| ceiling := ceiling m; bytesTracked := bytesTracked m;
     counting := false; exit_info := Some info |}.

(** Modelled from the spec: [TerminalMetrics.markSnapshot], missing from
    the sources.  "On success, guardrail counters are reset/marked." *)
Definition spec_markSnapshot (m : state) : state :=
  {| ceiling := ceiling m; bytesTracked := 0;
     counting := counting m; exit_info := exit_info m |}.

(** Modelled from the spec: [TerminalMetrics.snapshot], missing from the
    sources; the payload's [stats] are "guardrail counters + capture
    reason, informational only". *)
Definition spec_snapshot (m : state) : Z := bytesTracked m.

(** Modelled from the spec: the [TerminalMetrics] constructor and
    [dispose], missing from the sources; the counter starts at zero and
    the state "persists for introspection until the session is
    disposed". *)
Definition spec_new (maxDataWindowBytes : Z) : state :=
  {| ceiling := maxDataWindowBytes; bytesTracked := 0;
     counting := true; exit_info := None |}.

Definition spec_dispose (m : state) : state :=
  {| ceiling := ceiling m; bytesTracked := bytesTracked m;
     counting := false; exit_info := exit_info m |}.

(** Modelled from the spec: the constant [TERMINAL_SNAPSHOT_VERSION] of
    [#types/terminalSnapshot], missing from the sources; section 8 has
    "current version is 1". *)
Definition spec_version : Z := 1.

Definition imports : Imports :=
  {| TERMINAL_SNAPSHOT_VERSION := spec_version;
     Metrics := state;
     MetricsStats := Z;
     metrics_new := spec_new;
     canAccept := spec_canAccept;
     recordExit := spec_recordExit;
     metrics_snapshot := spec_snapshot;
     markSnapshot := spec_markSnapshot;
     metrics_dispose := spec_dispose |}.

End SpecMetrics.

(** ** Main-process IPC handlers: [main/ipc/agentIpc.ts] and
    [main/services/codexIpc.ts]

    The handlers are closures over services of the main process that are
    not at hand (the worktree, agent and codex services, the settings,
    Electron's windows and notifications, the file system).  What a
    handler reads from them is gathered in a [Services] record; what it
    asks of them is recorded, in order, as a list of [Call]s. *)
Module MainIpc.

(** A thrown value: an [Error] object with its name and message, or a
    value without a truthy [message], with what [String(value)] gives
    for it. *)
Inductive Throwable :=
| ErrorObject (name message : string)
| NonError (shown : string).

Inductive Outcome (A : Type) :=
| Done (a : A)
| Failed (e : Throwable).
Arguments Done {A} _.
Arguments Failed {A} _.

(** [String(e)] for a thrown value. *)
Definition String_of (e : Throwable) : string :=
  match e with
  | ErrorObject name EmptyString => name
  | ErrorObject EmptyString message => message
  | ErrorObject name message => name ++ ": " ++ message
  | NonError shown => shown
  end.

(** [e?.message || String(e)] (agentIpc.ts). *)
Definition agent_error_text (e : Throwable) : string :=
  match e with
  | ErrorObject _ EmptyString => String_of e
  | ErrorObject _ message => message
  | NonError _ => String_of e
  end.

(** [error instanceof Error ? error.message : 'Unknown error'] (codexIpc.ts). *)
Definition codex_error_text (e : Throwable) : string :=
  match e with
  | ErrorObject _ message => message
  | NonError _ => "Unknown error"
  end.

Record Worktree := {
  wt_id : string;
  wt_path : string
}.

Inductive ProviderId :=
| codex
| claude.

Definition provider_text (p : ProviderId) : string :=
  match p with
  | codex => "codex"
  | claude => "claude"
  end.

Record NotificationSettings := {
  enabled : bool;       (* truthiness of [settings.notifications.enabled] *)
  sound : bool          (* truthiness of [settings.notifications.sound] *)
}.

Record Services := {
  path_join : string -> string -> string;
  existsSync : string -> bool;
  statSync_isFile : string -> Outcome bool;           (* statSync(p).isFile() *)
  getWorktree : string -> Outcome (option Worktree);
  getAllWorktrees : Outcome (list Worktree);
  startStream : ProviderId -> string -> string -> Outcome unit;   (* awaited *)
  createAgent : string -> string -> Outcome string;               (* awaited; the agent *)
  getAppSettings : Outcome (option NotificationSettings);         (* settings.notifications *)
  notification_isSupported : bool;
  windows_focused : list bool;                        (* w.isFocused() of each window *)
  notification_show_fails : option Throwable
}.

Inductive Call :=
| LogDebugResolved (workspaceId path : string)
| LogWarnNotFound (workspaceId path subject : string)
| LogDebugNotWorktree (workspaceId path : string)
| StartStream (provider : ProviderId) (workspaceId path : string)
| CreateAgent (workspaceId path : string)
| ShowNotification (title body : string) (silent : bool)
| ConsoleError (text : string).

(** [isWorktreePath]: [.git] exists and is a file; any exception gives
    [false]. *)
Definition isWorktreePath (sv : Services) (checkPath : string) : bool :=
  let gitMeta := path_join sv checkPath ".git" in
  if existsSync sv gitMeta
  then match statSync_isFile sv gitMeta with
       | Done is_file => is_file
       | Failed _ => false
       end
  else false.

(** The block both handlers start with: which directory the agent is to
    run in.  [subject] is the name the warning uses for the agent. *)
Definition resolve_worktree_path (sv : Services) (subject : string)
    (workspaceId worktreePath : string) : Outcome string * list Call :=
  if String.prefix "wt-" workspaceId then
    match getWorktree sv workspaceId with
    | Failed e => (Failed e, [])
    | Done found =>
        let second_look :=
          match found with
          | Some wt => Done (Some wt)
          | None =>
              match getAllWorktrees sv with
              | Failed e => Failed e
              | Done all => Done (find (fun wt => String.eqb (wt_id wt) workspaceId) all)
              end
          end in
        match second_look with
        | Failed e => (Failed e, [])
        | Done (Some wt) =>
            (Done (wt_path wt), [LogDebugResolved workspaceId (wt_path wt)])
        | Done None =>
            (Done worktreePath,
             if isWorktreePath sv worktreePath then []
             else [LogWarnNotFound workspaceId worktreePath subject])
        end
    end
  else
    (Done worktreePath,
     if isWorktreePath sv worktreePath then []
     else [LogDebugNotWorktree workspaceId worktreePath]).

(** What a handler returns to the renderer. *)
Inductive Reply (A : Type) :=
| Success (value : A)
| Failure (error : string).
Arguments Success {A} _.
Arguments Failure {A} _.

(** The ['agent:send-message-stream'] handler. *)
Definition agent_send_message_stream (sv : Services) (providerId : ProviderId)
    (workspaceId worktreePath : string) : Reply unit * list Call :=
  match resolve_worktree_path sv (provider_text providerId) workspaceId worktreePath with
  | (Failed e, calls) => (Failure (agent_error_text e), calls)
  | (Done resolvedPath, calls) =>
      match startStream sv providerId workspaceId resolvedPath with
      | Done _ =>
          (Success tt, calls ++ [StartStream providerId workspaceId resolvedPath])
      | Failed e =>
          (Failure (agent_error_text e),
           calls ++ [StartStream providerId workspaceId resolvedPath])
      end
  end.

(** The ['codex:create-agent'] handler. *)
Definition codex_create_agent (sv : Services) (workspaceId worktreePath : string)
    : Reply string * list Call :=
  match resolve_worktree_path sv "Codex" workspaceId worktreePath with
  | (Failed e, calls) => (Failure (codex_error_text e), calls)
  | (Done resolvedPath, calls) =>
      match createAgent sv workspaceId resolvedPath with
      | Done agent => (Success agent, calls ++ [CreateAgent workspaceId resolvedPath])
      | Failed e =>
          (Failure (codex_error_text e), calls ++ [CreateAgent workspaceId resolvedPath])
      end
  end.

(** [showCompletionNotification(providerName)]. *)
Definition showCompletionNotification (sv : Services) (providerName : string) : list Call :=
  match getAppSettings sv with
  | Failed e => [ConsoleError "Failed to show notification:"]
  | Done notifications =>
      if negb (match notifications with
               | Some n => enabled n
               | None => false
               end) then []
      else if negb (notification_isSupported sv) then []
      else if existsb (fun focused => focused) (windows_focused sv) then []
      else
        ShowNotification (providerName ++ " Task Complete") "Your agent has finished working"
          (negb (match notifications with
                 | Some n => sound n
                 | None => false
                 end))
        :: match notification_show_fails sv with
           | Some _ => [ConsoleError "Failed to show notification:"]
           | None => []
           end
  end.

(** The name the ['agent:complete'] bridge notifies under. *)
Definition completion_provider_name (providerId : string) : string :=
  if String.eqb providerId "claude" then "Claude" else "Agent".

Definition is_service_call (c : Call) : bool :=
  match c with
  | StartStream _ _ _ | CreateAgent _ _ => true
  | _ => false
  end.

Definition call_path (c : Call) : option string :=
  match c with
  | StartStream _ _ p | CreateAgent _ p => Some p
  | _ => None
  end.

Definition is_notification (c : Call) : bool :=
  match c with
  | ShowNotification _ _ _ => true
  | _ => false
  end.

(** The directory the resolution settles on is the one the renderer
    sent, or the path of a worktree registered under the workspace id. *)
Definition sound_directory (sv : Services) (workspaceId worktreePath p : string) : Prop :=
  p = worktreePath
  \/ (String.prefix "wt-" workspaceId = true
      /\ exists wt,
           wt_path wt = p
           /\ (getWorktree sv workspaceId = Done (Some wt)
               \/ (getWorktree sv workspaceId = Done None
                   /\ exists all,
                        getAllWorktrees sv = Done all
                        /\ In wt all
                        /\ wt_id wt = workspaceId))).

End MainIpc.

Section Manager.

Context {W : Imports}.

Definition Payload := SnapshotPayload MetricsStats.

(** ** Calls into the outside world, in the order they are made *)
Inductive Effect :=
| PtyStart (id : string) (cols rows : Z)
| PtyInput (id : string) (data : jsstring)
| PtyResize (id : string) (cols rows : Z)
| PtyKill (id : string)
| PtyGetSnapshot (id : string)
| PtySaveSnapshot (id : string) (payload : Payload)
| TerminalOpen
| TerminalFit
| TerminalClear
| TerminalWriteln (line : jsstring)
| TerminalWrite (text : jsstring)
| TerminalReset
| TerminalResize (cols rows : Z)
| TerminalRefresh (first last : Z)
| TerminalFocus
| TerminalDispose
| AppendChild (parent : DomParent)
| ObserverObserve (c : container)
| ObserverDisconnect (c : container)
| RequestAnimationFrame
| SetInterval (ms : Z)
| ClearInterval
| LogWarn (message : string)
| LogError (message : string)
| CallActivity (listener : nat)
| CallReady (listener : nat)
| CallError (listener : nat) (message : string)
| CallExit (listener : nat) (info : ExitInfo)
| RunCleanup (tag : CleanupTag).

(** ** The manager's fields, and the runtime state they depend on *)
Record State := {
  id : string;
  attachedContainer : option container;
  resizeObserver : option container;      (* the observer and the element it observes *)
  disposables : list CleanupFn;
  snapshotTimer : bool;                   (* a timer handle is held *)
  pendingSnapshot : option nat;           (* the promise, by task id *)
  disposed : bool;
  opened : bool;
  activityListeners : ListenerSet.t unit;
  readyListeners : ListenerSet.t unit;
  errorListeners : ListenerSet.t string;
  exitListeners : ListenerSet.t ExitInfo;
  firstFrameRendered : bool;
  ptyStarted : bool;
  lastSnapshotAt : option Z;
  lastSnapshotReason : option SnapshotReason;
  metrics : Metrics;
  (* runtime state outside the object *)
  container_parent : DomParent;           (* parent of [this.container] in the DOM *)
  inflight : list CaptureTask;            (* unsettled capture promises, oldest first *)
  next_task : nat
}.

Definition set_attachedContainer (v : option container) (s : State) : State :=
  {| id := id s; attachedContainer := v; resizeObserver := resizeObserver s;
     disposables := disposables s; snapshotTimer := snapshotTimer s;
     pendingSnapshot := pendingSnapshot s; disposed := disposed s; opened := opened s;
     activityListeners := activityListeners s; readyListeners := readyListeners s;
     errorListeners := errorListeners s; exitListeners := exitListeners s;
     firstFrameRendered := firstFrameRendered s; ptyStarted := ptyStarted s;
     lastSnapshotAt := lastSnapshotAt s; lastSnapshotReason := lastSnapshotReason s;
     metrics := metrics s; container_parent := container_parent s;
     inflight := inflight s; next_task := next_task s |}.

Definition set_resizeObserver (v : option container) (s : State) : State :=
  {| id := id s; attachedContainer := attachedContainer s; resizeObserver := v;
     disposables := disposables s; snapshotTimer := snapshotTimer s;
     pendingSnapshot := pendingSnapshot s; disposed := disposed s; opened := opened s;
     activityListeners := activityListeners s; readyListeners := readyListeners s;
     errorListeners := errorListeners s; exitListeners := exitListeners s;
     firstFrameRendered := firstFrameRendered s; ptyStarted := ptyStarted s;
     lastSnapshotAt := lastSnapshotAt s; lastSnapshotReason := lastSnapshotReason s;
     metrics := metrics s; container_parent := container_parent s;
     inflight := inflight s; next_task := next_task s |}.

Definition set_disposables (v : list CleanupFn) (s : State) : State :=
  {| id := id s; attachedContainer := attachedContainer s; resizeObserver := resizeObserver s;
     disposables := v; snapshotTimer := snapshotTimer s;
     pendingSnapshot := pendingSnapshot s; disposed := disposed s; opened := opened s;
     activityListeners := activityListeners s; readyListeners := readyListeners s;
     errorListeners := errorListeners s; exitListeners := exitListeners s;
     firstFrameRendered := firstFrameRendered s; ptyStarted := ptyStarted s;
     lastSnapshotAt := lastSnapshotAt s; lastSnapshotReason := lastSnapshotReason s;
     metrics := metrics s; container_parent := container_parent s;
     inflight := inflight s; next_task := next_task s |}.

Definition set_snapshotTimer (v : bool) (s : State) : State :=
  {| id := id s; attachedContainer := attachedContainer s; resizeObserver := resizeObserver s;
     disposables := disposables s; snapshotTimer := v;
     pendingSnapshot := pendingSnapshot s; disposed := disposed s; opened := opened s;
     activityListeners := activityListeners s; readyListeners := readyListeners s;
     errorListeners := errorListeners s; exitListeners := exitListeners s;
     firstFrameRendered := firstFrameRendered s; ptyStarted := ptyStarted s;
     lastSnapshotAt := lastSnapshotAt s; lastSnapshotReason := lastSnapshotReason s;
     metrics := metrics s; container_parent := container_parent s;
     inflight := inflight s; next_task := next_task s |}.

Definition set_pendingSnapshot (v : option nat) (s : State) : State :=
  {| id := id s; attachedContainer := attachedContainer s; resizeObserver := resizeObserver s;
     disposables := disposables s; snapshotTimer := snapshotTimer s;
     pendingSnapshot := v; disposed := disposed s; opened := opened s;
     activityListeners := activityListeners s; readyListeners := readyListeners s;
     errorListeners := errorListeners s; exitListeners := exitListeners s;
     firstFrameRendered := firstFrameRendered s; ptyStarted := ptyStarted s;
     lastSnapshotAt := lastSnapshotAt s; lastSnapshotReason := lastSnapshotReason s;
     metrics := metrics s; container_parent := container_parent s;
     inflight := inflight s; next_task := next_task s |}.

Definition set_disposed (v : bool) (s : State) : State :=
  {| id := id s; attachedContainer := attachedContainer s; resizeObserver := resizeObserver s;
     disposables := disposables s; snapshotTimer := snapshotTimer s;
     pendingSnapshot := pendingSnapshot s; disposed := v; opened := opened s;
     activityListeners := activityListeners s; readyListeners := readyListeners s;
     errorListeners := errorListeners s; exitListeners := exitListeners s;
     firstFrameRendered := firstFrameRendered s; ptyStarted := ptyStarted s;
     lastSnapshotAt := lastSnapshotAt s; lastSnapshotReason := lastSnapshotReason s;
     metrics := metrics s; container_parent := container_parent s;
     inflight := inflight s; next_task := next_task s |}.

Definition set_opened (v : bool) (s : State) : State :=
  {| id := id s; attachedContainer := attachedContainer s; resizeObserver := resizeObserver s;
     disposables := disposables s; snapshotTimer := snapshotTimer s;
     pendingSnapshot := pendingSnapshot s; disposed := disposed s; opened := v;
     activityListeners := activityListeners s; readyListeners := readyListeners s;
     errorListeners := errorListeners s; exitListeners := exitListeners s;
     firstFrameRendered := firstFrameRendered s; ptyStarted := ptyStarted s;
     lastSnapshotAt := lastSnapshotAt s; lastSnapshotReason := lastSnapshotReason s;
     metrics := metrics s; container_parent := container_parent s;
     inflight := inflight s; next_task := next_task s |}.

Definition set_listeners
    (a r : ListenerSet.t unit) (e : ListenerSet.t string) (x : ListenerSet.t ExitInfo)
    (s : State) : State :=
  {| id := id s; attachedContainer := attachedContainer s; resizeObserver := resizeObserver s;
     disposables := disposables s; snapshotTimer := snapshotTimer s;
     pendingSnapshot := pendingSnapshot s; disposed := disposed s; opened := opened s;
     activityListeners := a; readyListeners := r;
     errorListeners := e; exitListeners := x;
     firstFrameRendered := firstFrameRendered s; ptyStarted := ptyStarted s;
     lastSnapshotAt := lastSnapshotAt s; lastSnapshotReason := lastSnapshotReason s;
     metrics := metrics s; container_parent := container_parent s;
     inflight := inflight s; next_task := next_task s |}.

Definition set_firstFrameRendered (v : bool) (s : State) : State :=
  {| id := id s; attachedContainer := attachedContainer s; resizeObserver := resizeObserver s;
     disposables := disposables s; snapshotTimer := snapshotTimer s;
     pendingSnapshot := pendingSnapshot s; disposed := disposed s; opened := opened s;
     activityListeners := activityListeners s; readyListeners := readyListeners s;
     errorListeners := errorListeners s; exitListeners := exitListeners s;
     firstFrameRendered := v; ptyStarted := ptyStarted s;
     lastSnapshotAt := lastSnapshotAt s; lastSnapshotReason := lastSnapshotReason s;
     metrics := metrics s; container_parent := container_parent s;
     inflight := inflight s; next_task := next_task s |}.

Definition set_ptyStarted (v : bool) (s : State) : State :=
  {| id := id s; attachedContainer := attachedContainer s; resizeObserver := resizeObserver s;
     disposables := disposables s; snapshotTimer := snapshotTimer s;
     pendingSnapshot := pendingSnapshot s; disposed := disposed s; opened := opened s;
     activityListeners := activityListeners s; readyListeners := readyListeners s;
     errorListeners := errorListeners s; exitListeners := exitListeners s;
     firstFrameRendered := firstFrameRendered s; ptyStarted := v;
     lastSnapshotAt := lastSnapshotAt s; lastSnapshotReason := lastSnapshotReason s;
     metrics := metrics s; container_parent := container_parent s;
     inflight := inflight s; next_task := next_task s |}.

Definition set_lastSnapshot (at_ : option Z) (r : option SnapshotReason) (s : State) : State :=
  {| id := id s; attachedContainer := attachedContainer s; resizeObserver := resizeObserver s;
     disposables := disposables s; snapshotTimer := snapshotTimer s;
     pendingSnapshot := pendingSnapshot s; disposed := disposed s; opened := opened s;
     activityListeners := activityListeners s; readyListeners := readyListeners s;
     errorListeners := errorListeners s; exitListeners := exitListeners s;
     firstFrameRendered := firstFrameRendered s; ptyStarted := ptyStarted s;
     lastSnapshotAt := at_; lastSnapshotReason := r;
     metrics := metrics s; container_parent := container_parent s;
     inflight := inflight s; next_task := next_task s |}.

Definition set_metrics (v : Metrics) (s : State) : State :=
  {| id := id s; attachedContainer := attachedContainer s; resizeObserver := resizeObserver s;
     disposables := disposables s; snapshotTimer := snapshotTimer s;
     pendingSnapshot := pendingSnapshot s; disposed := disposed s; opened := opened s;
     activityListeners := activityListeners s; readyListeners := readyListeners s;
     errorListeners := errorListeners s; exitListeners := exitListeners s;
     firstFrameRendered := firstFrameRendered s; ptyStarted := ptyStarted s;
     lastSnapshotAt := lastSnapshotAt s; lastSnapshotReason := lastSnapshotReason s;
     metrics := v; container_parent := container_parent s;
     inflight := inflight s; next_task := next_task s |}.

Definition set_container_parent (v : DomParent) (s : State) : State :=
  {| id := id s; attachedContainer := attachedContainer s; resizeObserver := resizeObserver s;
     disposables := disposables s; snapshotTimer := snapshotTimer s;
     pendingSnapshot := pendingSnapshot s; disposed := disposed s; opened := opened s;
     activityListeners := activityListeners s; readyListeners := readyListeners s;
     errorListeners := errorListeners s; exitListeners := exitListeners s;
     firstFrameRendered := firstFrameRendered s; ptyStarted := ptyStarted s;
     lastSnapshotAt := lastSnapshotAt s; lastSnapshotReason := lastSnapshotReason s;
     metrics := metrics s; container_parent := v;
     inflight := inflight s; next_task := next_task s |}.

Definition set_tasks (v : list CaptureTask) (n : nat) (s : State) : State :=
  {| id := id s; attachedContainer := attachedContainer s; resizeObserver := resizeObserver s;
     disposables := disposables s; snapshotTimer := snapshotTimer s;
     pendingSnapshot := pendingSnapshot s; disposed := disposed s; opened := opened s;
     activityListeners := activityListeners s; readyListeners := readyListeners s;
     errorListeners := errorListeners s; exitListeners := exitListeners s;
     firstFrameRendered := firstFrameRendered s; ptyStarted := ptyStarted s;
     lastSnapshotAt := lastSnapshotAt s; lastSnapshotReason := lastSnapshotReason s;
     metrics := metrics s; container_parent := container_parent s;
     inflight := v; next_task := n |}.

(** ** State, exceptions and the effect trace *)

Definition M (A : Type) : Type := State -> Res A * State * list Effect.

Definition ret {A} (a : A) : M A := fun s => (Returned a, s, []).

Definition bind {A B} (m : M A) (k : A -> M B) : M B :=
  fun s =>
    match m s with
    | (Returned a, s1, t1) =>
        match k a s1 with
        | (r, s2, t2) => (r, s2, t1 ++ t2)
        end
    | (Thrown e, s1, t1) => (Thrown e, s1, t1)
    end.

Definition throw {A} (e : JsError) : M A := fun s => (Thrown e, s, []).

(** [try { body } catch (error) { handler }]: state changes and effects
    made before the throw stay. *)
Definition try_catch {A} (body : M A) (handler : JsError -> M A) : M A :=
  fun s =>
    match body s with
    | (Returned a, s1, t1) => (Returned a, s1, t1)
    | (Thrown e, s1, t1) =>
        match handler e s1 with
        | (r, s2, t2) => (r, s2, t1 ++ t2)
        end
    end.

Definition get : M State := fun s => (Returned s, s, []).
Definition modify (f : State -> State) : M unit := fun s => (Returned tt, f s, []).
Definition effect (e : Effect) : M unit := fun s => (Returned tt, s, [e]).

(** An outside call that may throw: the call is made, then it throws. *)
Definition call (e : Effect) (throws : bool) : M unit :=
  fun s => (if throws then Thrown (JsErr "external call failed") else Returned tt, s, [e]).

Notation "x <- m ;; k" := (bind m (fun x => k))
  (at level 61, m at next level, right associativity).
Notation "m ;; k" := (bind m (fun _ => k))
  (at level 61, right associativity).

Definition when (b : bool) (m : M unit) : M unit := if b then m else ret tt.

(** [for (const x of xs) body(x)] over a fixed sequence. *)
Fixpoint for_each {A} (xs : list A) (body : A -> M unit) : M unit :=
  match xs with
  | [] => ret tt
  | x :: rest => body x ;; for_each rest body
  end.

Definition result {A} (o : Res A * State * list Effect) : Res A := fst (fst o).
Definition state_of {A} (o : Res A * State * list Effect) : State := snd (fst o).
Definition trace {A} (o : Res A * State * list Effect) : list Effect := snd o.

(** ** Listener fan-out *)

Definition emit_to {A} (invoke : Listener A -> M unit) (failed : string)
    (listeners : ListenerSet.t A) : M unit :=
  for_each listeners
    (fun listener => try_catch (invoke listener) (fun _ => effect (LogWarn failed))).

Definition emitActivity : M unit :=
  s <- get ;;
  emit_to (fun l => call (CallActivity (lid l)) (lthrows l tt))
    "Terminal activity listener failed" (activityListeners s).

Definition emitReady : M unit :=
  s <- get ;;
  emit_to (fun l => call (CallReady (lid l)) (lthrows l tt))
    "Terminal ready listener failed" (readyListeners s).

Definition emitError (message : string) : M unit :=
  s <- get ;;
  emit_to (fun l => call (CallError (lid l) message) (lthrows l message))
    "Terminal error listener failed" (errorListeners s).

Definition emitExit (info : ExitInfo) : M unit :=
  s <- get ;;
  emit_to (fun l => call (CallExit (lid l) info) (lthrows l info))
    "Terminal exit listener failed" (exitListeners s).

(** ** Listener registration *)

Definition registerActivityListener (l : Listener unit) : M unit :=
  modify (fun s => set_listeners (ListenerSet.add l (activityListeners s))
                     (readyListeners s) (errorListeners s) (exitListeners s) s).

Definition unregisterActivityListener (l : Listener unit) : M unit :=
  modify (fun s => set_listeners (ListenerSet.delete l (activityListeners s))
                     (readyListeners s) (errorListeners s) (exitListeners s) s).

Definition registerReadyListener (l : Listener unit) : M unit :=
  modify (fun s => set_listeners (activityListeners s)
                     (ListenerSet.add l (readyListeners s)) (errorListeners s) (exitListeners s) s).

Definition unregisterReadyListener (l : Listener unit) : M unit :=
  modify (fun s => set_listeners (activityListeners s)
                     (ListenerSet.delete l (readyListeners s)) (errorListeners s) (exitListeners s) s).

Definition registerErrorListener (l : Listener string) : M unit :=
  modify (fun s => set_listeners (activityListeners s) (readyListeners s)
                     (ListenerSet.add l (errorListeners s)) (exitListeners s) s).

Definition unregisterErrorListener (l : Listener string) : M unit :=
  modify (fun s => set_listeners (activityListeners s) (readyListeners s)
                     (ListenerSet.delete l (errorListeners s)) (exitListeners s) s).

Definition registerExitListener (l : Listener ExitInfo) : M unit :=
  modify (fun s => set_listeners (activityListeners s) (readyListeners s)
                     (errorListeners s) (ListenerSet.add l (exitListeners s)) s).

Definition unregisterExitListener (l : Listener ExitInfo) : M unit :=
  modify (fun s => set_listeners (activityListeners s) (readyListeners s)
                     (errorListeners s) (ListenerSet.delete l (exitListeners s)) s).

(** ** Snapshot capture *)

Definition sendSizeIfStarted (env : Env) : M unit :=
  s <- get ;;
  if negb (ptyStarted s) || disposed s then ret tt
  else
    try_catch
      (call (PtyResize (id s) (term_cols env) (term_rows env)) (ptyResize_throws env))
      (fun _ => effect (LogWarn "Terminal resize sync failed")).

(** The debounce test of [captureSnapshot]:
    [reason === 'detach' && this.lastSnapshotReason === 'detach' && this.lastSnapshotAt]
    and then [Date.now() - this.lastSnapshotAt < 1500]. *)
Definition debounced (env : Env) (reason : SnapshotReason) (s : State) : bool :=
  is_detach reason
  && opt_is_detach (lastSnapshotReason s)
  && truthy_opt_number (lastSnapshotAt s)
  && match lastSnapshotAt s with
     | Some last => date_now env - last <? 1500
     | None => false
     end.

Definition make_payload (env : Env) (reason : SnapshotReason) (text : jsstring)
    (s : State) : Payload :=
  {| version := Some TERMINAL_SNAPSHOT_VERSION;
     createdAt := date_iso env;
     cols := Some (term_cols env);
     rows := Some (term_rows env);
     data := Some (DataString text);
     stats := Some (metrics_snapshot (metrics s), reason) |}.

(** The body of the async task up to its first suspension: it either
    finishes at once (nothing to persist, or an exception was caught)
    or has called [ptySaveSnapshot] and awaits the reply. *)
Definition capture_task_body (env : Env) (reason : SnapshotReason) : M TaskStatus :=
  try_catch
    (match serialized env with
     | None => throw (JsErr "serialize failed")
     | Some text =>
         if negb (truthy_string text) && is_detach reason then ret BodyDone
         else
           s <- get ;;
           effect (PtySaveSnapshot (id s) (make_payload env reason text s)) ;;
           ret AwaitingSave
     end)
    (fun _ => effect (LogWarn "terminalSession:snapshotCaptureFailed") ;; ret BodyDone).

(** [captureSnapshot(reason)], the synchronous part.  Returns the id of
    the task it started, or [None] when it returned an already
    resolved promise. *)
Definition captureSnapshot (env : Env) (reason : SnapshotReason) : M (option nat) :=
  s <- get ;;
  if negb (has_ptySaveSnapshot env) then ret None
  else if disposed s then ret None
  else if debounced env reason s then ret None
  else
    status <- capture_task_body env reason ;;
    modify (fun s' =>
              set_tasks
                (inflight s' ++ [{| task_id := next_task s';
                                    task_reason := reason;
                                    task_status := status |}])
                (S (next_task s')) s') ;;
    modify (set_pendingSnapshot (Some (next_task s))) ;;
    ret (Some (next_task s)).

Definition find_task (tid : nat) (s : State) : option CaptureTask :=
  find (fun t => Nat.eqb (task_id t) tid) (inflight s).

Definition remove_task (tid : nat) (s : State) : State :=
  set_tasks (filter (fun t => negb (Nat.eqb (task_id t) tid)) (inflight s)) (next_task s) s.

Definition opt_nat_eqb (a : option nat) (b : nat) : bool :=
  match a with
  | Some x => Nat.eqb x b
  | None => false
  end.

(** A capture task settles: the rest of its body after the awaited
    reply (if it was suspended), then the [finally] callback. *)
Definition settle_capture (env : Env) (tid : nat) (reply : SaveReply) : M unit :=
  s <- get ;;
  match find_task tid s with
  | None => ret tt
  | Some task =>
      match task_status task with
      | BodyDone => ret tt
      | AwaitingSave =>
          match reply with
          | SaveResolved true => modify (fun s' => set_metrics (markSnapshot (metrics s')) s')
          | SaveResolved false => effect (LogWarn "Terminal snapshot save failed")
          | SaveRejected _ => effect (LogWarn "terminalSession:snapshotCaptureFailed")
          end
      end ;;
      modify (remove_task tid) ;;
      s' <- get ;;
      when (opt_nat_eqb (pendingSnapshot s') tid) (modify (set_pendingSnapshot None)) ;;
      modify (set_lastSnapshot (Some (date_now env)) (Some (task_reason task)))
  end.

Definition stopSnapshotTimer : M unit :=
  s <- get ;;
  when (snapshotTimer s) (effect ClearInterval ;; modify (set_snapshotTimer false)).

Definition startSnapshotTimer : M unit :=
  stopSnapshotTimer ;;
  effect (SetInterval SNAPSHOT_INTERVAL_MS) ;;
  modify (set_snapshotTimer true).

(** The interval callback. *)
Definition on_snapshot_timer (env : Env) : M unit :=
  _ <- captureSnapshot env interval ;; ret tt.

(** ** Attach, detach, dispose *)

Definition detach (env : Env) : M unit :=
  s <- get ;;
  match attachedContainer s with
  | Some _ =>
      match resizeObserver s with
      | Some observed => effect (ObserverDisconnect observed)
      | None => ret tt
      end ;;
      modify (set_resizeObserver None) ;;
      effect (AppendChild TerminalHost) ;;
      modify (set_container_parent TerminalHost) ;;
      modify (set_attachedContainer None) ;;
      _ <- captureSnapshot env detach_reason ;;
      ret tt
  | None => ret tt
  end.

Definition opt_container_eqb (a : option container) (b : container) : bool :=
  match a with
  | Some x => Nat.eqb x b
  | None => false
  end.

(** [fitAddon.fit()] is one call on the engine.  A resize notification
    the engine raises while fitting is not part of this computation: it
    reaches the manager as an event of its own, handled by
    [on_terminal_resize]. *)
Definition attach (env : Env) (c : container) : M unit :=
  s <- get ;;
  if disposed s then throw (JsErr "Terminal session is already disposed")
  else if opt_container_eqb (attachedContainer s) c then ret tt
  else
    detach env ;;
    effect (AppendChild (Surface c)) ;;
    modify (set_container_parent (Surface c)) ;;
    modify (set_attachedContainer (Some c)) ;;
    s1 <- get ;;
    when (negb (opened s1)) (effect TerminalOpen ;; modify (set_opened true)) ;;
    effect TerminalFit ;;
    sendSizeIfStarted (after_fit env) ;;
    modify (set_resizeObserver (Some c)) ;;
    effect (ObserverObserve c) ;;
    effect RequestAnimationFrame.

(** The [ResizeObserver] callback installed by [attach], for a fit that
    does not throw. *)
Definition on_container_resize : M unit :=
  effect TerminalFit.

(** The [requestAnimationFrame] callback scheduled by [attach], for a
    fit that does not throw. *)
Definition on_animation_frame (env : Env) : M unit :=
  s <- get ;;
  if disposed s then ret tt
  else effect TerminalFit ;; sendSizeIfStarted (after_fit env).

Definition run_cleanup (d : CleanupFn) : M unit :=
  call (RunCleanup (cleanup_tag d)) (cleanup_throws d).

Definition dispose (env : Env) : M unit :=
  s <- get ;;
  if disposed s then ret tt
  else
    modify (set_disposed true) ;;
    detach env ;;
    stopSnapshotTimer ;;
    _ <- captureSnapshot env dispose_reason ;;
    try_catch
      (call (PtyKill (id s)) (ptyKill_throws env))
      (fun _ => effect (LogWarn "Failed to kill PTY during dispose")) ;;
    s1 <- get ;;
    modify (set_disposables []) ;;
    for_each (disposables s1)
      (fun d => try_catch (run_cleanup d)
                  (fun _ => effect (LogWarn "Terminal session dispose callback failed"))) ;;
    modify (fun s' => set_metrics (metrics_dispose (metrics s')) s') ;;
    modify (set_listeners (ListenerSet.clear (activityListeners s))
              (ListenerSet.clear (readyListeners s))
              (ListenerSet.clear (errorListeners s))
              (ListenerSet.clear (exitListeners s))) ;;
    effect TerminalDispose.

Definition focus : M unit :=
  s <- get ;;
  if disposed s then ret tt else effect TerminalFocus.

(** ** Handlers installed by the constructor and by [connectPty] *)

(** [this.terminal.onData((data) => ...)]: user input. *)
Definition on_terminal_data (data : jsstring) : M unit :=
  emitActivity ;;
  s <- get ;;
  if negb (disposed s) then
    let filtered := FocusFilter.replace_focus_reports data in
    if truthy_string filtered then effect (PtyInput (id s) filtered) else ret tt
  else ret tt.

(** [this.terminal.onResize(({ cols, rows }) => ...)]. *)
Definition on_terminal_resize (cols rows : Z) : M unit :=
  s <- get ;;
  if negb (disposed s) then effect (PtyResize (id s) cols rows) else ret tt.

Definition TRUNCATION_NOTICE : jsstring := js "[scrollback truncated to protect memory]".

(** [window.electronAPI.onPtyData(id, (chunk) => ...)]: process output. *)
Definition on_pty_data (env : Env) (chunk : jsstring) : M unit :=
  s <- get ;;
  let accepted := canAccept chunk (metrics s) in
  modify (set_metrics (snd accepted)) ;;
  when (negb (fst accepted))
    (effect (LogWarn "Terminal scrollback truncated to protect memory") ;;
     effect TerminalClear ;;
     effect (TerminalWriteln TRUNCATION_NOTICE)) ;;
  effect (TerminalWrite chunk) ;;
  s1 <- get ;;
  when (negb (firstFrameRendered s1))
    (modify (set_firstFrameRendered true) ;;
     try_catch (effect (TerminalRefresh 0 (term_rows env - 1))) (fun _ => ret tt)).

(** [window.electronAPI.onPtyExit(id, (info) => ...)]. *)
Definition on_pty_exit (info : ExitInfo) : M unit :=
  modify (fun s => set_metrics (recordExit info (metrics s)) s) ;;
  modify (set_ptyStarted false) ;;
  emitExit info.

(** Reply of [ptyStart]: rejects with a message, or resolves with
    [result?.ok] and [result?.error]. *)
Inductive StartReply :=
| StartRejected (message : string)
| StartResolved (ok : bool) (error : option string).

Definition truthy_message (m : option string) : bool :=
  match m with
  | Some EmptyString => false
  | Some _ => true
  | None => false
  end.

(** The [.then]/[.catch] handlers on the [ptyStart] promise;
    [has_onPtyStarted] tells whether the bridge offers [onPtyStarted]
    (it then returns an unsubscribe function). *)
Definition on_pty_start_reply (env : Env) (has_onPtyStarted : bool)
    (reply : StartReply) : M unit :=
  match reply with
  | StartResolved true _ =>
      modify (set_ptyStarted true) ;;
      sendSizeIfStarted env ;;
      emitReady ;;
      when has_onPtyStarted
        (modify (fun s => set_disposables
                            (disposables s ++ [{| cleanup_tag := offStarted;
                                                  cleanup_throws := false |}]) s))
  | StartResolved false error =>
      let message :=
        match error with
        | Some m => if truthy_message error then m else "Failed to start PTY"%string
        | None => "Failed to start PTY"%string
        end in
      effect (LogWarn "terminalSession:ptyStartFailed") ;;
      emitError message
  | StartRejected message =>
      effect (LogError "terminalSession:ptyStartError") ;;
      emitError message
  end.

(** The [onPtyStarted] callback, for a payload carrying [payload_id]. *)
Definition on_pty_started (env : Env) (payload_id : option string) : M unit :=
  s <- get ;;
  match payload_id with
  | Some i =>
      if String.eqb i (id s)
      then modify (set_ptyStarted true) ;; sendSizeIfStarted env
      else ret tt
  | None => ret tt
  end.

(** [connectPty()], the synchronous part: request the start, subscribe
    to data and exit. *)
Definition connectPty (initial_cols initial_rows : Z) : M unit :=
  s <- get ;;
  effect (PtyStart (id s) initial_cols initial_rows) ;;
  modify (fun s' => set_disposables
                      (disposables s' ++ [{| cleanup_tag := offData; cleanup_throws := false |};
                                          {| cleanup_tag := offExit; cleanup_throws := false |}])
                      s').

(** ** Snapshot restore

    [api] is [None] when [window.electronAPI.ptyGetSnapshot] is not
    defined, else the reply the awaited call produces. *)
Definition restoreSnapshot (api : option (GetReply MetricsStats)) : M unit :=
  match api with
  | None => ret tt
  | Some reply =>
      try_catch
        (s <- get ;;
         effect (PtyGetSnapshot (id s)) ;;
         match reply with
         | GetRejected e => throw e
         | GetResolved None => ret tt
         | GetResolved (Some response) =>
             match get_snapshot response with
             | None => ret tt
             | Some snapshot =>
                 if negb (get_ok response)
                    || negb (match data snapshot with
                             | Some d => truthy_data d
                             | None => false
                             end)
                 then ret tt
                 else if truthy_opt_number (version snapshot)
                         && negb (match version snapshot with
                                  | Some v => v =? TERMINAL_SNAPSHOT_VERSION
                                  | None => false
                                  end)
                 then effect (LogWarn "terminalSession:snapshotIgnoredVersion")
                 else
                   match data snapshot with
                   | Some (DataString text) =>
                       when (0 <? Z.of_nat (List.length text))
                         (effect TerminalReset ;; effect (TerminalWrite text))
                   | _ => ret tt
                   end ;;
                   match cols snapshot, rows snapshot with
                   | Some c, Some r =>
                       when (truthy_number c && truthy_number r)
                         (effect (TerminalResize c r))
                   | _, _ => ret tt
                   end
             end
         end)
        (fun _ => effect (LogWarn "terminalSession:snapshotRestoreFailed"))
  end.

(** ** Construction *)

Record TerminalSessionOptions := {
  workspaceId : string;
  initialSize : Z * Z        (* cols, rows *)
}.

(** The fields as the constructor leaves them: the root element sits in
    the terminal host, the two engine subscriptions are on the cleanup
    list, the snapshot timer runs. *)
Definition new_session (options : TerminalSessionOptions) : State :=
  {| id := workspaceId options;
     attachedContainer := None;
     resizeObserver := None;
     disposables := [{| cleanup_tag := inputDisposable; cleanup_throws := false |};
                     {| cleanup_tag := resizeDisposable; cleanup_throws := false |}];
     snapshotTimer := true;
     pendingSnapshot := None;
     disposed := false;
     opened := false;
     activityListeners := [];
     readyListeners := [];
     errorListeners := [];
     exitListeners := [];
     firstFrameRendered := false;
     ptyStarted := false;
     lastSnapshotAt := None;
     lastSnapshotReason := None;
     metrics := metrics_new MAX_DATA_WINDOW_BYTES;
     container_parent := TerminalHost;
     inflight := [];
     next_task := 0%nat |}.

(** ** Everything that can happen to a session after construction *)
Inductive Event :=
| Attach (c : container)
| DetachCall
| DisposeCall
| FocusCall
| RegisterActivity (l : Listener unit)
| UnregisterActivity (l : Listener unit)
| RegisterReady (l : Listener unit)
| UnregisterReady (l : Listener unit)
| RegisterError (l : Listener string)
| UnregisterError (l : Listener string)
| RegisterExit (l : Listener ExitInfo)
| UnregisterExit (l : Listener ExitInfo)
| TerminalData (data : jsstring)
| TerminalResized (cols rows : Z)
| ContainerResized
| AnimationFrame
| SnapshotTimerFired
| CaptureSettled (task : nat) (reply : SaveReply)
| SnapshotRestored (api : option (GetReply MetricsStats))
| PtyConnect (cols rows : Z)
| PtyStartReplied (has_onPtyStarted : bool) (reply : StartReply)
| PtyStarted (payload_id : option string)
| PtyData (chunk : jsstring)
| PtyExit (info : ExitInfo).

Definition handle (env : Env) (ev : Event) : M unit :=
  match ev with
  | Attach c => attach env c
  | DetachCall => detach env
  | DisposeCall => dispose env
  | FocusCall => focus
  | RegisterActivity l => registerActivityListener l
  | UnregisterActivity l => unregisterActivityListener l
  | RegisterReady l => registerReadyListener l
  | UnregisterReady l => unregisterReadyListener l
  | RegisterError l => registerErrorListener l
  | UnregisterError l => unregisterErrorListener l
  | RegisterExit l => registerExitListener l
  | UnregisterExit l => unregisterExitListener l
  | TerminalData d => on_terminal_data d
  | TerminalResized c r => on_terminal_resize c r
  | ContainerResized => on_container_resize
  | AnimationFrame => on_animation_frame env
  | SnapshotTimerFired => on_snapshot_timer env
  | CaptureSettled t reply => settle_capture env t reply
  | SnapshotRestored api => restoreSnapshot api
  | PtyConnect c r => connectPty c r
  | PtyStartReplied h reply => on_pty_start_reply env h reply
  | PtyStarted p => on_pty_started env p
  | PtyData chunk => on_pty_data env chunk
  | PtyExit info => on_pty_exit info
  end.

(** A run: each event is handled to completion in the state the
    previous one left (a thrown error goes to the caller and the
    session stays as it was at the throw); the traces are chained. *)
Fixpoint run (events : list (Env * Event)) (s : State) : State * list Effect :=
  match events with
  | [] => (s, [])
  | (env, ev) :: rest =>
      match handle env ev s with
      | (_, s1, t1) =>
          match run rest s1 with
          | (s2, t2) => (s2, t1 ++ t2)
          end
      end
  end.

(** ** Observations on traces *)

Definition is_save (e : Effect) : bool :=
  match e with
  | PtySaveSnapshot _ _ => true
  | _ => false
  end.

Definition is_save_tagged (reason : SnapshotReason) (e : Effect) : bool :=
  match e with
  | PtySaveSnapshot _ p =>
      match stats p with
      | Some (_, r) =>
          match r, reason with
          | interval, interval => true
          | detach_reason, detach_reason => true
          | dispose_reason, dispose_reason => true
          | _, _ => false
          end
      | None => false
      end
  | _ => false
  end.

Definition is_kill (e : Effect) : bool :=
  match e with
  | PtyKill _ => true
  | _ => false
  end.

Definition is_input (e : Effect) : bool :=
  match e with
  | PtyInput _ _ => true
  | _ => false
  end.

Definition touches_terminal_buffer (e : Effect) : bool :=
  match e with
  | TerminalWrite _ | TerminalWriteln _ | TerminalReset | TerminalClear
  | TerminalResize _ _ => true
  | _ => false
  end.

Definition is_listener_call (e : Effect) : bool :=
  match e with
  | CallActivity _ | CallReady _ | CallError _ _ | CallExit _ _ => true
  | _ => false
  end.

(** ** Closed forms, observations and invariants used in the statements *)

(** What a loop of [try { call } catch { log.warn }] leaves in the trace:
    one call per element, followed by the warning when the call threw. *)
Definition guarded_calls {A} (mk : A -> Effect) (throws : A -> bool) (warning : string)
    (xs : list A) : list Effect :=
  flat_map (fun x => mk x :: (if throws x then [LogWarn warning] else [])) xs.

(** No occurrence starts one or two units before index [i]. *)
Definition clean_before (s : jsstring) (i : nat) : Prop :=
  forall j, (j < i)%nat -> (i <= j + 2)%nat -> FocusFilter.occurrence_at s j = false.

(** What the transport is sent for one input event. *)
Definition forwarded_input (data : jsstring) (s : State) : list Effect :=
  if disposed s then []
  else if truthy_string (FocusFilter.replace_focus_reports data)
       then [PtyInput (id s) (FocusFilter.replace_focus_reports data)]
       else [].

(** [maintains I flagged m]: started in a state where [I] holds, [m]
    ends in a state where [I] holds and makes no outside call that
    [flagged] selects. *)
Definition maintains {A} (I : State -> Prop) (flagged : Effect -> bool) (m : M A) : Prop :=
  forall s, I s -> I (state_of (m s)) /\ filter flagged (trace (m s)) = [].

Definition nothing_flagged : Effect -> bool := fun _ => false.

(** How far the task body gets before it first yields, and what it has
    asked of the store by then. *)
Definition capture_status (env : Env) (reason : SnapshotReason) : TaskStatus :=
  match serialized env with
  | None => BodyDone
  | Some text => if negb (truthy_string text) && is_detach reason then BodyDone else AwaitingSave
  end.

Definition capture_trace (env : Env) (reason : SnapshotReason) (s : State) : list Effect :=
  match serialized env with
  | None => [LogWarn "terminalSession:snapshotCaptureFailed"]
  | Some text =>
      if negb (truthy_string text) && is_detach reason then []
      else [PtySaveSnapshot (id s) (make_payload env reason text s)]
  end.

Definition started_task (env : Env) (reason : SnapshotReason) (s : State) : CaptureTask :=
  {| task_id := next_task s; task_reason := reason; task_status := capture_status env reason |}.

(** The fields after the body of [detach]'s [if]. *)
Definition detached (s : State) : State :=
  set_attachedContainer None (set_container_parent TerminalHost (set_resizeObserver None s)).

Definition detach_calls (s : State) : list Effect :=
  match attachedContainer s with
  | Some _ =>
      match resizeObserver s with
      | Some observed => [ObserverDisconnect observed]
      | None => []
      end ++ [AppendChild TerminalHost]
  | None => []
  end.

Definition disposed_state (s : State) : State :=
  let s1 := set_disposed true s in
  let s2 := match attachedContainer s with
            | Some _ => detached s1
            | None => s1
            end in
  set_listeners [] [] [] []
    (set_metrics (metrics_dispose (metrics s))
       (set_disposables [] (set_snapshotTimer false s2))).

Definition dispose_calls (env : Env) (s : State) : list Effect :=
  detach_calls s
  ++ (if snapshotTimer s then [ClearInterval] else [])
  ++ PtyKill (id s)
     :: (if ptyKill_throws env then [LogWarn "Failed to kill PTY during dispose"] else [])
  ++ guarded_calls (fun d => RunCleanup (cleanup_tag d)) cleanup_throws
       "Terminal session dispose callback failed" (disposables s)
  ++ [TerminalDispose].

Definition size_sync (env : Env) (s : State) : list Effect :=
  if negb (ptyStarted s) || disposed s then []
  else PtyResize (id s) (term_cols env) (term_rows env)
       :: (if ptyResize_throws env then [LogWarn "Terminal resize sync failed"] else []).

(** The fields once [attach] has moved the root element into [c]. *)
Definition attached_to (c : container) (s : State) : State :=
  set_resizeObserver (Some c)
    (set_opened true
       (set_attachedContainer (Some c) (set_container_parent (Surface c) s))).

(** The outside calls [attach] makes after its [detach] step. *)
Definition attach_calls (env : Env) (c : container) (s : State) : list Effect :=
  AppendChild (Surface c)
  :: (if opened s then [] else [TerminalOpen])
  ++ TerminalFit
  :: size_sync (after_fit env) s
  ++ [ObserverObserve c; RequestAnimationFrame].

(** The attached surface, the DOM parent of the root element and the
    observed element agree: the root element sits in the surface the
    session is attached to and nowhere else, and only that surface is
    observed; a detached session sits in the host and observes nothing. *)
Definition attachment_consistent (s : State) : Prop :=
  match attachedContainer s with
  | Some c => container_parent s = Surface c /\ resizeObserver s = Some c
  | None => container_parent s = TerminalHost /\ resizeObserver s = None
  end.

(** Task ids are fresh, and [pendingSnapshot], when set, names the task
    started last, which is still unsettled. *)
Definition pending_is_latest (s : State) : Prop :=
  (forall t, In t (inflight s) -> (task_id t < next_task s)%nat)
  /\ (forall tid, pendingSnapshot s = Some tid ->
                  S tid = next_task s /\ find_task tid s <> None).

Definition first_frame_refresh (env : Env) (s : State) : list Effect :=
  if firstFrameRendered s then [] else [TerminalRefresh 0 (term_rows env - 1)].

(** [promise.finally(callback)]: the callback runs however the promise
    settled; the outcome is the promise's own, unless the callback
    throws. *)
Definition finally {A} (m : M A) (callback : M unit) : M A :=
  fun s =>
    match m s with
    | (r, s1, t1) =>
        match callback s1 with
        | (Returned _, s2, t2) => (r, s2, t1 ++ t2)
        | (Thrown e, s2, t2) => (Thrown e, s2, t1 ++ t2)
        end
    end.

(** ** Start-up: [restoreSnapshot().finally(() => this.connectPty())]

    The constructor's last asynchronous step: the restore is awaited and,
    however it ends, [connectPty] runs with the size the session was
    created with. *)
Definition restore_then_connect (options : TerminalSessionOptions)
    (api : option (GetReply MetricsStats)) : M unit :=
  finally (restoreSnapshot api)
    (connectPty (fst (initialSize options)) (snd (initialSize options))).

(** ** Further observations on traces *)

Definition is_start (e : Effect) : bool :=
  match e with
  | PtyStart _ _ _ => true
  | _ => false
  end.

Definition is_resize (e : Effect) : bool :=
  match e with
  | PtyResize _ _ _ => true
  | _ => false
  end.

Definition is_open (e : Effect) : bool :=
  match e with
  | TerminalOpen => true
  | _ => false
  end.

Definition is_refresh (e : Effect) : bool :=
  match e with
  | TerminalRefresh _ _ => true
  | _ => false
  end.

Definition is_timer_call (e : Effect) : bool :=
  match e with
  | SetInterval _ | ClearInterval => true
  | _ => false
  end.

Definition is_clear_interval (e : Effect) : bool :=
  match e with
  | ClearInterval => true
  | _ => false
  end.

Definition is_set_interval (e : Effect) : bool :=
  match e with
  | SetInterval _ => true
  | _ => false
  end.

Definition is_cleanup (e : Effect) : bool :=
  match e with
  | RunCleanup _ => true
  | _ => false
  end.

(** The calls a disposed session must not make: writes to the
    transport and the store, and focusing the terminal. *)
Definition acts_on_transport (e : Effect) : bool :=
  match e with
  | PtyInput _ _ | PtyResize _ _ _ | PtyKill _ | PtySaveSnapshot _ _ | TerminalFocus => true
  | _ => false
  end.

(** The session id a bridge call is made for. *)
Definition effect_id (e : Effect) : option string :=
  match e with
  | PtyStart i _ _ | PtyInput i _ | PtyResize i _ _ | PtyKill i
  | PtyGetSnapshot i | PtySaveSnapshot i _ => Some i
  | _ => None
  end.

Definition names_other_session (i : string) (e : Effect) : bool :=
  match effect_id e with
  | Some j => negb (String.eqb j i)
  | None => false
  end.

(** No callback is held twice in a registry. *)
Definition registry_distinct {A} (s : ListenerSet.t A) : Prop :=
  NoDup (map (fun l => lid l) s).

Definition registries_distinct (s : State) : Prop :=
  registry_distinct (activityListeners s)
  /\ registry_distinct (readyListeners s)
  /\ registry_distinct (errorListeners s)
  /\ registry_distinct (exitListeners s).


(** The bookkeeping of capture tasks is sound: [pending_is_latest], and
    no two unsettled tasks share an id. *)
Definition capture_books_sound (s : State) : Prop :=
  pending_is_latest s /\ NoDup (map task_id (inflight s)).

(** What the store replies when it holds [p]. *)
Definition store_reply (p : Payload) : option (GetReply MetricsStats) :=
  Some (GetResolved (Some {| get_ok := true; get_snapshot := Some p |})).


End Manager.

(** ** A concrete session, used to evaluate the definitions

    Workspace ["w1"], an 80x24 terminal, the guardrail of
    [SpecMetrics], snapshot version 1. *)
Module Sample.

Definition W : Imports := SpecMetrics.imports.

#[local] Existing Instance W.

Definition options : TerminalSessionOptions :=
  {| workspaceId := "w1"; initialSize := (80, 24) |}.

Definition fresh : State (W := W) := new_session options.

Definition env_at (now : Z) (buffer : string) : Env :=
  {| has_ptySaveSnapshot := true;
     date_now := now;
     date_iso := "2024-01-01T00:00:00.000Z";
     serialized := Some (js buffer);
     term_cols := 80;
     term_rows := 24;
     fitted_cols := 100;
     fitted_rows := 30;
     ptyKill_throws := false;
     ptyResize_throws := false |}.

Definition quiet (n : nat) : Listener unit := {| lid := n; lthrows := fun _ => false |}.
Definition faulty (n : nat) : Listener unit := {| lid := n; lthrows := fun _ => true |}.

Definition exited_normally : ExitInfo := {| exitCode := Some 0; signal := None |}.

(** The session once the transport has acknowledged the start. *)
Definition running : State (W := W) :=
  fst (run [(env_at 1000 "", PtyConnect 80 24);
            (env_at 1001 "", PtyStartReplied false (StartResolved true None))] fresh).

(** The same session attached to surface 1. *)
Definition attached : State (W := W) :=
  fst (run [(env_at 1002 "", Attach 1%nat)] running).

Definition focus_in : jsstring := [27; 91; 73]%N.
Definition focus_out : jsstring := [27; 91; 79]%N.

(** Typing [ls] between a focus-in and a focus-out report. *)
Definition typed_ls : jsstring := focus_in ++ js "ls" ++ focus_out.

(** Three activity listeners, the second of which throws. *)
Definition three_listeners : State (W := W) :=
  fst (run [(env_at 1100 "", RegisterActivity (quiet 1));
            (env_at 1101 "", RegisterActivity (faulty 2));
            (env_at 1102 "", RegisterActivity (quiet 3))] running).

(** A stored payload of version 0, taken when the terminal was 80x24. *)
Definition version_zero_payload : SnapshotPayload MetricsStats :=
  {| version := Some 0;
     createdAt := "2023-12-31T23:59:59.000Z";
     cols := Some 80;
     rows := Some 24;
     data := Some (DataString (js "ls"));
     stats := None |}.

Definition version_two_payload : SnapshotPayload MetricsStats :=
  {| version := Some 2;
     createdAt := "2023-12-31T23:59:59.000Z";
     cols := Some 80;
     rows := Some 24;
     data := Some (DataString (js "ls"));
     stats := None |}.

Definition store_returns (p : SnapshotPayload MetricsStats) : option (GetReply MetricsStats) :=
  Some (GetResolved (Some {| get_ok := true; get_snapshot := Some p |})).

(** The attached session once the interval timer has fired at 2000 ms:
    task 0 is suspended at the store call. *)
Definition interval_capture_pending : State (W := W) :=
  fst (run [(env_at 2000 "ab", SnapshotTimerFired)] attached).

(** The attached session with a detach-tagged capture in flight. *)
Definition detach_capture_pending : State (W := W) :=
  fst (run [(env_at 2000 "ab", DetachCall)] attached).

Definition tab_switching : list (Env * Event) :=
  [(env_at 1200 "ab", Attach 1%nat);
   (env_at 1300 "ab", Attach 2%nat);
   (env_at 1400 "ab", Attach 2%nat);
   (env_at 1500 "ab", DetachCall);
   (env_at 1600 "ab", DetachCall);
   (env_at 1700 "ab", Attach 1%nat)].

(** One chunk of 128 MiB less one byte. *)
Definition big_chunk : jsstring :=
  repeat 97%N (Z.to_nat (MAX_DATA_WINDOW_BYTES - 1)).

(** The running session whose guardrail is one byte short of its
    128 MiB ceiling. *)
Definition nearly_full : State (W := W) :=
  set_metrics
    {| SpecMetrics.ceiling := MAX_DATA_WINDOW_BYTES;
       SpecMetrics.bytesTracked := MAX_DATA_WINDOW_BYTES - 1;
       SpecMetrics.counting := true;
       SpecMetrics.exit_info := None |}
    running.


(** The attached session after [dispose()]. *)
Definition disposed_session : State (W := W) :=
  fst (run [(env_at 5000 "ab", DisposeCall)] attached).

(** What may still reach a session after it was disposed. *)
Definition late_events : list (Env * Event) :=
  [(env_at 5100 "ab", TerminalData typed_ls);
   (env_at 5200 "ab", TerminalResized 100 30);
   (env_at 5300 "ab", SnapshotTimerFired);
   (env_at 5400 "ab", AnimationFrame);
   (env_at 5500 "ab", PtyStartReplied true (StartResolved true None));
   (env_at 5600 "ab", PtyStarted (Some "w1"%string));
   (env_at 5700 "ab", FocusCall);
   (env_at 5800 "ab", DetachCall);
   (env_at 5900 "ab", DisposeCall)].

(** The running session after its first chunk of output. *)
Definition streaming : State (W := W) :=
  fst (run [(env_at 1500 "", PtyData (js "hi"))] running).

Definition more_output : list (Env * Event) :=
  [(env_at 1600 "", PtyData (js "there"));
   (env_at 1700 "", PtyData (js "!"))].

Definition registering_twice : list (Env * Event) :=
  [(env_at 1100 "", RegisterActivity (quiet 1));
   (env_at 1101 "", RegisterActivity (quiet 1));
   (env_at 1102 "", RegisterActivity (faulty 2));
   (env_at 1103 "", UnregisterActivity (quiet 1));
   (env_at 1104 "", RegisterActivity (quiet 1))].

(** A clock reading at which [ptyKill] throws. *)
Definition env_kill_fails : Env :=
  {| has_ptySaveSnapshot := true;
     date_now := 5000;
     date_iso := "2024-01-01T00:00:05.000Z";
     serialized := Some (js "ab");
     term_cols := 80;
     term_rows := 24;
     fitted_cols := 100;
     fitted_rows := 30;
     ptyKill_throws := true;
     ptyResize_throws := false |}.

(** The running session with two exit listeners, the first of which
    throws. *)
Definition exit_watched : State (W := W) :=
  fst (run [(env_at 1100 "", RegisterExit {| lid := 1%nat; lthrows := fun _ => true |});
            (env_at 1101 "", RegisterExit {| lid := 2%nat; lthrows := fun _ => false |})]
         running).

(** What still happens to a session whose process has exited: output
    in flight arrives, the session is shown and the terminal is
    resized. *)
Definition after_exit : list (Env * Event) :=
  [(env_at 3001 "", PtyData (js "bye"));
   (env_at 3002 "", Attach 1%nat);
   (env_at 3003 "", TerminalResized 100 30)].

Definition captures_overlapping : list (Env * Event) :=
  [(env_at 1200 "ab", Attach 1%nat);
   (env_at 2000 "ab", SnapshotTimerFired);
   (env_at 2001 "ab", DetachCall)].

(** Main-process services: one registered worktree, found only in the
    list of all worktrees; notifications enabled with sound off; no
    window focused. *)
Definition registered : MainIpc.Worktree :=
  {| MainIpc.wt_id := "wt-42"; MainIpc.wt_path := "/repo/worktrees/feature" |}.

Definition services : MainIpc.Services :=
  {| MainIpc.path_join := fun a b => (a ++ "/" ++ b)%string;
     MainIpc.existsSync := fun _ => false;
     MainIpc.statSync_isFile := fun _ => MainIpc.Failed (MainIpc.ErrorObject "Error" "ENOENT");
     MainIpc.getWorktree := fun _ => MainIpc.Done None;
     MainIpc.getAllWorktrees := MainIpc.Done [registered];
     MainIpc.startStream := fun _ _ _ => MainIpc.Done tt;
     MainIpc.createAgent := fun _ _ => MainIpc.Done "agent"%string;
     MainIpc.getAppSettings :=
       MainIpc.Done (Some {| MainIpc.enabled := true; MainIpc.sound := false |});
     MainIpc.notification_isSupported := true;
     MainIpc.windows_focused := [false; false];
     MainIpc.notification_show_fails := None |}.

End Sample.

(** * Properties *)

Section Facts.

Context {W : Imports}.

(** ** The monad's loop over guarded calls *)

Lemma trace_of_outcome {A} (r : Res A) (s : State) (t : list Effect) :
  trace (r, s, t) = t.
Proof. reflexivity. Qed.

Lemma state_of_outcome {A} (r : Res A) (s : State) (t : list Effect) :
  state_of (r, s, t) = s.
Proof. reflexivity. Qed.

Lemma result_of_outcome {A} (r : Res A) (s : State) (t : list Effect) :
  result (r, s, t) = r.
Proof. reflexivity. Qed.

Lemma for_each_guarded {A} (mk : A -> Effect) (throws : A -> bool) (warning : string)
    (xs : list A) (s : State) :
  for_each xs
    (fun x => try_catch (call (mk x) (throws x)) (fun _ => effect (LogWarn warning))) s
  = (Returned tt, s, guarded_calls mk throws warning xs).
Proof.
  induction xs as [| x xs IH]; [reflexivity |].
  cbn [for_each guarded_calls flat_map].
  unfold bind at 1. unfold try_catch at 1, call at 1.
  destruct (throws x); cbn; rewrite IH; reflexivity.
Qed.

Lemma guarded_calls_only_calls {A} (mk : A -> Effect) (throws : A -> bool) (warning : string)
    (xs : list A) :
  (forall x, is_listener_call (mk x) = true) ->
  filter is_listener_call (guarded_calls mk throws warning xs) = map mk xs.
Proof.
  intros Hmk. induction xs as [| x xs IH]; [reflexivity |].
  cbn [guarded_calls flat_map map]. rewrite filter_app. fold (guarded_calls mk throws warning xs).
  rewrite IH. cbn [filter]. rewrite Hmk.
  destruct (throws x); reflexivity.
Qed.

Lemma emit_to_spec {A} (mk : Listener A -> Effect) (throws : Listener A -> bool)
    (warning : string) (ls : ListenerSet.t A) (s : State) :
  emit_to (fun l => call (mk l) (throws l)) warning ls s
  = (Returned tt, s, guarded_calls mk throws warning ls).
Proof. unfold emit_to. apply for_each_guarded. Qed.

Lemma emitActivity_spec (s : State) :
  emitActivity s
  = (Returned tt, s,
     guarded_calls (fun l => CallActivity (lid l)) (fun l => lthrows l tt)
       "Terminal activity listener failed" (activityListeners s)).
Proof.
  unfold emitActivity, bind, get.
  rewrite (emit_to_spec (fun l => CallActivity (lid l)) (fun l => lthrows l tt)).
  reflexivity.
Qed.

Lemma emitReady_spec (s : State) :
  emitReady s
  = (Returned tt, s,
     guarded_calls (fun l => CallReady (lid l)) (fun l => lthrows l tt)
       "Terminal ready listener failed" (readyListeners s)).
Proof.
  unfold emitReady, bind, get.
  rewrite (emit_to_spec (fun l => CallReady (lid l)) (fun l => lthrows l tt)).
  reflexivity.
Qed.

Lemma emitError_spec (message : string) (s : State) :
  emitError message s
  = (Returned tt, s,
     guarded_calls (fun l => CallError (lid l) message) (fun l => lthrows l message)
       "Terminal error listener failed" (errorListeners s)).
Proof.
  unfold emitError, bind, get.
  rewrite (emit_to_spec (fun l => CallError (lid l) message) (fun l => lthrows l message)).
  reflexivity.
Qed.

Lemma emitExit_spec (info : ExitInfo) (s : State) :
  emitExit info s
  = (Returned tt, s,
     guarded_calls (fun l => CallExit (lid l) info) (fun l => lthrows l info)
       "Terminal exit listener failed" (exitListeners s)).
Proof.
  unfold emitExit, bind, get.
  rewrite (emit_to_spec (fun l => CallExit (lid l) info) (fun l => lthrows l info)).
  reflexivity.
Qed.

(** C8. On each of the four channels, an emit returns normally whatever
    the listeners do, changes no field, and has called every registered
    listener, each once and in registration order: a listener that throws
    does not stop the listeners after it and its exception does not reach
    the caller. *)
Theorem emit_reaches_every_listener (s : State) (message : string) (info : ExitInfo) :
  (result (emitActivity s) = Returned tt
   /\ state_of (emitActivity s) = s
   /\ filter is_listener_call (trace (emitActivity s))
      = map (fun l => CallActivity (lid l)) (activityListeners s))
  /\ (result (emitReady s) = Returned tt
      /\ state_of (emitReady s) = s
      /\ filter is_listener_call (trace (emitReady s))
         = map (fun l => CallReady (lid l)) (readyListeners s))
  /\ (result (emitError message s) = Returned tt
      /\ state_of (emitError message s) = s
      /\ filter is_listener_call (trace (emitError message s))
         = map (fun l => CallError (lid l) message) (errorListeners s))
  /\ (result (emitExit info s) = Returned tt
      /\ state_of (emitExit info s) = s
      /\ filter is_listener_call (trace (emitExit info s))
         = map (fun l => CallExit (lid l) info) (exitListeners s)).
Proof.
  rewrite emitActivity_spec, emitReady_spec, emitError_spec, emitExit_spec.
  unfold result, state_of, trace; cbn [fst snd].
  repeat split; apply guarded_calls_only_calls; reflexivity.
Qed.

(** ** The focus-report filter *)

Lemma focus_report_true (a b c : code_unit) :
  FocusFilter.focus_report a b c = true ->
  a = FocusFilter.ESC /\ b = FocusFilter.LBRACKET
  /\ (c = FocusFilter.LETTER_I \/ c = FocusFilter.LETTER_O).
Proof.
  unfold FocusFilter.focus_report. intros H.
  apply orb_true_iff in H.
  destruct H as [H | H]; apply andb_true_iff in H; destruct H as [H Hc];
    apply andb_true_iff in H; destruct H as [Ha Hb];
    apply N.eqb_eq in Ha, Hb, Hc; auto.
Qed.

Lemma focus_report_needs_escape (a b c : code_unit) :
  a <> FocusFilter.ESC -> FocusFilter.focus_report a b c = false.
Proof.
  intros Ha. destruct (FocusFilter.focus_report a b c) eqn:E; [| reflexivity].
  apply focus_report_true in E. destruct E as [E _]. contradiction.
Qed.

Lemma occurrence_at_suffix (s : jsstring) (i : nat) :
  FocusFilter.occurrence_at s i
  = match skipn i s with
    | a :: b :: c :: _ => FocusFilter.focus_report a b c
    | _ => false
    end.
Proof. reflexivity. Qed.

Lemma skipn_succ_tail (s : jsstring) (i : nat) :
  skipn (S i) s = tl (skipn i s).
Proof.
  revert s. induction i as [| i IH]; intros s.
  - destruct s; reflexivity.
  - destruct s as [| x s]; [reflexivity |].
    change (skipn (S (S i)) (x :: s)) with (skipn (S i) s).
    change (skipn (S i) (x :: s)) with (skipn i s).
    apply IH.
Qed.

(** Two occurrences never overlap: the second and third unit of an
    occurrence are not ESC. *)
Lemma occurrences_do_not_overlap (s : jsstring) (i : nat) :
  FocusFilter.occurrence_at s i = true ->
  FocusFilter.occurrence_at s (S i) = false
  /\ FocusFilter.occurrence_at s (S (S i)) = false.
Proof.
  rewrite !occurrence_at_suffix, !skipn_succ_tail.
  destruct (skipn i s) as [| a [| b [| c rest]]]; try discriminate.
  intros H. apply focus_report_true in H. destruct H as [_ [Hb Hc]].
  cbn [tl]. split.
  - destruct rest as [| d rest]; [reflexivity |].
    apply focus_report_needs_escape. subst b. discriminate.
  - destruct rest as [| d [| e rest]]; try reflexivity.
    apply focus_report_needs_escape. destruct Hc; subst c; discriminate.
Qed.

Lemma inside_occurrence_clean (s : jsstring) (i : nat) :
  clean_before s i ->
  FocusFilter.inside_occurrence s i = FocusFilter.occurrence_at s i.
Proof.
  intros Hclean. unfold FocusFilter.inside_occurrence.
  destruct i as [| [| k]].
  - apply orb_false_r.
  - rewrite (Hclean 0%nat) by lia. apply orb_false_r.
  - rewrite (Hclean (S k)), (Hclean k) by lia. apply orb_false_r.
Qed.

Lemma inside_occurrence_after (s : jsstring) (i : nat) :
  FocusFilter.occurrence_at s i = true ->
  FocusFilter.inside_occurrence s (S i) = true
  /\ FocusFilter.inside_occurrence s (S (S i)) = true.
Proof.
  intros H. unfold FocusFilter.inside_occurrence. rewrite H.
  split; [| destruct (FocusFilter.occurrence_at s (S i))];
    rewrite ?orb_true_r; reflexivity.
Qed.

Lemma replace_matches_keep_outside (n : nat) :
  forall (full rest : jsstring) (i : nat),
    (List.length rest <= n)%nat ->
    skipn i full = rest ->
    clean_before full i ->
    FocusFilter.replace_focus_reports rest = FocusFilter.keep_outside full i rest.
Proof.
  induction n as [| n IH]; intros full rest i Hlen Hsuffix Hclean.
  - destruct rest; [reflexivity | cbn in Hlen; lia].
  - destruct rest as [| a tl]; [reflexivity |].
    cbn [FocusFilter.keep_outside].
    rewrite (inside_occurrence_clean _ _ Hclean).
    assert (Htl : skipn (S i) full = tl) by (rewrite skipn_succ_tail, Hsuffix; reflexivity).
    assert (Hocc : FocusFilter.occurrence_at full i
                   = match tl with
                     | b :: c :: _ => FocusFilter.focus_report a b c
                     | _ => false
                     end)
      by (rewrite occurrence_at_suffix, Hsuffix; destruct tl as [| b [| c r]]; reflexivity).
    assert (Hstep : clean_before full (S i) \/ FocusFilter.occurrence_at full i = true).
    { destruct (FocusFilter.occurrence_at full i) eqn:E; [right; reflexivity | left].
      intros j Hlt Hle. destruct (Nat.eq_dec j i) as [-> | Hne]; [exact E |].
      apply Hclean; lia. }
    destruct tl as [| b [| c rest']].
    + rewrite Hocc. reflexivity.
    + rewrite Hocc. cbn [FocusFilter.replace_focus_reports].
      f_equal. destruct Hstep as [Hstep | Hstep]; [| rewrite Hocc in Hstep; discriminate].
      cbn [FocusFilter.keep_outside].
      rewrite (inside_occurrence_clean _ _ Hstep), occurrence_at_suffix, Htl.
      reflexivity.
    + rewrite Hocc.
      change (FocusFilter.replace_focus_reports (a :: b :: c :: rest'))
        with (if FocusFilter.focus_report a b c
              then FocusFilter.replace_focus_reports rest'
              else a :: FocusFilter.replace_focus_reports (b :: c :: rest')).
      destruct (FocusFilter.focus_report a b c) eqn:Efocus.
      * destruct (inside_occurrence_after _ _ Hocc) as [H1 H2].
        destruct (occurrences_do_not_overlap _ _ Hocc) as [N1 N2].
        cbn [FocusFilter.keep_outside]. rewrite H1, H2.
        apply IH.
        -- cbn in Hlen |- *. lia.
        -- rewrite !skipn_succ_tail, Hsuffix. reflexivity.
        -- intros j Hlt Hle.
           destruct (Nat.eq_dec j (S (S i))) as [-> | Hne]; [exact N2 |].
           replace j with (S i) by lia. exact N1.
      * f_equal. destruct Hstep as [Hstep | Hstep]; [| rewrite Hocc in Hstep; discriminate].
        apply IH; [cbn in Hlen |- *; lia | exact Htl | exact Hstep].
Qed.

(** The regular-expression replace deletes exactly the units that lie
    inside an occurrence of ESC [ I or ESC [ O in the input. *)
Lemma replace_removes_every_occurrence (data : jsstring) :
  FocusFilter.replace_focus_reports data = FocusFilter.without_focus_reports data.
Proof.
  unfold FocusFilter.without_focus_reports.
  apply (replace_matches_keep_outside (List.length data)); [lia | reflexivity |].
  intros j Hlt. lia.
Qed.

(** ** User input *)

Lemma guarded_calls_filtered_out {A} (keep : Effect -> bool) (mk : A -> Effect)
    (throws : A -> bool) (warning : string) (xs : list A) :
  (forall x, keep (mk x) = false) ->
  keep (LogWarn warning) = false ->
  filter keep (guarded_calls mk throws warning xs) = [].
Proof.
  intros Hmk Hwarn. induction xs as [| x xs IH]; [reflexivity |].
  cbn [guarded_calls flat_map]. rewrite filter_app.
  fold (guarded_calls mk throws warning xs). rewrite IH.
  cbn [filter]. rewrite Hmk. destruct (throws x); cbn [filter]; rewrite ?Hwarn; reflexivity.
Qed.

Lemma on_terminal_data_spec (data : jsstring) (s : State) :
  on_terminal_data data s
  = (Returned tt, s, trace (emitActivity s) ++ forwarded_input data s).
Proof.
  unfold on_terminal_data, forwarded_input, bind at 1.
  rewrite emitActivity_spec. unfold trace; cbn [snd].
  unfold bind, get.
  destruct (disposed s); cbn [negb]; [reflexivity |].
  destruct (truthy_string (FocusFilter.replace_focus_reports data)); reflexivity.
Qed.

Lemma activity_trace_has_no_input (s : State) :
  filter is_input (trace (emitActivity s)) = [].
Proof.
  rewrite emitActivity_spec. unfold trace; cbn [snd].
  apply guarded_calls_filtered_out; reflexivity.
Qed.

Lemma activity_trace_calls (s : State) :
  filter is_listener_call (trace (emitActivity s))
  = map (fun l => CallActivity (lid l)) (activityListeners s).
Proof.
  rewrite emitActivity_spec. unfold trace; cbn [snd].
  apply guarded_calls_only_calls; reflexivity.
Qed.

Lemma forwarded_input_is_input (data : jsstring) (s : State) :
  filter is_input (forwarded_input data s) = forwarded_input data s
  /\ filter is_listener_call (forwarded_input data s) = [].
Proof.
  unfold forwarded_input.
  destruct (disposed s); [split; reflexivity |].
  destruct (truthy_string _); split; reflexivity.
Qed.

(** C10. On a session that is not disposed, an input event sends the
    transport the input with every occurrence of ESC [ I and ESC [ O
    removed, in one write; when nothing is left it sends nothing; either
    way every activity listener has been called. *)
Theorem input_is_filtered_before_forwarding (data : jsstring) (s : State) :
  disposed s = false ->
  let filtered := FocusFilter.without_focus_reports data in
  let out := on_terminal_data data s in
  result out = Returned tt
  /\ filter is_input (trace out)
     = (if truthy_string filtered then [PtyInput (id s) filtered] else [])
  /\ (filtered = [] -> filter is_input (trace out) = [])
  /\ filter is_listener_call (trace out)
     = map (fun l => CallActivity (lid l)) (activityListeners s).
Proof.
  intros Hlive filtered out. subst out filtered.
  rewrite on_terminal_data_spec. unfold result; cbn [fst].
  rewrite !trace_of_outcome.
  rewrite !filter_app, activity_trace_has_no_input, activity_trace_calls.
  destruct (forwarded_input_is_input data s) as [Hin Hcall].
  rewrite Hin, Hcall, app_nil_r. cbn [app].
  unfold forwarded_input. rewrite Hlive, replace_removes_every_occurrence.
  repeat split; try reflexivity.
  intros Hempty. rewrite Hempty. reflexivity.
Qed.

(** ** Reasoning about a computation under an invariant *)

Lemma maintains_ret {A} I flagged (a : A) : maintains I flagged (ret a).
Proof. intros s H. split; [exact H | reflexivity]. Qed.

Lemma maintains_get I flagged : maintains I flagged get.
Proof. intros s H. split; [exact H | reflexivity]. Qed.

Lemma maintains_throw {A} I flagged (e : JsError) : maintains I flagged (@throw W A e).
Proof. intros s H. split; [exact H | reflexivity]. Qed.

Lemma maintains_effect I flagged (e : Effect) :
  flagged e = false -> maintains I flagged (effect e).
Proof. intros He s H. split; [exact H |]. cbn. rewrite He. reflexivity. Qed.

Lemma maintains_call I flagged (e : Effect) (b : bool) :
  flagged e = false -> maintains I flagged (call e b).
Proof. intros He s H. split; [exact H |]. cbn. rewrite He. reflexivity. Qed.

Lemma maintains_modify I flagged (f : State -> State) :
  (forall s, I s -> I (f s)) -> maintains I flagged (modify f).
Proof. intros Hf s H. split; [apply Hf; exact H | reflexivity]. Qed.

Lemma maintains_bind {A B} I flagged (m : M A) (k : A -> M B) :
  maintains I flagged m ->
  (forall a, maintains I flagged (k a)) ->
  maintains I flagged (bind m k).
Proof.
  intros Hm Hk s H. unfold bind.
  destruct (Hm s H) as [HI Ht]. unfold state_of, trace in HI, Ht.
  destruct (m s) as [[[a | e] s1] t1]; cbn [fst snd] in HI, Ht.
  - destruct (Hk a s1 HI) as [HI2 Ht2]. unfold state_of, trace in HI2, Ht2.
    destruct (k a s1) as [[r s2] t2]; cbn [fst snd] in HI2, Ht2.
    unfold state_of, trace; cbn [fst snd].
    split; [exact HI2 |]. rewrite filter_app, Ht, Ht2. reflexivity.
  - unfold state_of, trace; cbn [fst snd]. split; assumption.
Qed.

Lemma maintains_try_catch {A} I flagged (body : M A) (handler : JsError -> M A) :
  maintains I flagged body ->
  (forall e, maintains I flagged (handler e)) ->
  maintains I flagged (try_catch body handler).
Proof.
  intros Hm Hk s H. unfold try_catch.
  destruct (Hm s H) as [HI Ht]. unfold state_of, trace in HI, Ht.
  destruct (body s) as [[[a | e] s1] t1]; cbn [fst snd] in HI, Ht.
  - unfold state_of, trace; cbn [fst snd]. split; assumption.
  - destruct (Hk e s1 HI) as [HI2 Ht2]. unfold state_of, trace in HI2, Ht2.
    destruct (handler e s1) as [[r s2] t2]; cbn [fst snd] in HI2, Ht2.
    unfold state_of, trace; cbn [fst snd].
    split; [exact HI2 |]. rewrite filter_app, Ht, Ht2. reflexivity.
Qed.

Lemma maintains_when I flagged (b : bool) (m : M unit) :
  maintains I flagged m -> maintains I flagged (when b m).
Proof. intros Hm. destruct b; [exact Hm | apply maintains_ret]. Qed.

Lemma maintains_for_each {A} I flagged (xs : list A) (body : A -> M unit) :
  (forall x, maintains I flagged (body x)) ->
  maintains I flagged (for_each xs body).
Proof.
  intros Hbody. induction xs as [| x xs IH]; cbn [for_each].
  - apply maintains_ret.
  - apply maintains_bind; [apply Hbody | intros _; exact IH].
Qed.

Lemma maintains_weaken {A} I (flagged flagged' : Effect -> bool) (m : M A) :
  (forall e, flagged' e = true -> flagged e = true) ->
  maintains I flagged m -> maintains I flagged' m.
Proof.
  intros Hsub Hm s H. destruct (Hm s H) as [HI Ht]. split; [exact HI |].
  induction (trace (m s)) as [| e t IH]; [reflexivity |].
  cbn [filter] in Ht |- *.
  destruct (flagged e) eqn:Ee; [discriminate |].
  destruct (flagged' e) eqn:Ee'; [apply Hsub in Ee'; congruence | auto].
Qed.

(** A setter that leaves the fields an invariant reads alone. *)
Ltac keeps_fields :=
  let s := fresh "s" in
  let H := fresh "H" in
  intros s H; destruct s; cbn in *; try assumption; try (exact H); auto.

(** Walks through a computation built from the monad's combinators,
    leaving the steps that need an argument of their own. *)
Ltac maintain_step :=
  first
    [ apply maintains_ret
    | apply maintains_get
    | apply maintains_throw
    | apply maintains_effect; reflexivity
    | apply maintains_call; reflexivity
    | apply maintains_modify; keeps_fields
    | apply maintains_bind; [| intro]
    | apply maintains_try_catch; [| intro]
    | apply maintains_for_each; intro
    | apply maintains_when
    | match goal with
      | |- maintains _ _ (if ?b then _ else _) => destruct b
      | |- maintains _ _ (match ?x with _ => _ end) => destruct x
      end ].

Ltac maintain := repeat maintain_step.

Lemma bind_modify_run {A} (f : State -> State) (k : unit -> M A) (s : State) :
  bind (modify f) k s = k tt (f s).
Proof.
  unfold bind, modify. destruct (k tt (f s)) as [[r s2] t2]. reflexivity.
Qed.

Lemma bind_get_run {A} (k : State -> M A) (s : State) :
  bind get k s = k s s.
Proof.
  unfold bind, get. destruct (k s s) as [[r s2] t2]. reflexivity.
Qed.

Lemma bind_ret_run {A B} (a : A) (k : A -> M B) (s : State) :
  bind (ret a) k s = k a s.
Proof.
  unfold bind, ret. destruct (k a s) as [[r s2] t2]. reflexivity.
Qed.

Lemma bind_effect_run {A} (e : Effect) (k : unit -> M A) (s : State) :
  bind (effect e) k s
  = (result (k tt s), state_of (k tt s), e :: trace (k tt s)).
Proof.
  unfold bind, effect. destruct (k tt s) as [[r s2] t2]. reflexivity.
Qed.

(** ** Snapshot capture *)

Lemma capture_task_body_spec (env : Env) (reason : SnapshotReason) (s : State) :
  capture_task_body env reason s
  = (Returned (capture_status env reason), s, capture_trace env reason s).
Proof.
  unfold capture_task_body, capture_status, capture_trace, try_catch.
  destruct (serialized env) as [text |]; [| reflexivity].
  destruct (negb (truthy_string text) && is_detach reason); reflexivity.
Qed.

Lemma captureSnapshot_skipped (env : Env) (reason : SnapshotReason) (s : State) :
  has_ptySaveSnapshot env = false \/ disposed s = true \/ debounced env reason s = true ->
  captureSnapshot env reason s = (Returned None, s, []).
Proof.
  intros H. unfold captureSnapshot. rewrite bind_get_run.
  destruct (has_ptySaveSnapshot env); [| reflexivity].
  destruct (disposed s); [reflexivity |].
  destruct (debounced env reason s); [reflexivity |].
  destruct H as [H | [H | H]]; discriminate.
Qed.

Lemma captureSnapshot_started (env : Env) (reason : SnapshotReason) (s : State) :
  has_ptySaveSnapshot env = true ->
  disposed s = false ->
  debounced env reason s = false ->
  captureSnapshot env reason s
  = (Returned (Some (next_task s)),
     set_pendingSnapshot (Some (next_task s))
       (set_tasks (inflight s ++ [started_task env reason s]) (S (next_task s)) s),
     capture_trace env reason s).
Proof.
  intros Hapi Hlive Hdeb. unfold captureSnapshot. rewrite bind_get_run.
  rewrite Hapi, Hlive, Hdeb. cbn [negb].
  unfold bind at 1. rewrite capture_task_body_spec.
  rewrite bind_modify_run, bind_modify_run.
  unfold ret. rewrite app_nil_r. reflexivity.
Qed.

Lemma captureSnapshot_returns (env : Env) (reason : SnapshotReason) (s : State) :
  exists started, result (captureSnapshot env reason s) = Returned started.
Proof.
  destruct (has_ptySaveSnapshot env) eqn:Hapi;
    [destruct (disposed s) eqn:Hlive; [| destruct (debounced env reason s) eqn:Hdeb] |].
  - exists None. rewrite captureSnapshot_skipped by auto. reflexivity.
  - exists None. rewrite captureSnapshot_skipped by auto. reflexivity.
  - exists (Some (next_task s)). rewrite captureSnapshot_started by assumption. reflexivity.
  - exists None. rewrite captureSnapshot_skipped by auto. reflexivity.
Qed.

Lemma captureSnapshot_disposed_quiet (env : Env) (reason : SnapshotReason) :
  maintains (fun s => disposed s = true) is_save (captureSnapshot env reason).
Proof.
  intros s H. rewrite captureSnapshot_skipped by auto. split; [exact H | reflexivity].
Qed.

(** ** Dispose *)

Lemma detach_disposed_quiet (env : Env) :
  maintains (fun s => disposed s = true) is_save (detach env).
Proof.
  unfold detach.
  apply maintains_bind; [apply maintains_get | intros s0].
  destruct (attachedContainer s0); [| apply maintains_ret].
  apply maintains_bind; [destruct (resizeObserver s0); maintain | intros _].
  do 4 (apply maintains_bind; [maintain | intros _]).
  apply maintains_bind; [apply captureSnapshot_disposed_quiet | intros _; maintain].
Qed.

(** Everything [dispose] does after it has set the flag. *)
Lemma dispose_when_live (env : Env) (s : State) :
  disposed s = false ->
  let out := dispose env s in
  disposed (state_of out) = true /\ filter is_save (trace out) = [].
Proof.
  intros Hlive out. subst out. unfold dispose.
  rewrite bind_get_run, Hlive, bind_modify_run.
  match goal with
  | |- disposed (state_of (?m ?s0)) = true /\ _ =>
      apply (fun Hm : maintains (fun x => disposed x = true) is_save m => Hm s0)
  end; [| destruct s; reflexivity].
  apply maintains_bind; [apply detach_disposed_quiet | intros _].
  apply maintains_bind; [unfold stopSnapshotTimer; maintain | intros _].
  apply maintains_bind; [apply captureSnapshot_disposed_quiet | intros _].
  unfold run_cleanup. maintain.
Qed.

Lemma dispose_when_disposed (env : Env) (s : State) :
  disposed s = true -> dispose env s = (Returned tt, s, []).
Proof.
  intros H. unfold dispose. rewrite bind_get_run, H. reflexivity.
Qed.

Lemma dispose_sets_flag (env : Env) (s : State) :
  disposed (state_of (dispose env s)) = true.
Proof.
  destruct (disposed s) eqn:E.
  - rewrite dispose_when_disposed by exact E. exact E.
  - apply dispose_when_live. exact E.
Qed.

(** Whatever the session's state, [dispose] never reaches the store:
    the flag is set before [detach] and [captureSnapshot('dispose')]
    run, and both captures return at the [disposed] guard. *)
Lemma dispose_trace_has_no_save (env : Env) (s : State) :
  filter is_save (trace (dispose env s)) = [].
Proof.
  destruct (disposed s) eqn:E.
  - rewrite dispose_when_disposed by exact E. reflexivity.
  - apply dispose_when_live. exact E.
Qed.

(** C6. A second [dispose] changes nothing: it returns at once, leaves
    every field as the first call left it and makes no outside call (no
    listener is invoked, no capture is started, the transport is not
    killed again). *)
Theorem dispose_twice_is_dispose_once (env env' : Env) (s : State) :
  let once := dispose env s in
  dispose env' (state_of once) = (Returned tt, state_of once, [])
  /\ run [(env, DisposeCall); (env', DisposeCall)] s = run [(env, DisposeCall)] s.
Proof.
  intros once.
  assert (Hsecond : dispose env' (state_of once) = (Returned tt, state_of once, []))
    by (apply dispose_when_disposed; apply dispose_sets_flag).
  split; [exact Hsecond |].
  cbn [run handle]. subst once. unfold state_of in Hsecond.
  destruct (dispose env s) as [[r s1] t1]. cbn [fst snd] in Hsecond.
  rewrite Hsecond. reflexivity.
Qed.

(** ** Detach and dispose, in closed form *)

Lemma detach_spec (env : Env) (s : State) :
  detach env s
  = match attachedContainer s with
    | Some _ =>
        (Returned tt,
         state_of (captureSnapshot env detach_reason (detached s)),
         detach_calls s ++ trace (captureSnapshot env detach_reason (detached s)))
    | None => (Returned tt, s, [])
    end.
Proof.
  unfold detach, detach_calls, detached. rewrite bind_get_run.
  destruct (attachedContainer s); [| reflexivity].
  unfold bind, modify, effect, ret.
  destruct (resizeObserver s);
    match goal with
    | |- context [captureSnapshot ?e ?r ?x] =>
        destruct (captureSnapshot_returns e r x) as [started Hret];
        unfold result in Hret;
        destruct (captureSnapshot e r x) as [[res s2] t2]
    end;
    cbn [fst] in Hret; subst res; cbn; rewrite ?app_nil_r; reflexivity.
Qed.

Lemma bind_run {A B} (m : M A) (k : A -> M B) (s s1 : State) (a : A) (t1 : list Effect) :
  m s = (Returned a, s1, t1) ->
  bind m k s = (result (k a s1), state_of (k a s1), t1 ++ trace (k a s1)).
Proof.
  intros Hm. unfold bind. rewrite Hm.
  destruct (k a s1) as [[r s2] t2]. reflexivity.
Qed.

Lemma detach_when_disposed (env : Env) (s : State) :
  disposed s = true ->
  detach env s
  = (Returned tt,
     match attachedContainer s with
     | Some _ => detached s
     | None => s
     end,
     detach_calls s).
Proof.
  intros H. rewrite detach_spec. unfold detach_calls.
  destruct (attachedContainer s); [| reflexivity].
  rewrite captureSnapshot_skipped
    by (right; left; destruct s; exact H).
  rewrite state_of_outcome, trace_of_outcome, app_nil_r. reflexivity.
Qed.

Lemma stopSnapshotTimer_spec (s : State) :
  stopSnapshotTimer s
  = (Returned tt, set_snapshotTimer false s, if snapshotTimer s then [ClearInterval] else []).
Proof.
  unfold stopSnapshotTimer. rewrite bind_get_run.
  destruct s as [i att obs ds timer pend dsp opn la lr le lx ff started lat lre mt par infl nt].
  destruct timer; reflexivity.
Qed.

Lemma guarded_kill_spec (env : Env) (i : string) (s : State) :
  try_catch (call (PtyKill i) (ptyKill_throws env))
    (fun _ => effect (LogWarn "Failed to kill PTY during dispose")) s
  = (Returned tt, s,
     PtyKill i
     :: (if ptyKill_throws env then [LogWarn "Failed to kill PTY during dispose"] else [])).
Proof.
  unfold try_catch, call. destruct (ptyKill_throws env); reflexivity.
Qed.

Lemma dispose_live_spec (env : Env) (s : State) :
  disposed s = false ->
  dispose env s = (Returned tt, disposed_state s, dispose_calls env s).
Proof.
  intros Hlive. unfold dispose.
  rewrite bind_get_run, Hlive, bind_modify_run.
  erewrite bind_run by (apply detach_when_disposed; destruct s; reflexivity).
  erewrite bind_run by apply stopSnapshotTimer_spec.
  erewrite bind_run
    by (apply captureSnapshot_skipped; right; left;
        destruct s as [? [?|] ? ? ? ? ? ? ? ? ? ? ? ? ? ? ? ? ? ?]; reflexivity).
  erewrite bind_run by apply guarded_kill_spec.
  rewrite bind_get_run, bind_modify_run.
  unfold run_cleanup.
  erewrite bind_run by apply for_each_guarded.
  rewrite !bind_modify_run.
  unfold effect, disposed_state, dispose_calls, ListenerSet.clear.
  rewrite !result_of_outcome, !state_of_outcome, !trace_of_outcome.
  destruct s as [i att obs ds timer pend dsp opn la lr le lx ff started lat lre mt par infl nt].
  destruct att; cbn -[guarded_calls app]; rewrite ?app_nil_r; reflexivity.
Qed.

(** On a live session [dispose] asks the transport to kill the process
    and leaves the four registries empty. *)
Lemma dispose_kills_and_clears (env : Env) (s : State) :
  disposed s = false ->
  let out := dispose env s in
  In (PtyKill (id s)) (trace out)
  /\ activityListeners (state_of out) = []
  /\ readyListeners (state_of out) = []
  /\ errorListeners (state_of out) = []
  /\ exitListeners (state_of out) = [].
Proof.
  intros Hlive out. subst out. rewrite dispose_live_spec by exact Hlive.
  rewrite trace_of_outcome, state_of_outcome. unfold dispose_calls.
  split; [| repeat split].
  apply in_or_app. right. apply in_or_app. right. left. reflexivity.
Qed.

(** ** Attach and detach *)

Lemma sendSizeIfStarted_spec (env : Env) (s : State) :
  sendSizeIfStarted env s = (Returned tt, s, size_sync env s).
Proof.
  unfold sendSizeIfStarted, size_sync. rewrite bind_get_run.
  destruct (negb (ptyStarted s) || disposed s); [reflexivity |].
  unfold try_catch, call. destruct (ptyResize_throws env); reflexivity.
Qed.

Lemma detach_returns (env : Env) (s : State) :
  result (detach env s) = Returned tt.
Proof. rewrite detach_spec. destruct (attachedContainer s); reflexivity. Qed.

Lemma attach_spec (env : Env) (c : container) (s : State) :
  disposed s = false ->
  opt_container_eqb (attachedContainer s) c = false ->
  attach env c s
  = (Returned tt,
     attached_to c (state_of (detach env s)),
     trace (detach env s) ++ attach_calls env c (state_of (detach env s))).
Proof.
  intros Hlive Hother. unfold attach.
  rewrite bind_get_run, Hlive, Hother.
  pose proof (detach_returns env s) as Hret.
  destruct (detach env s) as [[r s1] t1] eqn:Hdetach.
  rewrite result_of_outcome in Hret. subst r.
  erewrite bind_run by exact Hdetach.
  rewrite state_of_outcome, trace_of_outcome.
  rewrite bind_effect_run, !bind_modify_run, bind_get_run.
  assert (Hopen : forall s0,
             when (negb (opened s0))
               (bind (effect TerminalOpen) (fun _ => modify (set_opened true))) s0
             = (Returned tt, set_opened true s0, if opened s0 then [] else [TerminalOpen])).
  { intros s0. destruct s0 as [? ? ? ? ? ? ? o ? ? ? ? ? ? ? ? ? ? ? ?]. destruct o; reflexivity. }
  erewrite bind_run by apply Hopen.
  rewrite bind_effect_run.
  erewrite bind_run by apply sendSizeIfStarted_spec.
  rewrite bind_modify_run, bind_effect_run.
  unfold effect, attached_to, attach_calls, size_sync.
  rewrite !result_of_outcome, !state_of_outcome, !trace_of_outcome.
  destruct s1 as [i att obs ds timer pend dsp opn la lr le lx ff started lat lre mt par infl nt].
  cbn -[app]. reflexivity.
Qed.

Lemma attach_same_container (env : Env) (c : container) (s : State) :
  disposed s = false ->
  attachedContainer s = Some c ->
  attach env c s = (Returned tt, s, []).
Proof.
  intros Hlive Hsame. unfold attach.
  rewrite bind_get_run, Hlive, Hsame. cbn [opt_container_eqb].
  rewrite Nat.eqb_refl. reflexivity.
Qed.

Lemma attach_when_disposed (env : Env) (c : container) (s : State) :
  disposed s = true ->
  attach env c s = (Thrown (JsErr "Terminal session is already disposed"), s, []).
Proof.
  intros H. unfold attach. rewrite bind_get_run, H. reflexivity.
Qed.

Lemma captureSnapshot_keeps_attachment (env : Env) (reason : SnapshotReason) :
  maintains attachment_consistent nothing_flagged (captureSnapshot env reason).
Proof. unfold captureSnapshot, capture_task_body. maintain. Qed.

Lemma detach_keeps_attachment (env : Env) (s : State) :
  attachment_consistent (state_of (detach env s))
  \/ (attachedContainer s = None /\ state_of (detach env s) = s).
Proof.
  rewrite detach_spec. destruct (attachedContainer s) eqn:E.
  - left. rewrite state_of_outcome.
    apply captureSnapshot_keeps_attachment.
    destruct s; cbn. split; reflexivity.
  - right. split; reflexivity.
Qed.

Lemma detach_clears_attachment (env : Env) (s : State) :
  attachedContainer (state_of (detach env s)) = None.
Proof.
  rewrite detach_spec. destruct (attachedContainer s) eqn:E.
  - rewrite state_of_outcome.
    assert (Hframe : maintains (fun x => attachedContainer x = None) nothing_flagged
                       (captureSnapshot env detach_reason))
      by (unfold captureSnapshot, capture_task_body; maintain).
    apply Hframe. destruct s; reflexivity.
  - exact E.
Qed.

Lemma attached_to_consistent (c : container) (s : State) :
  attachment_consistent (attached_to c s).
Proof. destruct s; cbn. split; reflexivity. Qed.

Lemma disposed_state_consistent (s : State) :
  attachment_consistent s -> attachment_consistent (disposed_state s).
Proof.
  unfold attachment_consistent, disposed_state.
  destruct s as [i att obs ds timer pend dsp opn la lr le lx ff started lat lre mt par infl nt].
  destruct att; cbn; [split; reflexivity | trivial].
Qed.

Ltac unfold_handlers :=
  unfold focus, registerActivityListener, unregisterActivityListener,
    registerReadyListener, unregisterReadyListener,
    registerErrorListener, unregisterErrorListener,
    registerExitListener, unregisterExitListener,
    on_terminal_data, on_terminal_resize, on_container_resize, on_animation_frame,
    on_snapshot_timer, settle_capture, restoreSnapshot, connectPty,
    on_pty_start_reply, on_pty_started, on_pty_data, on_pty_exit,
    emitActivity, emitReady, emitError, emitExit, emit_to,
    sendSizeIfStarted, captureSnapshot, capture_task_body, stopSnapshotTimer.

(** No entry point breaks the agreement. *)
Lemma handle_keeps_attachment (env : Env) (ev : Event) (s : State) :
  attachment_consistent s ->
  attachment_consistent (state_of (handle env ev s)).
Proof.
  intros HI.
  destruct ev; cbn [handle];
    try (match goal with
         | |- attachment_consistent (state_of (?m s)) =>
             apply (fun Hm : maintains attachment_consistent nothing_flagged m =>
                      proj1 (Hm s HI))
         end;
         unfold_handlers; cbv zeta; maintain; fail).
  - (* attach *)
    destruct (disposed s) eqn:Hlive;
      [rewrite attach_when_disposed by exact Hlive; exact HI |].
    destruct (opt_container_eqb (attachedContainer s) c) eqn:Hsame.
    + destruct (attachedContainer s) as [c' |] eqn:Hatt; [| discriminate].
      apply Nat.eqb_eq in Hsame. subst c'.
      rewrite (attach_same_container env c s Hlive Hatt). exact HI.
    + rewrite attach_spec by assumption. rewrite state_of_outcome.
      apply attached_to_consistent.
  - (* detach *)
    destruct (detach_keeps_attachment env s) as [H | [_ H]]; [exact H |].
    rewrite H. exact HI.
  - (* dispose *)
    destruct (disposed s) eqn:Hlive.
    + rewrite dispose_when_disposed by exact Hlive. exact HI.
    + rewrite dispose_live_spec by exact Hlive. rewrite state_of_outcome.
      apply disposed_state_consistent. exact HI.
Qed.

Lemma run_keeps_attachment (events : list (Env * Event)) (s : State) :
  attachment_consistent s ->
  attachment_consistent (fst (run events s)).
Proof.
  revert s. induction events as [| [env ev] rest IH]; intros s HI; [exact HI |].
  cbn [run].
  pose proof (handle_keeps_attachment env ev s HI) as Hstep.
  unfold state_of in Hstep.
  destruct (handle env ev s) as [[r s1] t1]. cbn [fst snd] in Hstep.
  specialize (IH s1 Hstep).
  destruct (run rest s1) as [s2 t2]. exact IH.
Qed.

Lemma new_session_consistent (options : TerminalSessionOptions) :
  attachment_consistent (new_session options).
Proof. split; reflexivity. Qed.

(** C7. Over every sequence of calls and events the session is attached
    to at most one surface: the surface recorded as attached, the DOM
    parent of the root element and the observed element always agree.
    [attach(c)] on a session attached to [c] does nothing; [attach(c)]
    on a session attached to another surface first runs [detach] (the
    root element goes back to the host, the attachment is cleared) and
    only then moves the root element into [c]; [detach()] on a session
    that is not attached does nothing, in particular it starts no
    capture. *)
Theorem at_most_one_attachment (env : Env) (events : list (Env * Event)) :
  (forall s, attachment_consistent s -> attachment_consistent (fst (run events s)))
  /\ (forall s c,
        disposed s = false -> attachedContainer s = Some c ->
        attach env c s = (Returned tt, s, []))
  /\ (forall s c c',
        disposed s = false -> attachedContainer s = Some c' -> c <> c' ->
        let out := attach env c s in
        result out = Returned tt
        /\ trace out = trace (detach env s) ++ attach_calls env c (state_of (detach env s))
        /\ In (AppendChild TerminalHost) (trace (detach env s))
        /\ attachedContainer (state_of (detach env s)) = None
        /\ attachedContainer (state_of out) = Some c
        /\ container_parent (state_of out) = Surface c
        /\ resizeObserver (state_of out) = Some c)
  /\ (forall s, attachedContainer s = None -> detach env s = (Returned tt, s, [])).
Proof.
  split; [| split; [| split]].
  - intros s HI. apply run_keeps_attachment. exact HI.
  - intros s c Hlive Hsame. apply attach_same_container; assumption.
  - intros s c c' Hlive Hatt Hne out. subst out.
    assert (Hother : opt_container_eqb (attachedContainer s) c = false).
    { rewrite Hatt. cbn. apply Nat.eqb_neq. congruence. }
    rewrite attach_spec by assumption.
    rewrite result_of_outcome, trace_of_outcome, state_of_outcome.
    repeat split.
    + rewrite detach_spec, Hatt, trace_of_outcome. unfold detach_calls. rewrite Hatt.
      apply in_or_app. left. apply in_or_app. right. left. reflexivity.
    + apply detach_clears_attachment.
  - intros s Hnone. rewrite detach_spec, Hnone. reflexivity.
Qed.

(** ** Completion of a capture and the debounce window *)

Lemma settle_capture_found (env : Env) (tid : nat) (reply : SaveReply)
    (task : CaptureTask) (s : State) :
  find_task tid s = Some task ->
  let s1 := state_of (settle_capture env tid reply s) in
  result (settle_capture env tid reply s) = Returned tt
  /\ lastSnapshotAt s1 = Some (date_now env)
  /\ lastSnapshotReason s1 = Some (task_reason task)
  /\ disposed s1 = disposed s
  /\ next_task s1 = next_task s
  /\ inflight s1 = filter (fun t => negb (Nat.eqb (task_id t) tid)) (inflight s)
  /\ pendingSnapshot s1
     = (if opt_nat_eqb (pendingSnapshot s) tid then None else pendingSnapshot s).
Proof.
  intros Hfind s1. subst s1. unfold settle_capture.
  rewrite bind_get_run, Hfind.
  destruct s as [i att obs ds timer pend dsp opn la lr le lx ff started lat lre mt par infl nt].
  destruct task as [t r st].
  destruct st; [destruct reply as [e | [|]] |];
    cbn; destruct (opt_nat_eqb pend tid); cbn; repeat split.
Qed.

Lemma debounced_spec (env : Env) (s : State) (last : Z) :
  lastSnapshotReason s = Some detach_reason ->
  lastSnapshotAt s = Some last ->
  last <> 0 ->
  debounced env detach_reason s = (date_now env - last <? 1500).
Proof.
  intros Hr Ha Hnz. unfold debounced. rewrite Hr, Ha. cbn.
  unfold truthy_number. destruct (Z.eqb_spec last 0); [contradiction | reflexivity].
Qed.

(** C5. Once a detach-tagged capture has completed (at a clock reading
    [date_now env0], a positive number of milliseconds), a detach-tagged
    capture attempted less than 1500 ms later is skipped: it returns at
    once, starts no task, calls nothing and changes no field.  One
    attempted 1500 ms later or more passes the debounce test, and (the
    store being available and the session live) starts a task, which
    saves the buffer when it is not empty. *)
Theorem detach_capture_debounce (env0 env1 : Env) (tid : nat) (reply : SaveReply)
    (task : CaptureTask) (s : State) :
  find_task tid s = Some task ->
  task_reason task = detach_reason ->
  0 < date_now env0 ->
  let s1 := state_of (settle_capture env0 tid reply s) in
  (date_now env1 - date_now env0 < 1500 ->
   captureSnapshot env1 detach_reason s1 = (Returned None, s1, []))
  /\ (1500 <= date_now env1 - date_now env0 ->
      debounced env1 detach_reason s1 = false
      /\ (has_ptySaveSnapshot env1 = true -> disposed s1 = false ->
          let out := captureSnapshot env1 detach_reason s1 in
          result out = Returned (Some (next_task s1))
          /\ inflight (state_of out) = inflight s1 ++ [started_task env1 detach_reason s1]
          /\ forall text,
               serialized env1 = Some text -> truthy_string text = true ->
               trace out
               = [PtySaveSnapshot (id s1) (make_payload env1 detach_reason text s1)])).
Proof.
  intros Hfind Hreason Hclock s1.
  destruct (settle_capture_found env0 tid reply task s Hfind)
    as (_ & Hat & Hre & _).
  fold s1 in Hat, Hre. rewrite Hreason in Hre.
  assert (Hdeb : debounced env1 detach_reason s1 = (date_now env1 - date_now env0 <? 1500))
    by (apply debounced_spec; [exact Hre | exact Hat | lia]).
  split.
  - intros Hsoon. apply captureSnapshot_skipped. right. right.
    rewrite Hdeb. apply Z.ltb_lt. exact Hsoon.
  - intros Hlate.
    assert (Hpass : debounced env1 detach_reason s1 = false)
      by (rewrite Hdeb; apply Z.ltb_ge; exact Hlate).
    split; [exact Hpass |].
    intros Hapi Hlive out. subst out.
    rewrite captureSnapshot_started by assumption.
    rewrite result_of_outcome, state_of_outcome, trace_of_outcome.
    split; [reflexivity |]. split; [destruct s1; reflexivity |].
    intros text Hser Htruthy. unfold capture_trace. rewrite Hser, Htruthy. reflexivity.
Qed.

(** C3, as the code has it.  [captureSnapshot] records the task it
    starts in [pendingSnapshot] but never reads that field before
    starting one: whenever the store is available, the session is live
    and the debounce test does not apply, a capture starts a fresh task
    next to whatever tasks are still unsettled, and the field then names
    the new task. *)
Theorem capture_starts_task_whatever_is_pending (env : Env) (reason : SnapshotReason)
    (s : State) :
  has_ptySaveSnapshot env = true ->
  disposed s = false ->
  debounced env reason s = false ->
  let out := captureSnapshot env reason s in
  result out = Returned (Some (next_task s))
  /\ inflight (state_of out) = inflight s ++ [started_task env reason s]
  /\ pendingSnapshot (state_of out) = Some (next_task s)
  /\ trace out = capture_trace env reason s.
Proof.
  intros Hapi Hlive Hdeb out. subst out.
  rewrite captureSnapshot_started by assumption.
  rewrite result_of_outcome, state_of_outcome, trace_of_outcome.
  repeat split; destruct s; reflexivity.
Qed.

(** ** What [pendingSnapshot] records *)

Lemma nothing_is_flagged (t : list Effect) : filter nothing_flagged t = [].
Proof. induction t as [| e t IH]; [reflexivity | exact IH]. Qed.

Lemma find_last_added (tid : nat) (task : CaptureTask) (tasks : list CaptureTask) :
  task_id task = tid ->
  find (fun t => Nat.eqb (task_id t) tid) (tasks ++ [task]) <> None.
Proof.
  intros Hid. induction tasks as [| x xs IH]; cbn.
  - rewrite Hid, Nat.eqb_refl. discriminate.
  - destruct (Nat.eqb (task_id x) tid); [discriminate | exact IH].
Qed.

Lemma find_survives_removal (tid other : nat) (tasks : list CaptureTask) :
  tid <> other ->
  find (fun t => Nat.eqb (task_id t) tid) tasks <> None ->
  find (fun t => Nat.eqb (task_id t) tid)
    (filter (fun t => negb (Nat.eqb (task_id t) other)) tasks) <> None.
Proof.
  intros Hne. induction tasks as [| x xs IH]; cbn; [trivial |].
  destruct (Nat.eqb (task_id x) tid) eqn:Ex.
  - intros _. apply Nat.eqb_eq in Ex.
    assert (Hkeep : Nat.eqb (task_id x) other = false)
      by (apply Nat.eqb_neq; congruence).
    rewrite Hkeep. cbn. rewrite (proj2 (Nat.eqb_eq _ _) Ex). discriminate.
  - intros Hfound. destruct (Nat.eqb (task_id x) other); cbn; [auto |].
    rewrite Ex. auto.
Qed.

Lemma captureSnapshot_keeps_pending (env : Env) (reason : SnapshotReason) :
  maintains pending_is_latest nothing_flagged (captureSnapshot env reason).
Proof.
  intros s [Hfresh Hpending]. split; [| apply nothing_is_flagged].
  destruct (has_ptySaveSnapshot env) eqn:Hapi;
    [destruct (disposed s) eqn:Hlive; [| destruct (debounced env reason s) eqn:Hdeb] |];
    try (rewrite captureSnapshot_skipped by auto; split; assumption).
  rewrite captureSnapshot_started by assumption. rewrite state_of_outcome.
  destruct s as [i att obs ds timer pend dsp opn la lr le lx ff started lat lre mt par infl nt].
  unfold pending_is_latest, find_task in *. cbn in *. split.
  - intros t Hin. apply in_app_or in Hin. destruct Hin as [Hin | [<- | []]].
    + specialize (Hfresh t Hin). lia.
    + cbn. lia.
  - intros tid [= <-]. split; [reflexivity |]. apply find_last_added. reflexivity.
Qed.

Lemma settle_capture_missing (env : Env) (tid : nat) (reply : SaveReply) (s : State) :
  find_task tid s = None ->
  settle_capture env tid reply s = (Returned tt, s, []).
Proof.
  intros Hnone. unfold settle_capture. rewrite bind_get_run, Hnone. reflexivity.
Qed.

Lemma settle_capture_keeps_pending (env : Env) (tid : nat) (reply : SaveReply) :
  maintains pending_is_latest nothing_flagged (settle_capture env tid reply).
Proof.
  intros s [Hfresh Hpending]. split; [| apply nothing_is_flagged].
  destruct (find_task tid s) as [task |] eqn:Hfind;
    [| rewrite settle_capture_missing by exact Hfind; split; assumption].
  destruct (settle_capture_found env tid reply task s Hfind)
    as (_ & _ & _ & _ & Hnext & Hinflight & Hpend).
  unfold pending_is_latest, find_task. rewrite Hnext, Hinflight, Hpend. split.
  - intros t Hin. apply filter_In in Hin. apply Hfresh. apply Hin.
  - intros tid' Htid'.
    destruct (pendingSnapshot s) as [p |] eqn:Ep; cbn in Htid'; [| discriminate].
    destruct (Nat.eqb p tid) eqn:Eq; [discriminate |].
    injection Htid' as ->. apply Nat.eqb_neq in Eq.
    destruct (Hpending tid' eq_refl) as [Hlast Hfound].
    split; [exact Hlast |]. apply find_survives_removal; assumption.
Qed.

(** Every entry point keeps [pendingSnapshot] on the task started last. *)
Lemma handle_keeps_pending (env : Env) (ev : Event) :
  maintains pending_is_latest nothing_flagged (handle env ev).
Proof.
  destruct ev; cbn [handle];
    unfold attach, dispose, detach, on_snapshot_timer,
      focus, registerActivityListener, unregisterActivityListener,
      registerReadyListener, unregisterReadyListener,
      registerErrorListener, unregisterErrorListener,
      registerExitListener, unregisterExitListener,
      on_terminal_data, on_terminal_resize, on_container_resize, on_animation_frame,
      restoreSnapshot, connectPty, on_pty_start_reply, on_pty_started, on_pty_data,
      on_pty_exit, emitActivity, emitReady, emitError, emitExit, emit_to,
      sendSizeIfStarted, stopSnapshotTimer, run_cleanup;
    cbv zeta;
    repeat first
      [ apply captureSnapshot_keeps_pending
      | apply settle_capture_keeps_pending
      | maintain_step ].
Qed.

Lemma run_keeps_pending (events : list (Env * Event)) (s : State) :
  pending_is_latest s -> pending_is_latest (fst (run events s)).
Proof.
  revert s. induction events as [| [env ev] rest IH]; intros s HI; [exact HI |].
  cbn [run].
  pose proof (proj1 (handle_keeps_pending env ev s HI)) as Hstep.
  unfold state_of in Hstep.
  destruct (handle env ev s) as [[r s1] t1]. cbn [fst snd] in Hstep.
  specialize (IH s1 Hstep).
  destruct (run rest s1) as [s2 t2]. exact IH.
Qed.

(** Throughout the life of a session: the field names no settled or
    superseded task. *)
Lemma pending_names_latest_task (options : TerminalSessionOptions)
    (events : list (Env * Event)) :
  pending_is_latest (fst (run events (new_session options))).
Proof.
  apply run_keeps_pending. split.
  - intros t [].
  - intros tid Hpending. discriminate.
Qed.

(** ** Process exit *)

Lemma on_pty_exit_spec (info : ExitInfo) (s : State) :
  on_pty_exit info s
  = (Returned tt,
     set_ptyStarted false (set_metrics (recordExit info (metrics s)) s),
     trace (emitExit info s)).
Proof.
  unfold on_pty_exit. rewrite !bind_modify_run, !emitExit_spec.
  rewrite trace_of_outcome.
  destruct s; reflexivity.
Qed.

Lemma exit_trace_calls (info : ExitInfo) (s : State) :
  filter is_listener_call (trace (emitExit info s))
  = map (fun l => CallExit (lid l) info) (exitListeners s).
Proof.
  rewrite emitExit_spec, trace_of_outcome.
  apply guarded_calls_only_calls; reflexivity.
Qed.

Lemma terminal_data_forwards (data : jsstring) (s : State) :
  filter is_input (trace (on_terminal_data data s)) = forwarded_input data s.
Proof.
  rewrite on_terminal_data_spec, trace_of_outcome, filter_app.
  rewrite activity_trace_has_no_input.
  destruct (forwarded_input_is_input data s) as [Hkeep _]. exact Hkeep.
Qed.

(** ** Snapshot restore *)

(** [restoreSnapshot] never rejects: whatever the store replies, the
    promise it returns resolves. *)
Lemma restoreSnapshot_returns (api : option (GetReply MetricsStats)) (s : State) :
  result (restoreSnapshot api s) = Returned tt /\ state_of (restoreSnapshot api s) = s.
Proof.
  unfold restoreSnapshot.
  destruct api as [[e | [response |]] |]; try (split; reflexivity).
  unfold try_catch. rewrite bind_get_run, bind_effect_run.
  destruct (get_snapshot response) as [snapshot |]; [| split; reflexivity].
  destruct (negb (get_ok response) || _); [split; reflexivity |].
  destruct (truthy_opt_number (version snapshot) && _); [split; reflexivity |].
  destruct (data snapshot) as [[text | other] |];
    destruct (cols snapshot) as [c |]; destruct (rows snapshot) as [r |];
    cbn; try (split; reflexivity);
    try (destruct (0 <? Z.of_nat (List.length text)));
    try (destruct (truthy_number c && truthy_number r));
    cbn; split; reflexivity.
Qed.

(** C2, as the code has it.  A stored payload whose version is a
    non-zero number different from the current snapshot version is
    discarded: nothing is written to the terminal, the terminal is not
    reset or resized, no field changes and no error is raised; the only
    outside calls are the store query and (when the reply is ok and
    carries data) a warning in the log. *)
Theorem restore_discards_other_nonzero_version
    (response : GetResponse MetricsStats) (snapshot : SnapshotPayload MetricsStats)
    (v : Z) (s : State) :
  get_snapshot response = Some snapshot ->
  version snapshot = Some v ->
  v <> 0 ->
  v <> TERMINAL_SNAPSHOT_VERSION ->
  let out := restoreSnapshot (Some (GetResolved (Some response))) s in
  result out = Returned tt
  /\ state_of out = s
  /\ filter touches_terminal_buffer (trace out) = [].
Proof.
  intros Hsnap Hversion Hnz Hne out. subst out.
  destruct (restoreSnapshot_returns (Some (GetResolved (Some response))) s) as [Hr Hs].
  split; [exact Hr |]. split; [exact Hs |].
  unfold restoreSnapshot, try_catch.
  rewrite bind_get_run, bind_effect_run, Hsnap, Hversion.
  assert (Hguard : truthy_opt_number (Some v) && negb (v =? TERMINAL_SNAPSHOT_VERSION) = true).
  { cbn. unfold truthy_number.
    destruct (Z.eqb_spec v 0); [contradiction |].
    destruct (Z.eqb_spec v TERMINAL_SNAPSHOT_VERSION); [contradiction | reflexivity]. }
  rewrite Hguard.
  destruct (negb (get_ok response) || _); reflexivity.
Qed.

(** ** Process output and the guardrail *)

Lemma on_pty_data_spec (env : Env) (chunk : jsstring) (s : State) :
  on_pty_data env chunk s
  = (Returned tt,
     set_firstFrameRendered true (set_metrics (snd (canAccept chunk (metrics s))) s),
     (if fst (canAccept chunk (metrics s)) then []
      else [LogWarn "Terminal scrollback truncated to protect memory";
            TerminalClear; TerminalWriteln TRUNCATION_NOTICE])
     ++ TerminalWrite chunk :: first_frame_refresh env s).
Proof.
  unfold on_pty_data, first_frame_refresh. rewrite bind_get_run. cbv zeta.
  rewrite bind_modify_run.
  destruct (canAccept chunk (metrics s)) as [ok m'].
  destruct s as [i att obs ds timer pend dsp opn la lr le lx ff started lat lre mt par infl nt].
  destruct ok, ff; reflexivity.
Qed.

(** X24. What the output handler does with a chunk the guardrail turns
    down, whatever the guardrail is: it logs a warning, clears the
    terminal, writes the one notice line and then writes the chunk all
    the same, and returns normally.  It makes no further call on the
    guardrail, which is left exactly as [canAccept] left it. *)
Theorem rejected_chunk_clears_and_warns (env : Env) (chunk : jsstring) (s : State) :
  fst (canAccept chunk (metrics s)) = false ->
  let out := on_pty_data env chunk s in
  result out = Returned tt
  /\ trace out
     = [LogWarn "Terminal scrollback truncated to protect memory";
        TerminalClear; TerminalWriteln TRUNCATION_NOTICE; TerminalWrite chunk]
       ++ first_frame_refresh env s
  /\ metrics (state_of out) = snd (canAccept chunk (metrics s)).
Proof.
  intros Hrejected out. subst out. rewrite on_pty_data_spec, Hrejected.
  rewrite result_of_outcome, trace_of_outcome, state_of_outcome.
  repeat split.
Qed.


(** * Further properties of the manager *)

(** ** Invariants over runs *)

Lemma maintains_bind_get {A} (I : State -> Prop) flagged (k : State -> M A) :
  (forall s0, I s0 -> maintains I flagged (k s0)) ->
  maintains I flagged (bind get k).
Proof.
  intros Hk s HI. rewrite bind_get_run. apply (Hk s HI s HI).
Qed.

Lemma run_maintains (I : State -> Prop) (flagged : Effect -> bool) :
  (forall env ev, maintains I flagged (handle env ev)) ->
  forall events s,
    I s -> I (fst (run events s)) /\ filter flagged (snd (run events s)) = [].
Proof.
  intros Hstep events. induction events as [| [env ev] rest IH]; intros s HI.
  - split; [exact HI | reflexivity].
  - cbn [run]. destruct (Hstep env ev s HI) as [HI1 Ht1].
    unfold state_of, trace in HI1, Ht1.
    destruct (handle env ev s) as [[r s1] t1]. cbn [fst snd] in HI1, Ht1.
    destruct (IH s1 HI1) as [HI2 Ht2].
    destruct (run rest s1) as [s2 t2]. cbn [fst snd] in *.
    split; [exact HI2 |]. rewrite filter_app, Ht1, Ht2. reflexivity.
Qed.

(** ** A disposed session *)

Lemma captureSnapshot_disposed_inert (flagged : Effect -> bool) (env : Env)
    (reason : SnapshotReason) :
  maintains (fun s => disposed s = true) flagged (captureSnapshot env reason).
Proof.
  intros s H. rewrite captureSnapshot_skipped by auto. split; [exact H | reflexivity].
Qed.

Lemma sendSizeIfStarted_disposed_inert (flagged : Effect -> bool) (env : Env) :
  maintains (fun s => disposed s = true) flagged (sendSizeIfStarted env).
Proof.
  intros s H. rewrite sendSizeIfStarted_spec, state_of_outcome, trace_of_outcome.
  split; [exact H |]. unfold size_sync. rewrite H, orb_true_r. reflexivity.
Qed.

(** A step through [s <- get ;; ...] that remembers the flag is set. *)
Ltac disposed_get_step :=
  apply maintains_bind_get;
  let s0 := fresh "s0" in
  let H0 := fresh "H0" in
  intros s0 H0; cbv beta in H0;
  rewrite ?H0; cbn [negb].

Lemma handle_disposed_inert (env : Env) (ev : Event) :
  maintains (fun s => disposed s = true) acts_on_transport (handle env ev).
Proof.
  destruct ev; cbn [handle];
    try (intros s H;
         first [ rewrite attach_when_disposed by exact H
               | rewrite dispose_when_disposed by exact H ];
         split; [exact H | reflexivity]);
    unfold detach, on_snapshot_timer,
      focus, registerActivityListener, unregisterActivityListener,
      registerReadyListener, unregisterReadyListener,
      registerErrorListener, unregisterErrorListener,
      registerExitListener, unregisterExitListener,
      on_terminal_data, on_terminal_resize, on_container_resize, on_animation_frame,
      settle_capture, restoreSnapshot, connectPty, on_pty_start_reply, on_pty_started,
      on_pty_data, on_pty_exit, emitActivity, emitReady, emitError, emitExit, emit_to;
    cbv zeta;
    repeat first
      [ apply captureSnapshot_disposed_inert
      | apply sendSizeIfStarted_disposed_inert
      | disposed_get_step
      | maintain_step ].
Qed.

(** X1. Dispose is final.  Whatever calls and events reach a disposed
    session, in whatever order, it stays disposed and never again writes
    input to the transport, resizes or kills it, saves a snapshot or
    focuses the terminal. *)
Theorem disposed_session_stays_inert (events : list (Env * Event)) (s : State) :
  disposed s = true ->
  disposed (fst (run events s)) = true
  /\ filter acts_on_transport (snd (run events s)) = [].
Proof.
  intros H.
  apply (run_maintains (fun x => disposed x = true) acts_on_transport
           handle_disposed_inert events s H).
Qed.

(** ** One transport binding per session *)

Ltac same_id_effect :=
  cbn [names_other_session effect_id];
  repeat match goal with
         | H : id ?x = _ |- context [id ?x] => rewrite H
         end;
  rewrite ?String.eqb_refl; reflexivity.

Ltac same_id_get_step :=
  apply maintains_bind_get;
  let s0 := fresh "s0" in
  let H0 := fresh "H0" in
  intros s0 H0; cbv beta in H0.

Ltac same_id_step :=
  first
    [ same_id_get_step
    | apply maintains_effect; same_id_effect
    | apply maintains_call; same_id_effect
    | maintain_step ].

Lemma handle_keeps_id (i : string) (env : Env) (ev : Event) :
  maintains (fun s => id s = i) (names_other_session i) (handle env ev).
Proof.
  destruct ev; cbn [handle];
    unfold attach, dispose, detach, on_snapshot_timer,
      focus, registerActivityListener, unregisterActivityListener,
      registerReadyListener, unregisterReadyListener,
      registerErrorListener, unregisterErrorListener,
      registerExitListener, unregisterExitListener,
      on_terminal_data, on_terminal_resize, on_container_resize, on_animation_frame,
      settle_capture, restoreSnapshot, connectPty, on_pty_start_reply, on_pty_started,
      on_pty_data, on_pty_exit, emitActivity, emitReady, emitError, emitExit, emit_to,
      sendSizeIfStarted, captureSnapshot, capture_task_body, stopSnapshotTimer, run_cleanup;
    cbv zeta;
    repeat same_id_step.
Qed.

(** X2. A session talks to the bridge under one id for its whole life:
    over every sequence of calls and events the id never changes, and
    every start, input, resize, kill, snapshot query and snapshot save
    is made for that id. *)
Theorem every_bridge_call_names_the_session (events : list (Env * Event)) (s : State) :
  id (fst (run events s)) = id s
  /\ filter (names_other_session (id s)) (snd (run events s)) = [].
Proof.
  apply (run_maintains (fun x => id x = id s) (names_other_session (id s))
           (handle_keeps_id (id s)) events s eq_refl).
Qed.

(** ** Input after the process has exited *)

(** C4, as the code has it.  When the transport signals exit, the
    handler returns normally, records the exit with the guardrail, calls
    every exit listener with the exit info, in registration order, and
    marks the session as not started, so that a size sync attempted in
    that state sends nothing.  It does not gate input: a terminal data
    event arriving after the exit, right away or after any further calls
    and events, is written to the transport for this session, filtered
    and when non-empty, as long as the session is not disposed by then.
    Only a disposed session forwards nothing. *)
Theorem input_after_exit_is_still_forwarded (env : Env) (info : ExitInfo)
    (later : list (Env * Event)) (data : jsstring) (s : State) :
  let exited := on_pty_exit info s in
  let s1 := state_of exited in
  let s2 := fst (run later s1) in
  let filtered := FocusFilter.replace_focus_reports data in
  (result exited = Returned tt
   /\ filter is_listener_call (trace exited)
      = map (fun l => CallExit (lid l) info) (exitListeners s)
   /\ metrics s1 = recordExit info (metrics s)
   /\ ptyStarted s1 = false
   /\ trace (sendSizeIfStarted env s1) = [])
  /\ filter is_input (trace (on_terminal_data data s1)) = forwarded_input data s
  /\ filter is_input (trace (on_terminal_data data s2))
     = (if disposed s2 then []
        else if truthy_string filtered then [PtyInput (id s) filtered] else [])
  /\ (disposed s2 = false ->
      truthy_string filtered = true ->
      filter is_input (trace (on_terminal_data data s2)) = [PtyInput (id s) filtered])
  /\ (disposed s2 = true -> filter is_input (trace (on_terminal_data data s2)) = []).
Proof.
  intros exited s1 s2 filtered.
  assert (Hs1 : s1 = set_ptyStarted false (set_metrics (recordExit info (metrics s)) s))
    by (subst s1 exited; rewrite on_pty_exit_spec; apply state_of_outcome).
  assert (Hid : id s2 = id s).
  { subst s2.
    rewrite (proj1 (run_maintains (fun x => id x = id s1) (names_other_session (id s1))
                      (handle_keeps_id (id s1)) later s1 eq_refl)).
    rewrite Hs1. destruct s; reflexivity. }
  assert (Hin : filter is_input (trace (on_terminal_data data s2))
                = (if disposed s2 then []
                   else if truthy_string filtered then [PtyInput (id s) filtered] else [])).
  { rewrite terminal_data_forwards. unfold forwarded_input. rewrite Hid. reflexivity. }
  split; [| split; [| split; [exact Hin | split]]].
  - subst exited. rewrite Hs1. rewrite on_pty_exit_spec.
    rewrite result_of_outcome, trace_of_outcome, sendSizeIfStarted_spec, trace_of_outcome.
    split; [reflexivity |]. split; [apply exit_trace_calls |].
    split; [destruct s; reflexivity |]. split; [destruct s; reflexivity |].
    unfold size_sync. destruct s; reflexivity.
  - rewrite terminal_data_forwards, Hs1. destruct s; reflexivity.
  - intros Hlive Hnonempty. rewrite Hin, Hlive, Hnonempty. reflexivity.
  - intros Hdead. rewrite Hin, Hdead. reflexivity.
Qed.


(** ** Things that happen at most once *)

Lemma run_at_most_once (flag : State -> bool) (p : Effect -> bool) :
  (forall env ev, maintains (fun s => flag s = true) p (handle env ev)) ->
  (forall env ev s,
      flag s = false ->
      (List.length (filter p (trace (handle env ev s))) <= 1)%nat
      /\ (filter p (trace (handle env ev s)) <> [] ->
          flag (state_of (handle env ev s)) = true)) ->
  forall events s,
    (List.length (filter p (snd (run events s))) <= 1)%nat
    /\ (flag s = true -> filter p (snd (run events s)) = []).
Proof.
  intros Hset Hunset events.
  assert (Hdone : forall evs s, flag s = true -> filter p (snd (run evs s)) = [])
    by (intros evs s Hs;
        apply (run_maintains (fun x => flag x = true) p Hset evs s Hs)).
  induction events as [| [env ev] rest IH]; intros s.
  - split; [cbn; lia | reflexivity].
  - split; [| apply Hdone].
    destruct (flag s) eqn:Hflag; [rewrite Hdone by exact Hflag; cbn; lia |].
    cbn [run]. destruct (Hunset env ev s Hflag) as [Hone Hthen].
    unfold trace, state_of in Hone, Hthen.
    destruct (handle env ev s) as [[r s1] t1]. cbn [fst snd] in Hone, Hthen.
    destruct (IH s1) as [Hrest Hnone].
    destruct (run rest s1) as [s2 t2]. cbn [fst snd] in *.
    rewrite filter_app, length_app.
    destruct (filter p t1) as [| e1 l1] eqn:Hfirst; [cbn; lia |].
    rewrite Hnone by (apply Hthen; discriminate). cbn in Hone |- *. lia.
Qed.

Lemma nothing_flagged_by_true {A} (p : Effect -> bool) (m : M A) (s : State) :
  maintains (fun _ => True) p m -> filter p (trace (m s)) = [].
Proof. intros Hm. apply (Hm s I). Qed.

Ltac unfold_entry_points :=
  unfold attach, dispose, detach, on_snapshot_timer,
    focus, registerActivityListener, unregisterActivityListener,
    registerReadyListener, unregisterReadyListener,
    registerErrorListener, unregisterErrorListener,
    registerExitListener, unregisterExitListener,
    on_terminal_data, on_terminal_resize, on_container_resize, on_animation_frame,
    settle_capture, restoreSnapshot, connectPty, on_pty_start_reply, on_pty_started,
    on_pty_data, on_pty_exit, emitActivity, emitReady, emitError, emitExit, emit_to,
    sendSizeIfStarted, captureSnapshot, capture_task_body, stopSnapshotTimer, run_cleanup;
  cbv zeta.

(** A step through [s <- get ;; ...] that remembers a boolean field. *)
Ltac flag_get_step :=
  apply maintains_bind_get;
  let s0 := fresh "s0" in
  let H0 := fresh "H0" in
  intros s0 H0; cbv beta in H0;
  rewrite ?H0; cbn [negb when].

Lemma handle_opened_stays (env : Env) (ev : Event) :
  maintains (fun s => opened s = true) is_open (handle env ev).
Proof.
  destruct ev; cbn [handle]; unfold_entry_points;
    repeat first [ flag_get_step | maintain_step ].
Qed.

Lemma detach_never_opens (env : Env) (s : State) :
  filter is_open (trace (detach env s)) = [].
Proof.
  apply nothing_flagged_by_true. unfold_entry_points. maintain.
Qed.

Lemma handle_opens_at_most_once (env : Env) (ev : Event) (s : State) :
  opened s = false ->
  (List.length (filter is_open (trace (handle env ev s))) <= 1)%nat
  /\ (filter is_open (trace (handle env ev s)) <> [] ->
      opened (state_of (handle env ev s)) = true).
Proof.
  intros Hclosed.
  destruct ev; cbn [handle];
    try (match goal with
         | |- (List.length (filter is_open (trace (?m s))) <= 1)%nat /\ _ =>
             assert (Hnone : filter is_open (trace (m s)) = [])
               by (apply nothing_flagged_by_true; unfold_entry_points; maintain)
         end;
         rewrite Hnone; split; [cbn; lia | intros Habs; contradiction]).
  destruct (disposed s) eqn:Hlive;
    [rewrite attach_when_disposed by exact Hlive;
     rewrite trace_of_outcome; split; [cbn; lia | intros Habs; contradiction] |].
  destruct (opt_container_eqb (attachedContainer s) c) eqn:Hsame.
  - destruct (attachedContainer s) as [c' |] eqn:Hatt; [| discriminate].
    apply Nat.eqb_eq in Hsame. subst c'.
    rewrite (attach_same_container env c s Hlive Hatt), trace_of_outcome.
    split; [cbn; lia | intros Habs; contradiction].
  - rewrite attach_spec by assumption.
    rewrite trace_of_outcome, state_of_outcome, filter_app, detach_never_opens.
    split; [| intros _; destruct (state_of (detach env s)); reflexivity].
    unfold attach_calls, size_sync. cbn [app filter is_open].
    rewrite filter_app.
    destruct (opened (state_of (detach env s)));
      destruct (negb (ptyStarted (state_of (detach env s)))
                || disposed (state_of (detach env s)));
      destruct (ptyResize_throws (after_fit env)); cbn; lia.
Qed.

(** X3. The rendering engine is opened against the root element on the
    first attach only: over every sequence of calls and events
    [terminal.open] is called at most once, and never once the session
    has been opened. *)
Theorem terminal_is_opened_at_most_once (events : list (Env * Event)) (s : State) :
  (List.length (filter is_open (snd (run events s))) <= 1)%nat
  /\ (opened s = true -> filter is_open (snd (run events s)) = []).
Proof.
  apply (run_at_most_once opened is_open handle_opened_stays handle_opens_at_most_once).
Qed.

Lemma handle_first_frame_stays (env : Env) (ev : Event) :
  maintains (fun s => firstFrameRendered s = true) is_refresh (handle env ev).
Proof.
  destruct ev; cbn [handle]; unfold_entry_points;
    repeat first [ flag_get_step | maintain_step ].
Qed.

Lemma handle_refreshes_at_most_once (env : Env) (ev : Event) (s : State) :
  firstFrameRendered s = false ->
  (List.length (filter is_refresh (trace (handle env ev s))) <= 1)%nat
  /\ (filter is_refresh (trace (handle env ev s)) <> [] ->
      firstFrameRendered (state_of (handle env ev s)) = true).
Proof.
  intros Hfirst.
  destruct ev; cbn [handle];
    try (match goal with
         | |- (List.length (filter is_refresh (trace (?m s))) <= 1)%nat /\ _ =>
             assert (Hnone : filter is_refresh (trace (m s)) = [])
               by (apply nothing_flagged_by_true; unfold_entry_points; maintain)
         end;
         rewrite Hnone; split; [cbn; lia | intros Habs; contradiction]).
  rewrite on_pty_data_spec, trace_of_outcome, state_of_outcome.
  split; [| intros _; destruct s; reflexivity].
  rewrite filter_app. unfold first_frame_refresh.
  destruct (fst (canAccept chunk (metrics s))); destruct (firstFrameRendered s); cbn; lia.
Qed.

(** X4. The forced repaint after the first chunk of process output
    happens once per session: over every sequence of calls and events
    [terminal.refresh] is called at most once, and never after a chunk
    has been written. *)
Theorem first_frame_is_refreshed_at_most_once (events : list (Env * Event)) (s : State) :
  (List.length (filter is_refresh (snd (run events s))) <= 1)%nat
  /\ (firstFrameRendered s = true -> filter is_refresh (snd (run events s)) = []).
Proof.
  apply (run_at_most_once firstFrameRendered is_refresh
           handle_first_frame_stays handle_refreshes_at_most_once).
Qed.


Ltac timer_get_step :=
  apply maintains_bind_get;
  let s0 := fresh "s0" in
  let H0 := fresh "H0" in
  intros s0 H0; cbv beta in H0; apply negb_true_iff in H0;
  rewrite ?H0; cbn [negb when].

Ltac timer_off_modify :=
  apply maintains_modify;
  let s0 := fresh "s0" in
  let H0 := fresh "H0" in
  intros s0 H0; destruct s0; cbn in *; first [exact H0 | reflexivity].

Lemma handle_timer_stays_off (env : Env) (ev : Event) :
  maintains (fun s => negb (snapshotTimer s) = true) is_timer_call (handle env ev).
Proof.
  destruct ev; cbn [handle]; unfold_entry_points;
    repeat first [ timer_get_step | timer_off_modify | maintain_step ].
Qed.

Lemma dispose_calls_timer (env : Env) (s : State) :
  filter is_timer_call (dispose_calls env s)
  = if snapshotTimer s then [ClearInterval] else [].
Proof.
  unfold dispose_calls, detach_calls. rewrite !filter_app.
  cbn [filter is_timer_call]. rewrite !filter_app.
  rewrite (guarded_calls_filtered_out is_timer_call) by reflexivity.
  destruct (attachedContainer s); destruct (resizeObserver s);
    destruct (snapshotTimer s); destruct (ptyKill_throws env); reflexivity.
Qed.

Lemma handle_stops_timer_at_most_once (env : Env) (ev : Event) (s : State) :
  negb (snapshotTimer s) = false ->
  (List.length (filter is_timer_call (trace (handle env ev s))) <= 1)%nat
  /\ (filter is_timer_call (trace (handle env ev s)) <> [] ->
      negb (snapshotTimer (state_of (handle env ev s))) = true).
Proof.
  intros Hon.
  destruct ev; cbn [handle];
    try (match goal with
         | |- (List.length (filter is_timer_call (trace (?m s))) <= 1)%nat /\ _ =>
             assert (Hnone : filter is_timer_call (trace (m s)) = [])
               by (apply nothing_flagged_by_true; unfold_entry_points; maintain)
         end;
         rewrite Hnone; split; [cbn; lia | intros Habs; contradiction]).
  destruct (disposed s) eqn:Hlive.
  - rewrite dispose_when_disposed by exact Hlive. rewrite trace_of_outcome.
    split; [cbn; lia | intros Habs; contradiction].
  - rewrite dispose_live_spec by exact Hlive.
    rewrite trace_of_outcome, state_of_outcome, dispose_calls_timer.
    split; [destruct (snapshotTimer s); cbn; lia |].
    intros _. unfold disposed_state. destruct s. reflexivity.
Qed.

(** X5. The snapshot timer set up at construction is cleared at most
    once and never set again: over every sequence of calls and events
    the only timer call is a single [clearInterval], made by the dispose
    of a live session, and after that none at all. *)
Theorem snapshot_timer_is_cleared_at_most_once (events : list (Env * Event)) (s : State) :
  filter is_set_interval (snd (run events s)) = []
  /\ (List.length (filter is_timer_call (snd (run events s))) <= 1)%nat
  /\ (snapshotTimer s = false -> filter is_timer_call (snd (run events s)) = []).
Proof.
  destruct (run_at_most_once (fun x => negb (snapshotTimer x)) is_timer_call
              handle_timer_stays_off handle_stops_timer_at_most_once events s)
    as [Hone Hoff].
  split; [| split; [exact Hone |]].
  - assert (Hset : forall env ev, maintains (fun _ => True) is_set_interval (handle env ev))
      by (intros env ev; destruct ev; cbn [handle]; unfold_entry_points; maintain).
    apply (run_maintains (fun _ => True) is_set_interval Hset events s I).
  - intros Htimer. apply Hoff. rewrite Htimer. reflexivity.
Qed.

(** ** Listener registries *)

Lemma add_keeps_distinct {A} (l : Listener A) (s : ListenerSet.t A) :
  registry_distinct s -> registry_distinct (ListenerSet.add l s).
Proof.
  unfold registry_distinct, ListenerSet.add, ListenerSet.has. intros Hs.
  destruct (existsb (fun x => Nat.eqb (lid x) (lid l)) s) eqn:Ehas; [exact Hs |].
  rewrite map_app. cbn [map].
  assert (Hfresh : ~ In (lid l) (map (fun x => lid x) s)).
  { intros Hin. apply in_map_iff in Hin. destruct Hin as [x [Hx Hin]].
    assert (Htrue : existsb (fun y => Nat.eqb (lid y) (lid l)) s = true)
      by (apply existsb_exists; exists x; split; [exact Hin | apply Nat.eqb_eq; exact Hx]).
    congruence. }
  clear Ehas. induction s as [| x s IH]; cbn.
  - constructor; [intros [] | constructor].
  - inversion Hs as [| ? ? Hx Hrest]; subst. constructor.
    + intros Hin. apply in_app_or in Hin. destruct Hin as [Hin | [Hin | []]].
      * contradiction.
      * apply Hfresh. left. symmetry. exact Hin.
    + apply IH; [exact Hrest |]. intros Hin. apply Hfresh. right. exact Hin.
Qed.

Lemma delete_keeps_distinct {A} (l : Listener A) (s : ListenerSet.t A) :
  registry_distinct s -> registry_distinct (ListenerSet.delete l s).
Proof.
  unfold registry_distinct, ListenerSet.delete. intros Hs.
  induction s as [| x s IH]; cbn; [constructor |].
  inversion Hs as [| ? ? Hx Hrest]; subst.
  destruct (negb (Nat.eqb (lid x) (lid l))); cbn; [| apply IH; exact Hrest].
  constructor; [| apply IH; exact Hrest].
  intros Hin. apply Hx. apply in_map_iff in Hin. destruct Hin as [y [Hy Hin]].
  apply filter_In in Hin. apply in_map_iff. exists y. split; [exact Hy | apply Hin].
Qed.

Ltac registry_modify :=
  apply maintains_modify;
  let s0 := fresh "s0" in
  let Ha := fresh "Ha" in
  let Hr := fresh "Hr" in
  let He := fresh "He" in
  let Hx := fresh "Hx" in
  intros s0 (Ha & Hr & He & Hx);
  destruct s0; unfold registries_distinct in *; cbn in *;
  repeat split;
  first [ assumption
        | apply add_keeps_distinct; assumption
        | apply delete_keeps_distinct; assumption
        | constructor ].

Lemma handle_keeps_registries_distinct (env : Env) (ev : Event) :
  maintains registries_distinct nothing_flagged (handle env ev).
Proof.
  destruct ev; cbn [handle]; unfold_entry_points;
    repeat first [ registry_modify | maintain_step ].
Qed.


Lemma calls_distinct {A} (mk : nat -> Effect) (ls : ListenerSet.t A) :
  (forall a b, mk a = mk b -> a = b) ->
  registry_distinct ls ->
  NoDup (map (fun l => mk (lid l)) ls).
Proof.
  unfold registry_distinct. intros Hinj Hls.
  induction ls as [| x ls IH]; cbn; [constructor |].
  inversion Hls as [| ? ? Hx Hrest]; subst. constructor; [| apply IH; exact Hrest].
  intros Hin. apply Hx. apply in_map_iff in Hin. destruct Hin as [y [Hy Hin]].
  apply in_map_iff. exists y. split; [apply Hinj; exact Hy | exact Hin].
Qed.

(** X6. A registry is a set: over every sequence of registrations,
    deregistrations and other events, starting from registries without
    duplicates, no callback is ever held twice on a channel, so one emit
    never calls a callback twice, however often it was registered. *)
Theorem each_callback_is_called_once_per_emit (events : list (Env * Event)) (s : State)
    (message : string) (info : ExitInfo) :
  registries_distinct s ->
  let s' := fst (run events s) in
  registries_distinct s'
  /\ NoDup (filter is_listener_call (trace (emitActivity s')))
  /\ NoDup (filter is_listener_call (trace (emitReady s')))
  /\ NoDup (filter is_listener_call (trace (emitError message s')))
  /\ NoDup (filter is_listener_call (trace (emitExit info s'))).
Proof.
  intros Hs s'.
  assert (Hs' : registries_distinct s')
    by (apply (run_maintains registries_distinct nothing_flagged
                 handle_keeps_registries_distinct events s Hs)).
  split; [exact Hs' |].
  destruct Hs' as (Ha & Hr & He & Hx).
  rewrite emitActivity_spec, emitReady_spec, emitError_spec, emitExit_spec.
  rewrite !trace_of_outcome.
  rewrite (guarded_calls_only_calls (fun l : Listener unit => CallActivity (lid l)))
    by reflexivity.
  rewrite (guarded_calls_only_calls (fun l : Listener unit => CallReady (lid l)))
    by reflexivity.
  rewrite (guarded_calls_only_calls (fun l : Listener string => CallError (lid l) message))
    by reflexivity.
  rewrite (guarded_calls_only_calls (fun l : Listener ExitInfo => CallExit (lid l) info))
    by reflexivity.
  repeat split.
  - apply (calls_distinct CallActivity); [intros a b [= ->]; reflexivity | exact Ha].
  - apply (calls_distinct CallReady); [intros a b [= ->]; reflexivity | exact Hr].
  - apply (calls_distinct (fun n => CallError n message));
      [intros a b [= ->]; reflexivity | exact He].
  - apply (calls_distinct (fun n => CallExit n info));
      [intros a b [= ->]; reflexivity | exact Hx].
Qed.

Lemma delete_after_add {A} (l : Listener A) (s : ListenerSet.t A) :
  ListenerSet.has l s = false ->
  ListenerSet.delete l (ListenerSet.add l s) = s.
Proof.
  unfold ListenerSet.add, ListenerSet.delete, ListenerSet.has. intros Hnew.
  rewrite Hnew, filter_app. cbn. rewrite Nat.eqb_refl. cbn. rewrite app_nil_r.
  induction s as [| x s IH]; [reflexivity |].
  cbn in Hnew |- *. apply orb_false_iff in Hnew. destruct Hnew as [Hx Hs].
  rewrite Hx. cbn. f_equal. apply IH. exact Hs.
Qed.

Lemma has_after_delete {A} (l : Listener A) (s : ListenerSet.t A) :
  ListenerSet.has l (ListenerSet.delete l s) = false.
Proof.
  unfold ListenerSet.delete, ListenerSet.has.
  induction s as [| x s IH]; [reflexivity |].
  cbn. destruct (Nat.eqb (lid x) (lid l)) eqn:Ex; cbn; [exact IH |].
  rewrite Ex. exact IH.
Qed.



Lemma deleted_id_is_gone {A} (l : Listener A) (s : ListenerSet.t A) :
  ~ In (lid l) (map (fun x => lid x) (ListenerSet.delete l s)).
Proof.
  intros Hin. apply in_map_iff in Hin. destruct Hin as [x [Hx Hin]].
  unfold ListenerSet.delete in Hin. apply filter_In in Hin. destruct Hin as [_ Hne].
  rewrite Hx, Nat.eqb_refl in Hne. discriminate.
Qed.

Lemma guarded_call_comes_from_list {A} (mk : nat -> Effect) (throws : Listener A -> bool)
    (warning : string) (ls : ListenerSet.t A) (n : nat) :
  (forall a b, mk a = mk b -> a = b) ->
  mk n <> LogWarn warning ->
  In (mk n) (guarded_calls (fun l => mk (lid l)) throws warning ls) ->
  In n (map (fun x => lid x) ls).
Proof.
  intros Hinj Hwarn. induction ls as [| x ls IH]; cbn [guarded_calls flat_map]; [intros [] |].
  fold (guarded_calls (fun l => mk (lid l)) throws warning ls).
  intros Hin. cbn [map]. destruct Hin as [Hhead | Hin].
  - left. apply Hinj. exact Hhead.
  - apply in_app_or in Hin. destruct Hin as [Hin | Hin]; [| right; apply IH; exact Hin].
    destruct (throws x); [| destruct Hin].
    destruct Hin as [Hin | []]. exfalso. apply Hwarn. symmetry. exact Hin.
Qed.

Lemma set_listeners_same (s : State) :
  set_listeners (activityListeners s) (readyListeners s) (errorListeners s)
    (exitListeners s) s = s.
Proof. destruct s; reflexivity. Qed.

(** X7. Registration and the deregistration closure it returns, on each
    of the four channels: registering a callback that is already
    registered changes nothing; deregistering a callback that was newly
    registered gives back the registry as it was, order included; and
    once deregistered a callback is not called by the next emit,
    whatever else is registered. *)
Theorem register_and_deregister (la lr : Listener unit) (le : Listener string)
    (lx : Listener ExitInfo) (message : string) (info : ExitInfo) (s : State) :
  ((ListenerSet.has la (activityListeners s) = true ->
    state_of (registerActivityListener la s) = s)
   /\ (ListenerSet.has la (activityListeners s) = false ->
       state_of (unregisterActivityListener la (state_of (registerActivityListener la s))) = s)
   /\ ~ In (CallActivity (lid la))
          (trace (emitActivity (state_of (unregisterActivityListener la s)))))
  /\ ((ListenerSet.has lr (readyListeners s) = true ->
       state_of (registerReadyListener lr s) = s)
      /\ (ListenerSet.has lr (readyListeners s) = false ->
          state_of (unregisterReadyListener lr (state_of (registerReadyListener lr s))) = s)
      /\ ~ In (CallReady (lid lr))
             (trace (emitReady (state_of (unregisterReadyListener lr s)))))
  /\ ((ListenerSet.has le (errorListeners s) = true ->
       state_of (registerErrorListener le s) = s)
      /\ (ListenerSet.has le (errorListeners s) = false ->
          state_of (unregisterErrorListener le (state_of (registerErrorListener le s))) = s)
      /\ ~ In (CallError (lid le) message)
             (trace (emitError message (state_of (unregisterErrorListener le s)))))
  /\ ((ListenerSet.has lx (exitListeners s) = true ->
       state_of (registerExitListener lx s) = s)
      /\ (ListenerSet.has lx (exitListeners s) = false ->
          state_of (unregisterExitListener lx (state_of (registerExitListener lx s))) = s)
      /\ ~ In (CallExit (lid lx) info)
             (trace (emitExit info (state_of (unregisterExitListener lx s))))).
Proof.
  unfold registerActivityListener, unregisterActivityListener,
    registerReadyListener, unregisterReadyListener,
    registerErrorListener, unregisterErrorListener,
    registerExitListener, unregisterExitListener, modify.
  rewrite !state_of_outcome.
  rewrite emitActivity_spec, emitReady_spec, emitError_spec, emitExit_spec.
  rewrite !trace_of_outcome.
  repeat split.
  - intros Hhas. unfold ListenerSet.add. rewrite Hhas. apply set_listeners_same.
  - intros Hnew. destruct s; cbn -[ListenerSet.delete ListenerSet.add ListenerSet.has] in *.
    rewrite delete_after_add by exact Hnew. reflexivity.
  - intros Hin. destruct s; cbn -[ListenerSet.delete guarded_calls] in Hin.
    apply (guarded_call_comes_from_list CallActivity) in Hin;
      [ exact (deleted_id_is_gone _ _ Hin)
      | intros a b [= ->]; reflexivity | discriminate ].
  - intros Hhas. unfold ListenerSet.add. rewrite Hhas. apply set_listeners_same.
  - intros Hnew. destruct s; cbn -[ListenerSet.delete ListenerSet.add ListenerSet.has] in *.
    rewrite delete_after_add by exact Hnew. reflexivity.
  - intros Hin. destruct s; cbn -[ListenerSet.delete guarded_calls] in Hin.
    apply (guarded_call_comes_from_list CallReady) in Hin;
      [ exact (deleted_id_is_gone _ _ Hin)
      | intros a b [= ->]; reflexivity | discriminate ].
  - intros Hhas. unfold ListenerSet.add. rewrite Hhas. apply set_listeners_same.
  - intros Hnew. destruct s; cbn -[ListenerSet.delete ListenerSet.add ListenerSet.has] in *.
    rewrite delete_after_add by exact Hnew. reflexivity.
  - intros Hin. destruct s; cbn -[ListenerSet.delete guarded_calls] in Hin.
    apply (guarded_call_comes_from_list (fun n => CallError n message)) in Hin;
      [ exact (deleted_id_is_gone _ _ Hin)
      | intros a b [= ->]; reflexivity | discriminate ].
  - intros Hhas. unfold ListenerSet.add. rewrite Hhas. apply set_listeners_same.
  - intros Hnew. destruct s; cbn -[ListenerSet.delete ListenerSet.add ListenerSet.has] in *.
    rewrite delete_after_add by exact Hnew. reflexivity.
  - intros Hin. destruct s; cbn -[ListenerSet.delete guarded_calls] in Hin.
    apply (guarded_call_comes_from_list (fun n => CallExit n info)) in Hin;
      [ exact (deleted_id_is_gone _ _ Hin)
      | intros a b [= ->]; reflexivity | discriminate ].
Qed.


(** ** What a capture persists *)

(** X8. An empty buffer is persisted by an interval capture but not by a
    detach capture.  With the store available, the session live and no
    debounce, a capture whose serialized buffer is the empty string
    calls the store with a payload of empty data unless its reason is
    [detach]; a detach capture then calls nothing, and the task it
    started has already finished its body. *)
Theorem empty_buffer_is_saved_except_on_detach (env : Env) (reason : SnapshotReason)
    (s : State) :
  has_ptySaveSnapshot env = true ->
  disposed s = false ->
  debounced env reason s = false ->
  serialized env = Some [] ->
  let out := captureSnapshot env reason s in
  (reason = detach_reason ->
   trace out = []
   /\ inflight (state_of out)
      = inflight s ++ [{| task_id := next_task s; task_reason := reason;
                          task_status := BodyDone |}])
  /\ (reason <> detach_reason ->
      trace out = [PtySaveSnapshot (id s) (make_payload env reason [] s)]
      /\ data (make_payload env reason [] s) = Some (DataString [])
      /\ inflight (state_of out)
         = inflight s ++ [{| task_id := next_task s; task_reason := reason;
                             task_status := AwaitingSave |}]).
Proof.
  intros Hapi Hlive Hdeb Hempty out. subst out.
  rewrite captureSnapshot_started by assumption.
  rewrite trace_of_outcome, state_of_outcome.
  unfold capture_trace, started_task, capture_status. rewrite Hempty.
  cbn [truthy_string negb andb].
  split.
  - intros ->. cbn [is_detach]. split; [reflexivity | destruct s; reflexivity].
  - intros Hother.
    destruct reason; try contradiction; repeat split; destruct s; reflexivity.
Qed.

(** X9. How a capture ends.  When the store replies to a task that was
    waiting for it, the guardrail is told a snapshot was taken exactly
    when the reply is ok; a reply that is not ok, or a rejection, only
    logs a warning and leaves the guardrail alone.  In every case the
    task settles normally, leaves the in-flight list, and the time and
    reason of the capture are recorded. *)
Theorem save_reply_is_handled (env : Env) (tid : nat) (reply : SaveReply)
    (task : CaptureTask) (s : State) :
  find_task tid s = Some task ->
  task_status task = AwaitingSave ->
  let out := settle_capture env tid reply s in
  result out = Returned tt
  /\ metrics (state_of out)
     = match reply with
       | SaveResolved true => markSnapshot (metrics s)
       | _ => metrics s
       end
  /\ trace out
     = match reply with
       | SaveResolved true => []
       | SaveResolved false => [LogWarn "Terminal snapshot save failed"]
       | SaveRejected _ => [LogWarn "terminalSession:snapshotCaptureFailed"]
       end
  /\ find_task tid (state_of out) = None
  /\ lastSnapshotAt (state_of out) = Some (date_now env)
  /\ lastSnapshotReason (state_of out) = Some (task_reason task).
Proof.
  intros Hfind Hstatus out. subst out.
  destruct (settle_capture_found env tid reply task s Hfind)
    as (Hres & Hat & Hre & _ & _ & Hinflight & _).
  split; [exact Hres |].
  assert (Hgone : find_task tid (state_of (settle_capture env tid reply s)) = None).
  { unfold find_task. rewrite Hinflight. clear.
    induction (inflight s) as [| t ts IH]; [reflexivity |].
    cbn [filter]. destruct (Nat.eqb (task_id t) tid) eqn:Et; cbn [negb]; [exact IH |].
    cbn [find]. rewrite Et. exact IH. }
  split; [| split; [| split; [exact Hgone | split; [exact Hat | exact Hre]]]].
  - unfold settle_capture. rewrite bind_get_run, Hfind, Hstatus.
    destruct s as [i att obs ds timer pend dsp opn la lr le lx ff started lat lre mt par infl nt].
    destruct reply as [e | [|]]; cbn; destruct (opt_nat_eqb pend tid); reflexivity.
  - unfold settle_capture. rewrite bind_get_run, Hfind, Hstatus.
    destruct s as [i att obs ds timer pend dsp opn la lr le lx ff started lat lre mt par infl nt].
    destruct reply as [e | [|]]; cbn; destruct (opt_nat_eqb pend tid); reflexivity.
Qed.

(** X10. The debounce concerns consecutive detach captures only: once a
    capture tagged [interval] or [dispose] has completed, the next
    detach capture passes the debounce test however soon it comes. *)
Theorem other_capture_reopens_the_window (env0 env1 : Env) (tid : nat) (reply : SaveReply)
    (task : CaptureTask) (s : State) :
  find_task tid s = Some task ->
  task_reason task <> detach_reason ->
  debounced env1 detach_reason (state_of (settle_capture env0 tid reply s)) = false.
Proof.
  intros Hfind Hreason.
  destruct (settle_capture_found env0 tid reply task s Hfind) as (_ & _ & Hre & _).
  unfold debounced. rewrite Hre.
  destruct (task_reason task); try contradiction; reflexivity.
Qed.

(** ** Restoring what was saved *)


(** X11. Round trip through the store.  The payload a capture hands to
    the store carries the current snapshot version, so when the store
    later returns it, the restore accepts it: the terminal is reset, the
    saved text is written back unchanged, and the terminal is resized to
    the saved dimensions when both are non-zero.  This holds whatever
    the value of the version constant. *)
Theorem saved_snapshot_is_restored (env : Env) (reason : SnapshotReason)
    (text : jsstring) (s s' : State) :
  has_ptySaveSnapshot env = true ->
  disposed s = false ->
  debounced env reason s = false ->
  serialized env = Some text ->
  truthy_string text = true ->
  trace (captureSnapshot env reason s)
  = [PtySaveSnapshot (id s) (make_payload env reason text s)]
  /\ trace (restoreSnapshot (store_reply (make_payload env reason text s)) s')
     = [PtyGetSnapshot (id s'); TerminalReset; TerminalWrite text]
       ++ (if truthy_number (term_cols env) && truthy_number (term_rows env)
           then [TerminalResize (term_cols env) (term_rows env)]
           else []).
Proof.
  intros Hapi Hlive Hdeb Hser Htext. split.
  - rewrite captureSnapshot_started by assumption. rewrite trace_of_outcome.
    unfold capture_trace. rewrite Hser, Htext. reflexivity.
  - unfold store_reply, restoreSnapshot, try_catch.
    rewrite bind_get_run, bind_effect_run.
    cbn [get_snapshot get_ok make_payload data version cols rows truthy_data negb orb].
    rewrite Htext. cbn [negb orb]. rewrite Z.eqb_refl. cbn [negb]. rewrite andb_false_r.
    assert (Hlen : (0 <? Z.of_nat (List.length text)) = true)
      by (destruct text; [discriminate | reflexivity]).
    rewrite Hlen.
    destruct (truthy_number (term_cols env) && truthy_number (term_rows env)); reflexivity.
Qed.


(** X12. A restore that cannot be applied leaves the terminal alone and
    never fails.  The terminal is touched only when the store resolved
    with an ok response whose snapshot carries truthy data; a missing
    bridge function, a null response, a response that is not ok, a
    missing snapshot or empty data restore nothing, and a rejection is
    caught and logged.  In every case the restore resolves and changes
    no field. *)
Theorem restore_needs_ok_data (api : option (GetReply MetricsStats)) (s : State) :
  result (restoreSnapshot api s) = Returned tt
  /\ state_of (restoreSnapshot api s) = s
  /\ (filter touches_terminal_buffer (trace (restoreSnapshot api s)) <> [] ->
      exists response snapshot d,
        api = Some (GetResolved (Some response))
        /\ get_ok response = true
        /\ get_snapshot response = Some snapshot
        /\ data snapshot = Some d
        /\ truthy_data d = true)
  /\ (api = None -> trace (restoreSnapshot api s) = [])
  /\ (forall e, api = Some (GetRejected e) ->
                trace (restoreSnapshot api s)
                = [PtyGetSnapshot (id s); LogWarn "terminalSession:snapshotRestoreFailed"]).
Proof.
  destruct (restoreSnapshot_returns api s) as [Hr Hs].
  split; [exact Hr |]. split; [exact Hs |].
  split; [| split; [intros ->; reflexivity | intros e ->; reflexivity]].
  unfold restoreSnapshot, try_catch.
  destruct api as [[e | [response |]] |]; try (intros Habs; exfalso; apply Habs; reflexivity).
  rewrite bind_get_run, bind_effect_run.
  destruct (get_snapshot response) as [snapshot |] eqn:Hsnap;
    [| intros Habs; exfalso; apply Habs; reflexivity].
  destruct (get_ok response) eqn:Hok;
    [| intros Habs; exfalso; apply Habs; reflexivity].
  destruct (data snapshot) as [d |] eqn:Hdata;
    [| intros Habs; exfalso; apply Habs; reflexivity].
  destruct (truthy_data d) eqn:Hd;
    [| intros Habs; exfalso; apply Habs; reflexivity].
  intros _. exists response, snapshot, d. repeat split; assumption.
Qed.

(** ** Dispose, step by step *)

Lemma guarded_calls_cleanups (warning : string) (ds : list CleanupFn) :
  filter is_cleanup
    (guarded_calls (fun d => RunCleanup (cleanup_tag d)) cleanup_throws warning ds)
  = map (fun d => RunCleanup (cleanup_tag d)) ds.
Proof.
  induction ds as [| d ds IH]; [reflexivity |].
  cbn [guarded_calls flat_map map]. rewrite filter_app.
  fold (guarded_calls (fun d => RunCleanup (cleanup_tag d)) cleanup_throws warning ds).
  rewrite IH. cbn [filter is_cleanup]. destruct (cleanup_throws d); reflexivity.
Qed.

(** X13. Dispose carries on past failures.  On a live session, whether
    or not [ptyKill] throws and whichever cleanup callbacks throw,
    [dispose] returns normally, has asked the transport to kill the
    process, has run every registered cleanup once and in registration
    order, leaves the cleanup list and the four registries empty, and
    ends by disposing the terminal. *)
Theorem dispose_completes_despite_failures (env : Env) (s : State) :
  disposed s = false ->
  let out := dispose env s in
  result out = Returned tt
  /\ filter is_kill (trace out) = [PtyKill (id s)]
  /\ filter is_cleanup (trace out)
     = map (fun d => RunCleanup (cleanup_tag d)) (disposables s)
  /\ disposables (state_of out) = []
  /\ activityListeners (state_of out) = []
  /\ readyListeners (state_of out) = []
  /\ errorListeners (state_of out) = []
  /\ exitListeners (state_of out) = []
  /\ exists before, trace out = before ++ [TerminalDispose].
Proof.
  intros Hlive out. subst out. rewrite dispose_live_spec by exact Hlive.
  rewrite result_of_outcome, trace_of_outcome, state_of_outcome.
  split; [reflexivity |].
  split; [| split; [| repeat split]].
  - unfold dispose_calls, detach_calls. rewrite !filter_app.
    cbn [filter is_kill]. rewrite !filter_app.
    rewrite (guarded_calls_filtered_out is_kill) by reflexivity.
    destruct (attachedContainer s); destruct (resizeObserver s);
      destruct (snapshotTimer s); destruct (ptyKill_throws env); reflexivity.
  - unfold dispose_calls, detach_calls. rewrite !filter_app.
    cbn [filter is_cleanup]. rewrite !filter_app, guarded_calls_cleanups.
    destruct (attachedContainer s); destruct (resizeObserver s);
      destruct (snapshotTimer s); destruct (ptyKill_throws env);
      cbn; rewrite ?app_nil_r; reflexivity.
  - unfold dispose_calls.
    eexists. rewrite !app_assoc. rewrite app_comm_cons, !app_assoc. reflexivity.
Qed.

(** ** What detach sends *)

Lemma size_sync_resizes (env : Env) (s : State) :
  filter is_resize (size_sync env s)
  = if negb (ptyStarted s) || disposed s then []
    else [PtyResize (id s) (term_cols env) (term_rows env)].
Proof.
  unfold size_sync.
  destruct (negb (ptyStarted s) || disposed s); [reflexivity |].
  destruct (ptyResize_throws env); reflexivity.
Qed.

(** X15. Detaching persists the buffer.  Detaching a live, attached
    session whose buffer is not empty, with the store available and no
    debounce, calls the store exactly once, for this session, with a
    payload tagged [detach] that carries the current snapshot version,
    the terminal's current dimensions and the serialized buffer. *)
Theorem detach_saves_the_buffer (env : Env) (c : container) (text : jsstring) (s : State) :
  disposed s = false ->
  attachedContainer s = Some c ->
  has_ptySaveSnapshot env = true ->
  debounced env detach_reason s = false ->
  serialized env = Some text ->
  truthy_string text = true ->
  filter is_save (trace (detach env s))
  = [PtySaveSnapshot (id s)
       {| version := Some TERMINAL_SNAPSHOT_VERSION;
          createdAt := date_iso env;
          cols := Some (term_cols env);
          rows := Some (term_rows env);
          data := Some (DataString text);
          stats := Some (metrics_snapshot (metrics s), detach_reason) |}].
Proof.
  intros Hlive Hatt Hapi Hdeb Hser Htext.
  rewrite detach_spec, Hatt, trace_of_outcome, filter_app.
  assert (Hcalls : filter is_save (detach_calls s) = [])
    by (unfold detach_calls; rewrite Hatt; destruct (resizeObserver s); reflexivity).
  rewrite Hcalls.
  rewrite captureSnapshot_started;
    [| exact Hapi | destruct s; exact Hlive | destruct s; exact Hdeb].
  rewrite trace_of_outcome. unfold capture_trace. rewrite Hser, Htext.
  destruct s; reflexivity.
Qed.


(** ** Starting the process *)

Lemma ready_trace_calls (s : State) :
  filter is_listener_call (trace (emitReady s))
  = map (fun l => CallReady (lid l)) (readyListeners s).
Proof.
  rewrite emitReady_spec, trace_of_outcome.
  apply guarded_calls_only_calls; reflexivity.
Qed.

Lemma error_trace_calls (message : string) (s : State) :
  filter is_listener_call (trace (emitError message s))
  = map (fun l => CallError (lid l) message) (errorListeners s).
Proof.
  rewrite emitError_spec, trace_of_outcome.
  apply guarded_calls_only_calls; reflexivity.
Qed.

Lemma size_sync_calls_no_listener (env : Env) (s : State) :
  filter is_listener_call (size_sync env s) = [].
Proof.
  unfold size_sync. destruct (negb (ptyStarted s) || disposed s); [reflexivity |].
  destruct (ptyResize_throws env); reflexivity.
Qed.

(** X16. A successful start.  When [ptyStart] resolves ok the session is
    marked started, the current terminal size is sent to the transport
    (unless the session is disposed), every ready listener is called, in
    order and whichever of them throw, and the unsubscribe function of
    [onPtyStarted] is kept for dispose when the bridge offers that
    subscription.  No error listener is called. *)
Theorem start_acknowledged (env : Env) (has_onPtyStarted : bool) (error : option string)
    (s : State) :
  let out := on_pty_start_reply env has_onPtyStarted (StartResolved true error) s in
  result out = Returned tt
  /\ ptyStarted (state_of out) = true
  /\ filter is_resize (trace out)
     = (if disposed s then []
        else [PtyResize (id s) (term_cols env) (term_rows env)])
  /\ filter is_listener_call (trace out)
     = map (fun l => CallReady (lid l)) (readyListeners s)
  /\ disposables (state_of out)
     = disposables s
       ++ (if has_onPtyStarted
           then [{| cleanup_tag := offStarted; cleanup_throws := false |}]
           else []).
Proof.
  intros out. subst out. unfold on_pty_start_reply.
  rewrite bind_modify_run.
  erewrite bind_run by apply sendSizeIfStarted_spec.
  erewrite bind_run by apply emitReady_spec.
  set (s1 := set_ptyStarted true s).
  assert (Hready : readyListeners s1 = readyListeners s) by (destruct s; reflexivity).
  assert (Hsync : filter is_resize (size_sync env s1)
                  = if disposed s then []
                    else [PtyResize (id s) (term_cols env) (term_rows env)])
    by (rewrite size_sync_resizes; subst s1; destruct s; reflexivity).
  destruct has_onPtyStarted; cbn [when];
    unfold modify, ret;
    rewrite !result_of_outcome, !state_of_outcome, !trace_of_outcome, ?app_nil_r;
    rewrite !filter_app, Hsync, size_sync_calls_no_listener, Hready;
    rewrite (guarded_calls_only_calls (fun l : Listener unit => CallReady (lid l)))
      by reflexivity;
    rewrite (guarded_calls_filtered_out is_resize) by reflexivity;
    rewrite app_nil_r;
    repeat split; subst s1; destruct s; rewrite ?app_nil_r; reflexivity.
Qed.



(** X18. A late start confirmation counts only for this session.  The
    [onPtyStarted] callback ignores a payload that is missing or names
    another id: nothing changes and nothing is sent.  For its own id it
    marks the session started and sends the current size, unless the
    session is disposed. *)
Theorem late_start_confirmation (env : Env) (payload_id : option string) (s : State) :
  let out := on_pty_started env payload_id s in
  result out = Returned tt
  /\ (payload_id <> Some (id s) -> state_of out = s /\ trace out = [])
  /\ (payload_id = Some (id s) ->
      ptyStarted (state_of out) = true
      /\ filter is_resize (trace out)
         = if disposed s then []
           else [PtyResize (id s) (term_cols env) (term_rows env)]).
Proof.
  intros out. subst out. unfold on_pty_started. rewrite bind_get_run.
  destruct payload_id as [i |].
  - destruct (String.eqb_spec i (id s)) as [-> | Hne].
    + rewrite bind_modify_run, sendSizeIfStarted_spec.
      rewrite result_of_outcome, state_of_outcome, trace_of_outcome.
      split; [reflexivity |]. split; [intros Habs; exfalso; apply Habs; reflexivity |].
      intros _. split; [destruct s; reflexivity |].
      rewrite size_sync_resizes. destruct s; reflexivity.
    + split; [reflexivity |]. split; [intros _; split; reflexivity |].
      intros [= Heq]. contradiction.
  - split; [reflexivity |]. split; [intros _; split; reflexivity | discriminate].
Qed.

(** ** Start-up *)

Lemma restore_then_connect_spec (options : TerminalSessionOptions)
    (api : option (GetReply MetricsStats)) (s : State) :
  let out := restore_then_connect options api s in
  result out = Returned tt
  /\ trace out
     = trace (restoreSnapshot api s)
       ++ [PtyStart (id s) (fst (initialSize options)) (snd (initialSize options))]
  /\ filter is_start (trace out)
     = [PtyStart (id s) (fst (initialSize options)) (snd (initialSize options))]
  /\ disposables (state_of out)
     = disposables s ++ [{| cleanup_tag := offData; cleanup_throws := false |};
                         {| cleanup_tag := offExit; cleanup_throws := false |}].
Proof.
  intros out. subst out. unfold restore_then_connect, finally.
  destruct (restoreSnapshot_returns api s) as [Hr Hs].
  assert (Hquiet : filter is_start (trace (restoreSnapshot api s)) = [])
    by (apply nothing_flagged_by_true; unfold_entry_points; maintain).
  unfold result, state_of, trace in Hr, Hs, Hquiet |- *.
  destruct (restoreSnapshot api s) as [[r s1] t1]. cbn [fst snd] in Hr, Hs, Hquiet.
  subst r s1.
  unfold connectPty. rewrite bind_get_run, bind_effect_run.
  unfold modify. rewrite !result_of_outcome, !state_of_outcome, !trace_of_outcome.
  cbn [fst snd]. rewrite filter_app, Hquiet.
  repeat split.
Qed.

(** X19. The restore never gates the start.  However the snapshot
    restore ends (bridge function missing, rejection, unusable or usable
    payload), the step the constructor chains after it requests the
    process start exactly once, for this session and with the size the
    session was created with, after everything the restore did, and
    subscribes to data and exit.  Nothing in this step looks at the
    disposed flag. *)
Theorem restore_never_gates_the_start (options : TerminalSessionOptions)
    (api : option (GetReply MetricsStats)) (s : State) :
  let out := restore_then_connect options api s in
  result out = Returned tt
  /\ trace out
     = trace (restoreSnapshot api s)
       ++ [PtyStart (id s) (fst (initialSize options)) (snd (initialSize options))]
  /\ filter is_start (trace out)
     = [PtyStart (id s) (fst (initialSize options)) (snd (initialSize options))]
  /\ disposables (state_of out)
     = disposables s ++ [{| cleanup_tag := offData; cleanup_throws := false |};
                         {| cleanup_tag := offExit; cleanup_throws := false |}].
Proof. apply restore_then_connect_spec. Qed.


(** ** A session disposed before its process was requested *)

Lemma handle_disposed_never_cleans (env : Env) (ev : Event) :
  maintains (fun s => disposed s = true)
    (fun e => is_cleanup e || is_kill e) (handle env ev).
Proof.
  destruct ev; cbn [handle];
    try (intros s H;
         first [ rewrite attach_when_disposed by exact H
               | rewrite dispose_when_disposed by exact H ];
         split; [exact H | reflexivity]);
    unfold detach, on_snapshot_timer,
      focus, registerActivityListener, unregisterActivityListener,
      registerReadyListener, unregisterReadyListener,
      registerErrorListener, unregisterErrorListener,
      registerExitListener, unregisterExitListener,
      on_terminal_data, on_terminal_resize, on_container_resize, on_animation_frame,
      settle_capture, restoreSnapshot, connectPty, on_pty_start_reply, on_pty_started,
      on_pty_data, on_pty_exit, emitActivity, emitReady, emitError, emitExit, emit_to;
    cbv zeta;
    repeat first
      [ apply captureSnapshot_disposed_inert
      | apply sendSizeIfStarted_disposed_inert
      | disposed_get_step
      | maintain_step ].
Qed.

(** X20. Disposing a session before its start-up step has run does not
    cancel that step, and nothing undoes it afterwards.  When a live
    session is disposed and the restore then settles, the process start
    is still requested and the data and exit subscriptions are still
    made; they are the only entries on the cleanup list, and whatever
    happens later no cleanup is run and the transport is not asked to
    kill the process again. *)
Theorem start_after_dispose_is_never_undone (env : Env) (options : TerminalSessionOptions)
    (api : option (GetReply MetricsStats)) (events : list (Env * Event)) (s : State) :
  disposed s = false ->
  let disposed_first := state_of (dispose env s) in
  let started := restore_then_connect options api disposed_first in
  filter is_start (trace started)
  = [PtyStart (id s) (fst (initialSize options)) (snd (initialSize options))]
  /\ disposables (state_of started)
     = [{| cleanup_tag := offData; cleanup_throws := false |};
        {| cleanup_tag := offExit; cleanup_throws := false |}]
  /\ filter (fun e => is_cleanup e || is_kill e) (snd (run events (state_of started))) = [].
Proof.
  intros Hlive disposed_first started.
  destruct (restore_then_connect_spec options api disposed_first)
    as (_ & _ & Hstart & Hsubs).
  fold started in Hstart, Hsubs.
  assert (Hid : id disposed_first = id s)
    by (subst disposed_first; rewrite dispose_live_spec by exact Hlive;
        rewrite state_of_outcome; destruct s as [? [?|] ? ? ? ? ? ? ? ? ? ? ? ? ? ? ? ? ? ?];
        reflexivity).
  assert (Hempty : disposables disposed_first = [])
    by (subst disposed_first; rewrite dispose_live_spec by exact Hlive;
        rewrite state_of_outcome; reflexivity).
  rewrite Hid in Hstart. rewrite Hempty in Hsubs.
  split; [exact Hstart |]. split; [exact Hsubs |].
  assert (Hflag : disposed (state_of started) = true).
  { assert (Hkeeps : maintains (fun x => disposed x = true) nothing_flagged
                       (fun x => restore_then_connect options api x)).
    { intros x Hx. unfold restore_then_connect, finally.
      destruct (restoreSnapshot_returns api x) as [_ Hsame].
      unfold state_of in Hsame.
      destruct (restoreSnapshot api x) as [[r x1] t1]. cbn [fst snd] in Hsame. subst x1.
      unfold connectPty. rewrite bind_get_run, bind_effect_run. unfold modify.
      rewrite !result_of_outcome, !state_of_outcome, !trace_of_outcome.
      split; [destruct x; exact Hx | apply nothing_is_flagged]. }
    apply Hkeeps. subst disposed_first. apply dispose_sets_flag. }
  apply (run_maintains (fun x => disposed x = true) (fun e => is_cleanup e || is_kill e)
           handle_disposed_never_cleans events (state_of started) Hflag).
Qed.

(** ** Bookkeeping of capture tasks *)

Lemma captureSnapshot_keeps_books (env : Env) (reason : SnapshotReason) :
  maintains capture_books_sound nothing_flagged (captureSnapshot env reason).
Proof.
  intros s [Hpending Hdistinct].
  destruct (captureSnapshot_keeps_pending env reason s Hpending) as [Hpending' Hquiet].
  split; [| exact Hquiet]. split; [exact Hpending' |].
  destruct (has_ptySaveSnapshot env) eqn:Hapi;
    [destruct (disposed s) eqn:Hlive; [| destruct (debounced env reason s) eqn:Hdeb] |];
    try (rewrite captureSnapshot_skipped by auto; exact Hdistinct).
  rewrite captureSnapshot_started by assumption. rewrite state_of_outcome.
  destruct Hpending as [Hfresh _].
  destruct s as [i att obs ds timer pend dsp opn la lr le lx ff started lat lre mt par infl nt].
  cbn in *. rewrite map_app. cbn [map task_id started_task].
  clear - Hfresh Hdistinct. induction infl as [| t ts IH]; cbn.
  - constructor; [intros [] | constructor].
  - inversion Hdistinct as [| ? ? Ht Hts]; subst. constructor.
    + intros Hin. apply in_app_or in Hin. destruct Hin as [Hin | [Hin | []]].
      * contradiction.
      * specialize (Hfresh t (or_introl eq_refl)). lia.
    + apply IH; [| exact Hts]. intros t' Hin. apply Hfresh. right. exact Hin.
Qed.

Lemma removal_keeps_ids_distinct (tid : nat) (tasks : list CaptureTask) :
  NoDup (map task_id tasks) ->
  NoDup (map task_id (filter (fun t => negb (Nat.eqb (task_id t) tid)) tasks)).
Proof.
  intros Hdistinct. induction tasks as [| t ts IH]; cbn; [constructor |].
  inversion Hdistinct as [| ? ? Ht Hts]; subst.
  destruct (negb (Nat.eqb (task_id t) tid)); cbn; [| apply IH; exact Hts].
  constructor; [| apply IH; exact Hts].
  intros Hin. apply Ht. apply in_map_iff in Hin. destruct Hin as [y [Hy Hin]].
  apply filter_In in Hin. apply in_map_iff. exists y. split; [exact Hy | apply Hin].
Qed.

Lemma settle_capture_keeps_books (env : Env) (tid : nat) (reply : SaveReply) :
  maintains capture_books_sound nothing_flagged (settle_capture env tid reply).
Proof.
  intros s [Hpending Hdistinct].
  destruct (settle_capture_keeps_pending env tid reply s Hpending) as [Hpending' Hquiet].
  split; [| exact Hquiet]. split; [exact Hpending' |].
  destruct (find_task tid s) as [task |] eqn:Hfind;
    [| rewrite settle_capture_missing by exact Hfind; exact Hdistinct].
  destruct (settle_capture_found env tid reply task s Hfind)
    as (_ & _ & _ & _ & _ & Hinflight & _).
  rewrite Hinflight. apply removal_keeps_ids_distinct. exact Hdistinct.
Qed.

Lemma handle_keeps_books (env : Env) (ev : Event) :
  maintains capture_books_sound nothing_flagged (handle env ev).
Proof.
  destruct ev; cbn [handle];
    unfold attach, dispose, detach, on_snapshot_timer,
      focus, registerActivityListener, unregisterActivityListener,
      registerReadyListener, unregisterReadyListener,
      registerErrorListener, unregisterErrorListener,
      registerExitListener, unregisterExitListener,
      on_terminal_data, on_terminal_resize, on_container_resize, on_animation_frame,
      restoreSnapshot, connectPty, on_pty_start_reply, on_pty_started, on_pty_data,
      on_pty_exit, emitActivity, emitReady, emitError, emitExit, emit_to,
      sendSizeIfStarted, stopSnapshotTimer, run_cleanup;
    cbv zeta;
    repeat first
      [ apply captureSnapshot_keeps_books
      | apply settle_capture_keeps_books
      | maintain_step ].
Qed.

Lemma removing_one_id (tid : nat) (tasks : list CaptureTask) :
  NoDup (map task_id tasks) ->
  find (fun t => Nat.eqb (task_id t) tid) tasks <> None ->
  S (List.length (filter (fun t => negb (Nat.eqb (task_id t) tid)) tasks))
  = List.length tasks.
Proof.
  intros Hdistinct. induction tasks as [| t ts IH]; cbn; [congruence |].
  inversion Hdistinct as [| ? ? Ht Hts]; subst.
  destruct (Nat.eqb (task_id t) tid) eqn:Et; cbn.
  - intros _. f_equal. apply Nat.eqb_eq in Et.
    assert (Hall : forall x, In x ts -> negb (Nat.eqb (task_id x) tid) = true).
    { intros x Hin. apply negb_true_iff, Nat.eqb_neq. intros Hx.
      apply Ht. apply in_map_iff. exists x. split; [congruence | exact Hin]. }
    clear - Hall. induction ts as [| x xs IHx]; [reflexivity |].
    cbn. rewrite (Hall x (or_introl eq_refl)). cbn. f_equal.
    apply IHx. intros y Hy. apply Hall. right. exact Hy.
  - intros Hfound. f_equal. apply IH; assumption.
Qed.

(** X21. The bookkeeping of capture tasks stays sound over the whole
    life of a session.  After any sequence of calls and events on a
    newly created session: no two unsettled capture tasks share an id,
    every id in use is below the next one to be issued,
    [pendingSnapshot] is either empty or names the task started last,
    which is then still unsettled, and the completion of an unsettled
    task removes that task and no other from the in-flight list. *)
Theorem capture_bookkeeping_is_sound (options : TerminalSessionOptions)
    (events : list (Env * Event)) (env : Env) (tid : nat) (reply : SaveReply) :
  let s := fst (run events (new_session options)) in
  NoDup (map task_id (inflight s))
  /\ (forall t, In t (inflight s) -> (task_id t < next_task s)%nat)
  /\ (forall p, pendingSnapshot s = Some p ->
                S p = next_task s /\ find_task p s <> None)
  /\ (find_task tid s <> None ->
      S (List.length (inflight (state_of (settle_capture env tid reply s))))
      = List.length (inflight s)).
Proof.
  intros s.
  assert (Hsound : capture_books_sound s).
  { apply (run_maintains capture_books_sound nothing_flagged handle_keeps_books events).
    split; [split |]; cbn.
    - intros t [].
    - intros p Hp. discriminate.
    - constructor. }
  destruct Hsound as [[Hfresh Hpending] Hdistinct].
  split; [exact Hdistinct |]. split; [exact Hfresh |]. split; [exact Hpending |].
  intros Hfound.
  destruct (find_task tid s) as [task |] eqn:Hfind; [| contradiction].
  destruct (settle_capture_found env tid reply task s Hfind)
    as (_ & _ & _ & _ & _ & Hinflight & _).
  rewrite Hinflight. apply removing_one_id; [exact Hdistinct |].
  unfold find_task in Hfind. rewrite Hfind. discriminate.
Qed.

End Facts.

(** * Properties of the main-process handlers *)

Module MainIpcFacts.

Import MainIpc.

Lemma resolve_calls_no_service (sv : Services) (subject workspaceId worktreePath : string) :
  filter is_service_call (snd (resolve_worktree_path sv subject workspaceId worktreePath)) = [].
Proof.
  unfold resolve_worktree_path.
  destruct (String.prefix "wt-" workspaceId).
  - destruct (getWorktree sv workspaceId) as [[wt |] | e]; try reflexivity.
    destruct (getAllWorktrees sv) as [all | e]; [| reflexivity].
    destruct (find _ all); [reflexivity |].
    destruct (isWorktreePath sv worktreePath); reflexivity.
  - destruct (isWorktreePath sv worktreePath); reflexivity.
Qed.


Lemma resolve_is_sound (sv : Services) (subject workspaceId worktreePath p : string) :
  fst (resolve_worktree_path sv subject workspaceId worktreePath) = Done p ->
  sound_directory sv workspaceId worktreePath p
  /\ (String.prefix "wt-" workspaceId = false -> p = worktreePath)
  /\ (forall wt, String.prefix "wt-" workspaceId = true ->
                 getWorktree sv workspaceId = Done (Some wt) -> p = wt_path wt)
  /\ (forall all, String.prefix "wt-" workspaceId = true ->
                  getWorktree sv workspaceId = Done None ->
                  getAllWorktrees sv = Done all ->
                  (forall wt, In wt all -> wt_id wt <> workspaceId) ->
                  p = worktreePath).
Proof.
  unfold resolve_worktree_path, sound_directory.
  destruct (String.prefix "wt-" workspaceId) eqn:Hprefix.
  - destruct (getWorktree sv workspaceId) as [[wt |] | e] eqn:Hget; cbn [fst].
    + intros [= <-]. repeat split.
      * right. split; [reflexivity |]. exists wt. split; [reflexivity | left; reflexivity].
      * discriminate.
      * intros wt' _ [= <-]. reflexivity.
      * intros all _ Habs. discriminate.
    + destruct (getAllWorktrees sv) as [all | e] eqn:Hall; cbn [fst]; [| discriminate].
      destruct (find (fun wt => String.eqb (wt_id wt) workspaceId) all) as [wt |] eqn:Hfind;
        cbn [fst]; intros [= <-].
      * apply find_some in Hfind. destruct Hfind as [Hin Hid].
        apply String.eqb_eq in Hid. repeat split.
        -- right. split; [reflexivity |]. exists wt. split; [reflexivity |].
           right. split; [reflexivity |]. exists all. repeat split; assumption.
        -- discriminate.
        -- intros wt' _ Habs. discriminate.
        -- intros all' _ _ [= <-] Hnone. exfalso. exact (Hnone wt Hin Hid).
      * repeat split; try (left; reflexivity); try discriminate; reflexivity.
    + discriminate.
  - cbn [fst]. intros [= <-]. repeat split; try (left; reflexivity); try discriminate.
Qed.

(** X22. The agent is started in the directory the renderer sent or in
    a registered worktree's directory, never anywhere else.  Both
    ['agent:send-message-stream'] and ['codex:create-agent'] call their
    service at most once; the directory they pass is the provided path
    when the workspace id does not start with [wt-] (the worktree
    service is then not consulted) or when no worktree is registered
    under the id, and otherwise the path of the worktree registered
    under that id, whatever path was provided.  When the worktree
    lookup throws, the service is not called at all. *)
Theorem agent_runs_in_provided_or_registered_directory (sv : Services) (provider : ProviderId)
    (workspaceId worktreePath : string) :
  let started := snd (agent_send_message_stream sv provider workspaceId worktreePath) in
  let created := snd (codex_create_agent sv workspaceId worktreePath) in
  (List.length (filter is_service_call started) <= 1)%nat
  /\ (List.length (filter is_service_call created) <= 1)%nat
  /\ (forall c p, In c (started ++ created) -> call_path c = Some p ->
                  sound_directory sv workspaceId worktreePath p
                  /\ (String.prefix "wt-" workspaceId = false -> p = worktreePath)
                  /\ (forall wt, String.prefix "wt-" workspaceId = true ->
                                 getWorktree sv workspaceId = Done (Some wt) ->
                                 p = wt_path wt))
  /\ (forall e, String.prefix "wt-" workspaceId = true ->
                getWorktree sv workspaceId = Failed e ->
                started = [] /\ created = []).
Proof.
  intros started created. subst started created.
  unfold agent_send_message_stream, codex_create_agent.
  pose proof (resolve_calls_no_service sv (provider_text provider) workspaceId worktreePath)
    as Hquiet1.
  pose proof (resolve_calls_no_service sv "Codex" workspaceId worktreePath) as Hquiet2.
  pose proof (resolve_is_sound sv (provider_text provider) workspaceId worktreePath) as Hsound1.
  pose proof (resolve_is_sound sv "Codex" workspaceId worktreePath) as Hsound2.
  assert (Hnot : forall subject c p,
             In c (snd (resolve_worktree_path sv subject workspaceId worktreePath)) ->
             call_path c = Some p -> False).
  { intros subject c p Hin Hp.
    pose proof (resolve_calls_no_service sv subject workspaceId worktreePath) as Hq.
    assert (Hc : is_service_call c = true) by (destruct c; try discriminate; reflexivity).
    assert (Hin' : In c (filter is_service_call
                          (snd (resolve_worktree_path sv subject workspaceId worktreePath))))
      by (apply filter_In; split; assumption).
    rewrite Hq in Hin'. destruct Hin'. }
  assert (Hfail : forall subject e,
             String.prefix "wt-" workspaceId = true ->
             getWorktree sv workspaceId = Failed e ->
             resolve_worktree_path sv subject workspaceId worktreePath = (Failed e, []))
    by (intros subject e Hp Hg; unfold resolve_worktree_path; rewrite Hp, Hg; reflexivity).
  split; [| split; [| split]].
  - destruct (resolve_worktree_path sv (provider_text provider) workspaceId worktreePath)
      as [[p1 | e1] calls1]; cbn [snd] in *; [| rewrite Hquiet1; cbn; lia].
    destruct (startStream sv provider workspaceId p1); cbn [snd];
      rewrite filter_app, Hquiet1; cbn; lia.
  - destruct (resolve_worktree_path sv "Codex" workspaceId worktreePath)
      as [[p2 | e2] calls2]; cbn [snd] in *; [| rewrite Hquiet2; cbn; lia].
    destruct (createAgent sv workspaceId p2); cbn [snd];
      rewrite filter_app, Hquiet2; cbn; lia.
  - intros c p Hin Hp. apply in_app_or in Hin.
    assert (Hgoal : exists subject,
               fst (resolve_worktree_path sv subject workspaceId worktreePath) = Done p).
    { destruct Hin as [Hin | Hin].
      - exists (provider_text provider).
        specialize (Hnot (provider_text provider)).
        destruct (resolve_worktree_path sv (provider_text provider) workspaceId worktreePath)
          as [[p1 | e1] calls1]; cbn [snd fst] in *;
          [| exfalso; exact (Hnot c p Hin Hp)].
        destruct (startStream sv provider workspaceId p1); cbn [snd] in Hin;
          apply in_app_or in Hin;
          (destruct Hin as [Hin | [<- | []]];
           [exfalso; exact (Hnot c p Hin Hp) | cbn in Hp; congruence]).
      - exists "Codex"%string.
        specialize (Hnot "Codex"%string).
        destruct (resolve_worktree_path sv "Codex" workspaceId worktreePath)
          as [[p2 | e2] calls2]; cbn [snd fst] in *;
          [| exfalso; exact (Hnot c p Hin Hp)].
        destruct (createAgent sv workspaceId p2); cbn [snd] in Hin;
          apply in_app_or in Hin;
          (destruct Hin as [Hin | [<- | []]];
           [exfalso; exact (Hnot c p Hin Hp) | cbn in Hp; congruence]). }
    destruct Hgoal as [subject Hdone].
    destruct (resolve_is_sound sv subject workspaceId worktreePath p Hdone)
      as (H1 & H2 & H3 & _).
    split; [exact H1 | split; [exact H2 | exact H3]].
  - intros e Hp Hg. rewrite (Hfail (provider_text provider) e Hp Hg).
    rewrite (Hfail "Codex"%string e Hp Hg). split; reflexivity.
Qed.

(** X23. When the completion notification is shown.  A notification is
    shown exactly when the settings could be read, notifications are
    enabled, the platform supports them and no window has the focus;
    then exactly one is shown, titled with the provider name, silent
    unless the sound setting is on.  A failure to read the settings or
    to show the notification is reported on the console and goes no
    further. *)
Theorem completion_notification_policy (sv : Services) (providerName : string) :
  let calls := showCompletionNotification sv providerName in
  (filter is_notification calls <> [] <->
   exists n,
     getAppSettings sv = Done (Some n)
     /\ enabled n = true
     /\ notification_isSupported sv = true
     /\ forallb negb (windows_focused sv) = true)
  /\ (forall n,
        getAppSettings sv = Done (Some n) ->
        enabled n = true ->
        notification_isSupported sv = true ->
        forallb negb (windows_focused sv) = true ->
        filter is_notification calls
        = [ShowNotification (providerName ++ " Task Complete")
             "Your agent has finished working" (negb (sound n))])
  /\ (List.length (filter is_notification calls) <= 1)%nat.
Proof.
  intros calls. subst calls. unfold showCompletionNotification.
  assert (Hfocus : forall ws, existsb (fun focused : bool => focused) ws
                              = negb (forallb negb ws)).
  { induction ws as [| w ws IH]; [reflexivity |].
    cbn. rewrite IH. destruct w; reflexivity. }
  rewrite Hfocus.
  destruct (getAppSettings sv) as [[n |] | e].
  - destruct (enabled n) eqn:Hen; cbn [negb].
    + destruct (notification_isSupported sv) eqn:Hsup; cbn [negb].
      * destruct (forallb negb (windows_focused sv)) eqn:Hfoc; cbn [negb].
        -- split; [| split].
           ++ split; [intros _; exists n; repeat split; assumption
                     | intros _; destruct (notification_show_fails sv); discriminate].
           ++ intros n' [= <-] _ _ _. destruct (notification_show_fails sv); reflexivity.
           ++ destruct (notification_show_fails sv); cbn; lia.
        -- split; [| split; [| cbn; lia]].
           ++ split; [intros Habs; exfalso; apply Habs; reflexivity
                     | intros (n' & _ & _ & _ & Habs); discriminate].
           ++ intros n' _ _ _ Habs. discriminate.
      * split; [| split; [| cbn; lia]].
        -- split; [intros Habs; exfalso; apply Habs; reflexivity
                  | intros (n' & _ & _ & Habs & _); discriminate].
        -- intros n' _ _ Habs. discriminate.
    + split; [| split; [| cbn; lia]].
      * split; [intros Habs; exfalso; apply Habs; reflexivity
               | intros (n' & [= <-] & Habs & _); congruence].
      * intros n' [= <-] Habs. congruence.
  - cbn [negb]. split; [| split; [| cbn; lia]].
    + split; [intros Habs; exfalso; apply Habs; reflexivity
             | intros (n' & Habs & _); discriminate].
    + intros n' Habs. discriminate.
  - split; [| split; [| cbn; lia]].
    + split; [intros Habs; exfalso; apply Habs; reflexivity
             | intros (n' & Habs & _); discriminate].
    + intros n' Habs. discriminate.
Qed.

End MainIpcFacts.

(** * The definitions at work on the sample session *)

Module Evaluated.

Import Sample.

#[local] Existing Instance W.

Example replace_strips_reports :
  FocusFilter.replace_focus_reports typed_ls = js "ls".
Proof. reflexivity. Qed.

Example replace_of_reports_only_is_empty :
  FocusFilter.replace_focus_reports (focus_in ++ focus_out) = [].
Proof. reflexivity. Qed.

(** The replace is a single pass: units on either side of a removed
    report may join into a new report, which is then left in place. *)
Remark replace_is_a_single_pass :
  FocusFilter.replace_focus_reports ([27] ++ focus_in ++ [91; 73])%N = focus_in.
Proof. reflexivity. Qed.

Example second_listener_throws :
  emitActivity three_listeners
  = (Returned tt, three_listeners,
     [CallActivity 1%nat; CallActivity 2%nat;
      LogWarn "Terminal activity listener failed"; CallActivity 3%nat]).
Proof. reflexivity. Qed.

(** C1. [dispose()] on the running session attached to surface 1, with
    the store available and ["ab"] in the buffer: the surface is
    released, the timer stopped, the transport killed, the cleanups run
    and the registries emptied, but the store is never called; no
    snapshot tagged [dispose] (or any other) is saved, and no capture
    task is started. *)
Theorem dispose_of_attached_session_saves_nothing :
  let out := dispose (env_at 5000 "ab") attached in
  trace out
  = [ObserverDisconnect 1%nat; AppendChild TerminalHost; ClearInterval; PtyKill "w1";
     RunCleanup inputDisposable; RunCleanup resizeDisposable;
     RunCleanup offData; RunCleanup offExit; TerminalDispose]
  /\ filter (is_save_tagged dispose_reason) (trace out) = []
  /\ filter is_save (trace out) = []
  /\ inflight (state_of out) = []
  /\ pendingSnapshot (state_of out) = None.
Proof. vm_compute. repeat split. Qed.

(** The same capture made an instant before the flag is set does reach
    the store. *)
Example capture_before_dispose_saves :
  filter (is_save_tagged dispose_reason)
    (trace (captureSnapshot (env_at 5000 "ab") dispose_reason attached))
  = [PtySaveSnapshot "w1"
       (make_payload (env_at 5000 "ab") dispose_reason (js "ab") attached)].
Proof. reflexivity. Qed.

(** C2, counterexample.  The current version is 1 and the stored payload
    has version 0, yet the payload is restored: the terminal is reset,
    written to and resized. *)
Lemma restore_applies_version_zero :
  TERMINAL_SNAPSHOT_VERSION (Imports := W) = 1
  /\ version version_zero_payload = Some 0
  /\ trace (restoreSnapshot (store_returns version_zero_payload) fresh)
     = [PtyGetSnapshot "w1"; TerminalReset; TerminalWrite (js "ls"); TerminalResize 80 24].
Proof. repeat split. Qed.

Lemma restore_discards_other_nonzero_version_witness :
  version version_two_payload = Some 2
  /\ 2 <> 0
  /\ 2 <> TERMINAL_SNAPSHOT_VERSION (Imports := W)
  /\ filter touches_terminal_buffer
       (trace (restoreSnapshot (store_returns version_two_payload) fresh)) = [].
Proof.
  assert (Hcurrent : 2 <> TERMINAL_SNAPSHOT_VERSION (Imports := W)) by (vm_compute; lia).
  split; [reflexivity |]. split; [lia |]. split; [exact Hcurrent |].
  apply (restore_discards_other_nonzero_version
           {| get_ok := true; get_snapshot := Some version_two_payload |}
           version_two_payload 2 fresh);
    [reflexivity | reflexivity | lia | exact Hcurrent].
Defined.

(** C3, counterexample.  The pending task recorded for the session
    (task 0, started by the timer) is still unresolved when the surface
    is detached one millisecond later; the detach starts a second task
    and calls the store a second time, so two capture tasks are in
    flight. *)
Lemma second_capture_starts_while_first_is_pending :
  pendingSnapshot interval_capture_pending = Some 0%nat
  /\ find_task 0%nat interval_capture_pending
     = Some {| task_id := 0; task_reason := interval; task_status := AwaitingSave |}
  /\ inflight (state_of (detach (env_at 2001 "ab") interval_capture_pending))
     = [{| task_id := 0; task_reason := interval; task_status := AwaitingSave |};
        {| task_id := 1; task_reason := detach_reason; task_status := AwaitingSave |}]
  /\ List.length (filter is_save (trace (detach (env_at 2001 "ab") interval_capture_pending)))
     = 1%nat.
Proof. vm_compute. repeat split. Qed.

Lemma capture_starts_task_whatever_is_pending_witness :
  has_ptySaveSnapshot (env_at 2001 "ab") = true
  /\ disposed interval_capture_pending = false
  /\ debounced (env_at 2001 "ab") detach_reason interval_capture_pending = false
  /\ pendingSnapshot interval_capture_pending = Some 0%nat
  /\ pendingSnapshot
       (state_of (captureSnapshot (env_at 2001 "ab") detach_reason interval_capture_pending))
     = Some 1%nat.
Proof.
  split; [reflexivity |]. split; [reflexivity |]. split; [reflexivity |].
  split; [reflexivity |].
  apply (capture_starts_task_whatever_is_pending
           (env_at 2001 "ab") detach_reason interval_capture_pending);
    reflexivity.
Defined.

(** C4, counterexample.  The process exits, then the user types [ls]:
    the input is written to the transport. *)
Lemma input_is_forwarded_after_exit :
  snd (run [(env_at 3000 "", PtyExit exited_normally);
            (env_at 3001 "", TerminalData (js "ls"))] running)
  = [PtyInput "w1" (js "ls")].
Proof. reflexivity. Qed.

Lemma input_after_exit_is_still_forwarded_witness :
  let exited := on_pty_exit exited_normally exit_watched in
  let later := fst (run after_exit (state_of exited)) in
  disposed later = false
  /\ truthy_string (FocusFilter.replace_focus_reports typed_ls) = true
  /\ filter is_listener_call (trace exited)
     = [CallExit 1%nat exited_normally; CallExit 2%nat exited_normally]
  /\ ptyStarted (state_of exited) = false
  /\ filter is_input (trace (on_terminal_data typed_ls later)) = [PtyInput "w1" (js "ls")].
Proof.
  intros exited later.
  assert (Hlive : disposed later = false) by reflexivity.
  assert (Hnonempty : truthy_string (FocusFilter.replace_focus_reports typed_ls) = true)
    by reflexivity.
  destruct (input_after_exit_is_still_forwarded
              (env_at 3000 "") exited_normally after_exit typed_ls exit_watched)
    as ((_ & Hcalls & _ & Hstopped & _) & _ & _ & Hforwarded & _).
  split; [exact Hlive |]. split; [exact Hnonempty |].
  split; [exact Hcalls |]. split; [exact Hstopped |].
  exact (Hforwarded Hlive Hnonempty).
Defined.

Lemma detach_capture_debounce_witness :
  find_task 0%nat detach_capture_pending
  = Some {| task_id := 0; task_reason := detach_reason; task_status := AwaitingSave |}
  /\ 0 < date_now (env_at 2100 "ab")
  /\ date_now (env_at 3599 "ab") - date_now (env_at 2100 "ab") < 1500
  /\ 1500 <= date_now (env_at 3600 "ab") - date_now (env_at 2100 "ab")
  /\ (let s1 := state_of (settle_capture (env_at 2100 "ab") 0%nat (SaveResolved true)
                            detach_capture_pending) in
      captureSnapshot (env_at 3599 "ab") detach_reason s1 = (Returned None, s1, [])
      /\ debounced (env_at 3600 "ab") detach_reason s1 = false).
Proof.
  assert (Hsoon : date_now (env_at 3599 "ab") - date_now (env_at 2100 "ab") < 1500)
    by (simpl; lia).
  assert (Hlate : 1500 <= date_now (env_at 3600 "ab") - date_now (env_at 2100 "ab"))
    by (simpl; lia).
  split; [reflexivity |]. split; [simpl; lia |].
  split; [exact Hsoon |]. split; [exact Hlate |].
  split.
  - apply (detach_capture_debounce (env_at 2100 "ab") (env_at 3599 "ab") 0%nat
             (SaveResolved true)
             {| task_id := 0; task_reason := detach_reason; task_status := AwaitingSave |}
             detach_capture_pending);
      [reflexivity | reflexivity | simpl; lia | exact Hsoon].
  - apply (detach_capture_debounce (env_at 2100 "ab") (env_at 3600 "ab") 0%nat
             (SaveResolved true)
             {| task_id := 0; task_reason := detach_reason; task_status := AwaitingSave |}
             detach_capture_pending);
      [reflexivity | reflexivity | simpl; lia | exact Hlate].
Defined.

Lemma at_most_one_attachment_witness :
  attachment_consistent fresh
  /\ disposed attached = false
  /\ attachedContainer attached = Some 1%nat
  /\ 2%nat <> 1%nat
  /\ attachedContainer running = None
  /\ attachment_consistent (fst (run tab_switching fresh))
  /\ attach (env_at 3000 "ab") 1%nat attached = (Returned tt, attached, [])
  /\ attachedContainer (state_of (attach (env_at 3000 "ab") 2%nat attached)) = Some 2%nat
  /\ detach (env_at 3000 "ab") running = (Returned tt, running, []).
Proof.
  assert (Hfresh : attachment_consistent fresh) by (split; reflexivity).
  assert (Hne : 2%nat <> 1%nat) by lia.
  destruct (at_most_one_attachment (env_at 3000 "ab") tab_switching)
    as (Hrun & Hsame & Hother & Hnone).
  split; [exact Hfresh |]. split; [reflexivity |]. split; [reflexivity |].
  split; [exact Hne |]. split; [reflexivity |].
  split; [exact (Hrun fresh Hfresh) |].
  split; [exact (Hsame attached 1%nat eq_refl eq_refl) |].
  split; [| exact (Hnone running eq_refl)].
  exact (proj1 (proj2 (proj2 (proj2 (proj2
           (Hother attached 2%nat 1%nat eq_refl eq_refl Hne)))))).
Defined.

(** [nearly_full] is where the guardrail stands once the running
    session has been sent [big_chunk]. *)
Remark big_chunk_fills_the_window :
  fst (canAccept big_chunk (metrics running)) = true
  /\ metrics (state_of (on_pty_data (env_at 3900 "") big_chunk running))
     = metrics nearly_full.
Proof.
  assert (Hsize : SpecMetrics.chunk_size big_chunk = MAX_DATA_WINDOW_BYTES - 1).
  { unfold SpecMetrics.chunk_size, big_chunk.
    rewrite repeat_length. apply Z2Nat.id. discriminate. }
  assert (Haccept : canAccept big_chunk (metrics running) = (true, metrics nearly_full)).
  { change (canAccept big_chunk (metrics running))
      with (SpecMetrics.spec_canAccept big_chunk (SpecMetrics.spec_new MAX_DATA_WINDOW_BYTES)).
    unfold SpecMetrics.spec_canAccept. rewrite Hsize. reflexivity. }
  rewrite on_pty_data_spec, state_of_outcome, Haccept. split; reflexivity.
Qed.

Lemma rejected_chunk_clears_and_warns_witness :
  fst (canAccept (js "ab") (metrics nearly_full)) = false
  /\ trace (on_pty_data (env_at 4000 "") (js "ab") nearly_full)
     = [LogWarn "Terminal scrollback truncated to protect memory";
        TerminalClear; TerminalWriteln TRUNCATION_NOTICE; TerminalWrite (js "ab");
        TerminalRefresh 0 23]
  /\ metrics (state_of (on_pty_data (env_at 4000 "") (js "ab") nearly_full))
     = snd (canAccept (js "ab") (metrics nearly_full)).
Proof.
  split; [reflexivity |].
  destruct (rejected_chunk_clears_and_warns (env_at 4000 "") (js "ab") nearly_full eq_refl)
    as (_ & Htrace & Hmetrics).
  split; [exact Htrace | exact Hmetrics].
Defined.

Lemma input_is_filtered_before_forwarding_witness :
  disposed three_listeners = false
  /\ filter is_input (trace (on_terminal_data typed_ls three_listeners))
     = [PtyInput "w1" (js "ls")]
  /\ filter is_listener_call (trace (on_terminal_data typed_ls three_listeners))
     = [CallActivity 1%nat; CallActivity 2%nat; CallActivity 3%nat].
Proof.
  split; [reflexivity |].
  destruct (input_is_filtered_before_forwarding typed_ls three_listeners eq_refl)
    as (_ & Hinput & _ & Hcalls).
  split; [exact Hinput | exact Hcalls].
Defined.


(** ** Further properties, on the sample session *)

Lemma disposed_session_stays_inert_witness :
  disposed disposed_session = true
  /\ disposed (fst (run late_events disposed_session)) = true
  /\ filter acts_on_transport (snd (run late_events disposed_session)) = [].
Proof.
  split; [reflexivity |].
  apply (disposed_session_stays_inert late_events disposed_session).
  reflexivity.
Defined.

Lemma terminal_is_opened_at_most_once_witness :
  opened attached = true
  /\ filter is_open (snd (run tab_switching attached)) = [].
Proof.
  split; [reflexivity |].
  apply (proj2 (terminal_is_opened_at_most_once tab_switching attached)).
  reflexivity.
Defined.

Lemma first_frame_is_refreshed_at_most_once_witness :
  firstFrameRendered streaming = true
  /\ filter is_refresh (snd (run more_output streaming)) = [].
Proof.
  split; [reflexivity |].
  apply (proj2 (first_frame_is_refreshed_at_most_once more_output streaming)).
  reflexivity.
Defined.

Lemma snapshot_timer_is_cleared_at_most_once_witness :
  snapshotTimer disposed_session = false
  /\ filter is_timer_call (snd (run late_events disposed_session)) = [].
Proof.
  split; [reflexivity |].
  apply (proj2 (proj2 (snapshot_timer_is_cleared_at_most_once late_events disposed_session))).
  reflexivity.
Defined.

Lemma each_callback_is_called_once_per_emit_witness :
  registries_distinct fresh
  /\ NoDup (filter is_listener_call
              (trace (emitActivity (fst (run registering_twice fresh))))).
Proof.
  assert (Hfresh : registries_distinct fresh) by (repeat split; constructor).
  split; [exact Hfresh |].
  apply (each_callback_is_called_once_per_emit registering_twice fresh
           "" exited_normally Hfresh).
Defined.

Lemma register_and_deregister_witness :
  ListenerSet.has (quiet 1) (activityListeners three_listeners) = true
  /\ ListenerSet.has (quiet 7) (activityListeners three_listeners) = false
  /\ state_of (registerActivityListener (quiet 1) three_listeners) = three_listeners
  /\ state_of (unregisterActivityListener (quiet 7)
                 (state_of (registerActivityListener (quiet 7) three_listeners)))
     = three_listeners.
Proof.
  split; [reflexivity |]. split; [reflexivity |].
  split.
  - apply (register_and_deregister (quiet 1) (quiet 1)
             {| lid := 1; lthrows := fun _ => false |}
             {| lid := 1; lthrows := fun _ => false |}
             "" exited_normally three_listeners).
    reflexivity.
  - apply (register_and_deregister (quiet 7) (quiet 7)
             {| lid := 7; lthrows := fun _ => false |}
             {| lid := 7; lthrows := fun _ => false |}
             "" exited_normally three_listeners).
    reflexivity.
Defined.

Lemma empty_buffer_is_saved_except_on_detach_witness :
  has_ptySaveSnapshot (env_at 2000 "") = true
  /\ disposed attached = false
  /\ debounced (env_at 2000 "") interval attached = false
  /\ serialized (env_at 2000 "") = Some []
  /\ interval <> detach_reason
  /\ trace (captureSnapshot (env_at 2000 "") interval attached)
     = [PtySaveSnapshot "w1" (make_payload (env_at 2000 "") interval [] attached)].
Proof.
  assert (Hreason : interval <> detach_reason) by discriminate.
  split; [reflexivity |]. split; [reflexivity |]. split; [reflexivity |].
  split; [reflexivity |]. split; [exact Hreason |].
  apply (proj2 (empty_buffer_is_saved_except_on_detach (env_at 2000 "") interval attached
                  eq_refl eq_refl eq_refl eq_refl)).
  exact Hreason.
Defined.

Lemma save_reply_is_handled_witness :
  find_task 0%nat detach_capture_pending
  = Some {| task_id := 0; task_reason := detach_reason; task_status := AwaitingSave |}
  /\ trace (settle_capture (env_at 2100 "ab") 0%nat (SaveResolved false)
              detach_capture_pending)
     = [LogWarn "Terminal snapshot save failed"]
  /\ metrics (state_of (settle_capture (env_at 2100 "ab") 0%nat (SaveResolved false)
                          detach_capture_pending))
     = metrics detach_capture_pending.
Proof.
  split; [reflexivity |].
  destruct (save_reply_is_handled (env_at 2100 "ab") 0%nat (SaveResolved false)
              {| task_id := 0; task_reason := detach_reason; task_status := AwaitingSave |}
              detach_capture_pending eq_refl eq_refl)
    as (_ & Hmetrics & Htrace & _).
  split; [exact Htrace | exact Hmetrics].
Defined.

Lemma other_capture_reopens_the_window_witness :
  find_task 0%nat interval_capture_pending
  = Some {| task_id := 0; task_reason := interval; task_status := AwaitingSave |}
  /\ interval <> detach_reason
  /\ debounced (env_at 2101 "ab") detach_reason
       (state_of (settle_capture (env_at 2100 "ab") 0%nat (SaveResolved true)
                    interval_capture_pending))
     = false.
Proof.
  assert (Hreason : interval <> detach_reason) by discriminate.
  split; [reflexivity |]. split; [exact Hreason |].
  apply (other_capture_reopens_the_window (env_at 2100 "ab") (env_at 2101 "ab") 0%nat
           (SaveResolved true)
           {| task_id := 0; task_reason := interval; task_status := AwaitingSave |}
           interval_capture_pending eq_refl Hreason).
Defined.

Lemma saved_snapshot_is_restored_witness :
  has_ptySaveSnapshot (env_at 2000 "ab") = true
  /\ disposed attached = false
  /\ debounced (env_at 2000 "ab") interval attached = false
  /\ serialized (env_at 2000 "ab") = Some (js "ab")
  /\ truthy_string (js "ab") = true
  /\ trace (restoreSnapshot
              (store_reply (make_payload (env_at 2000 "ab") interval (js "ab") attached))
              fresh)
     = [PtyGetSnapshot "w1"; TerminalReset; TerminalWrite (js "ab"); TerminalResize 80 24].
Proof.
  split; [reflexivity |]. split; [reflexivity |]. split; [reflexivity |].
  split; [reflexivity |]. split; [reflexivity |].
  apply (proj2 (saved_snapshot_is_restored (env_at 2000 "ab") interval (js "ab")
                  attached fresh eq_refl eq_refl eq_refl eq_refl eq_refl)).
Defined.

Lemma restore_needs_ok_data_witness :
  trace (restoreSnapshot None fresh) = []
  /\ trace (restoreSnapshot (Some (GetRejected (JsErr "store is down"))) fresh)
     = [PtyGetSnapshot "w1"; LogWarn "terminalSession:snapshotRestoreFailed"].
Proof.
  split.
  - apply (proj1 (proj2 (proj2 (proj2 (restore_needs_ok_data None fresh))))).
    reflexivity.
  - apply (proj2 (proj2 (proj2 (proj2
             (restore_needs_ok_data (Some (GetRejected (JsErr "store is down"))) fresh))))
             (JsErr "store is down")).
    reflexivity.
Defined.

Lemma dispose_completes_despite_failures_witness :
  disposed attached = false
  /\ ptyKill_throws env_kill_fails = true
  /\ result (dispose env_kill_fails attached) = Returned tt
  /\ filter is_cleanup (trace (dispose env_kill_fails attached))
     = [RunCleanup inputDisposable; RunCleanup resizeDisposable;
        RunCleanup offData; RunCleanup offExit].
Proof.
  split; [reflexivity |]. split; [reflexivity |].
  destruct (dispose_completes_despite_failures env_kill_fails attached eq_refl)
    as (Hresult & _ & Hcleanups & _).
  split; [exact Hresult | exact Hcleanups].
Defined.

Lemma detach_saves_the_buffer_witness :
  disposed attached = false
  /\ attachedContainer attached = Some 1%nat
  /\ has_ptySaveSnapshot (env_at 2000 "ab") = true
  /\ debounced (env_at 2000 "ab") detach_reason attached = false
  /\ serialized (env_at 2000 "ab") = Some (js "ab")
  /\ truthy_string (js "ab") = true
  /\ List.length (filter is_save (trace (detach (env_at 2000 "ab") attached))) = 1%nat.
Proof.
  split; [reflexivity |]. split; [reflexivity |]. split; [reflexivity |].
  split; [reflexivity |]. split; [reflexivity |]. split; [reflexivity |].
  rewrite (detach_saves_the_buffer (env_at 2000 "ab") 1%nat (js "ab") attached
             eq_refl eq_refl eq_refl eq_refl eq_refl eq_refl).
  reflexivity.
Defined.


Lemma late_start_confirmation_witness :
  Some "w2"%string <> Some (id fresh)
  /\ Some "w1"%string = Some (id fresh)
  /\ state_of (on_pty_started (env_at 1001 "") (Some "w2"%string) fresh) = fresh
  /\ ptyStarted (state_of (on_pty_started (env_at 1001 "") (Some "w1"%string) fresh)) = true.
Proof.
  assert (Hother : Some "w2"%string <> Some (id fresh)) by discriminate.
  split; [exact Hother |]. split; [reflexivity |]. split.
  - apply (proj1 (proj2 (late_start_confirmation (env_at 1001 "") (Some "w2"%string) fresh))).
    exact Hother.
  - apply (proj2 (proj2 (late_start_confirmation (env_at 1001 "") (Some "w1"%string) fresh))).
    reflexivity.
Defined.

Lemma start_after_dispose_is_never_undone_witness :
  disposed fresh = false
  /\ filter is_start
       (trace (restore_then_connect options None
                 (state_of (dispose (env_at 900 "") fresh))))
     = [PtyStart "w1" 80 24]
  /\ filter (fun e => is_cleanup e || is_kill e)
       (snd (run late_events
               (state_of (restore_then_connect options None
                            (state_of (dispose (env_at 900 "") fresh))))))
     = [].
Proof.
  split; [reflexivity |].
  destruct (start_after_dispose_is_never_undone (env_at 900 "") options None late_events
              fresh eq_refl)
    as (Hstart & _ & Hnever).
  split; [exact Hstart | exact Hnever].
Defined.

Lemma capture_bookkeeping_is_sound_witness :
  find_task 0%nat (fst (run captures_overlapping (new_session options))) <> None
  /\ S (List.length
          (inflight (state_of (settle_capture (env_at 2100 "ab") 0%nat (SaveResolved true)
                                 (fst (run captures_overlapping (new_session options)))))))
     = List.length (inflight (fst (run captures_overlapping (new_session options)))).
Proof.
  assert (Hfound : find_task 0%nat (fst (run captures_overlapping (new_session options)))
                   <> None) by discriminate.
  split; [exact Hfound |].
  apply (capture_bookkeeping_is_sound options captures_overlapping (env_at 2100 "ab")
           0%nat (SaveResolved true)).
  exact Hfound.
Defined.

Lemma agent_runs_in_provided_or_registered_directory_witness :
  In (MainIpc.StartStream MainIpc.claude "wt-42" "/repo/worktrees/feature")
     (snd (MainIpc.agent_send_message_stream services MainIpc.claude "wt-42" "/tmp/x"))
  /\ MainIpc.sound_directory services "wt-42" "/tmp/x" "/repo/worktrees/feature".
Proof.
  assert (Hin : In (MainIpc.StartStream MainIpc.claude "wt-42" "/repo/worktrees/feature")
                  (snd (MainIpc.agent_send_message_stream services MainIpc.claude
                          "wt-42" "/tmp/x")))
    by (right; left; reflexivity).
  split; [exact Hin |].
  destruct (MainIpcFacts.agent_runs_in_provided_or_registered_directory services
              MainIpc.claude "wt-42" "/tmp/x")
    as (_ & _ & Hsound & _).
  apply (Hsound (MainIpc.StartStream MainIpc.claude "wt-42" "/repo/worktrees/feature")
           "/repo/worktrees/feature"%string);
    [apply in_or_app; left; exact Hin | reflexivity].
Defined.

Lemma completion_notification_policy_witness :
  MainIpc.getAppSettings services
  = MainIpc.Done (Some {| MainIpc.enabled := true; MainIpc.sound := false |})
  /\ MainIpc.notification_isSupported services = true
  /\ forallb negb (MainIpc.windows_focused services) = true
  /\ filter MainIpc.is_notification (MainIpc.showCompletionNotification services "Claude")
     = [MainIpc.ShowNotification "Claude Task Complete" "Your agent has finished working" true].
Proof.
  split; [reflexivity |]. split; [reflexivity |]. split; [reflexivity |].
  apply (proj1 (proj2 (MainIpcFacts.completion_notification_policy services "Claude"))
           {| MainIpc.enabled := true; MainIpc.sound := false |});
    reflexivity.
Defined.

End Evaluated.
